(** * Work-Eye dashboard: timestamp formatting utilities

    A shallow embedding of the two time-formatting modules of the
    dashboard,

      - the timezone utilities ([formatLocalTime], [formatLocalDateTime],
        [formatScreenshotTime], [formatActivityTime]), and
      - [src/utils/timeUtils.ts] ([formatLastActivity]),

    together with the fragment of the JavaScript platform they run on:
    strings, the regular expressions that appear literally in the source,
    [parseInt], [padStart], and the time-value arithmetic of [Date]
    (ECMAScript, section "Date Objects").

    Conventions.
      - A JavaScript string is a [string]; every character stands for one
        code unit in the range 0..255.
      - A JavaScript number that holds an integer is a [Z]; [NaN] is [None].
        Time values are bounded by 8.64e15 in absolute value and are
        represented exactly by a double, and so are the quotients that the
        source takes with [Math.floor]; a difference of two time values
        beyond 2^53 may be rounded by one unit, far from every threshold
        the source compares it with.  The arithmetic on [Z] therefore
        takes the same branches and prints the same numbers as the source.
      - The ambient clock, the local time zone, the host's date parser and
        the host's locale-aware renderers are the fields of an environment
        [Env] that every formatter receives.
      - Control flow is explicit: a block completes normally, by [return]
        or by [throw], and [try]/[catch] is an operator on completions.
        The [console.error] call of each handler writes to the console and
        has no part in the result; it is left out. *)

From Stdlib Require Import ZArith Lia List Bool Ascii String.
From Stdlib Require Import DecimalString Decimal.
Import ListNotations.

Local Open Scope string_scope.
Local Open Scope Z_scope.

(* ================================================================== *)
(** ** Completions: normal, return, throw *)
(* ================================================================== *)

Inductive exn : Type :=
| RangeError (msg : string)
| TypeError (msg : string).

(** The way a block of statements ends.  [R] is the type of the value the
    enclosing function returns, [A] the type of the value a normal
    completion hands to the rest of the block. *)
Inductive completion (R A : Type) : Type :=
| Normal (a : A)
| Return (r : R)
| Throw (e : exn).

Arguments Normal {R A} a.
Arguments Return {R A} r.
Arguments Throw {R A} e.

(** The way a function call ends. *)
Inductive outcome (A : Type) : Type :=
| Returns (a : A)
| Raises (e : exn).

Arguments Returns {A} a.
Arguments Raises {A} e.

Definition bind {R A B} (c : completion R A) (k : A -> completion R B)
  : completion R B :=
  match c with
  | Normal a => k a
  | Return r => Return r
  | Throw e => Throw e
  end.

Notation "x <- c ;; k" := (bind c (fun x => k))
  (at level 61, c at next level, right associativity).

(** [try { body } catch (error) { handler }] *)
Definition try_catch {R A} (body : completion R A)
           (handler : exn -> completion R A) : completion R A :=
  match body with
  | Throw e => handler e
  | _ => body
  end.

(** The value of a call expression inside a block. *)
Definition perform {R A} (o : outcome A) : completion R A :=
  match o with
  | Returns a => Normal a
  | Raises e => Throw e
  end.

(** A function whose body always ends in [return] or [throw]. *)
Definition call {R} (body : completion R Empty_set) : outcome R :=
  match body with
  | Normal a => match a with end
  | Return r => Returns r
  | Throw e => Raises e
  end.

(* ================================================================== *)
(** ** Strings *)
(* ================================================================== *)

Definition code (c : ascii) : Z := Z.of_N (N_of_ascii c).

Definition is_digit (c : ascii) : bool :=
  (48 <=? code c) && (code c <=? 57).

(** White space and line terminators, restricted to code units below 256:
    TAB, LF, VT, FF, CR, SPACE and NBSP. *)
Definition is_space (c : ascii) : bool :=
  ((9 <=? code c) && (code c <=? 13)) || (code c =? 32) || (code c =? 160).

(** Upper-casing of an ASCII letter; other code units are kept. *)
Definition upper (c : ascii) : ascii :=
  if (97 <=? code c) && (code c <=? 122)
  then ascii_of_N (N_of_ascii c - 32)
  else c.

(** [String.prototype.toUpperCase], on strings of ASCII characters. *)
Fixpoint toUpperCase (s : string) : string :=
  match s with
  | EmptyString => EmptyString
  | String c s' => String (upper c) (toUpperCase s')
  end.

(** [s.includes(c)] for a one-character search string. *)
Fixpoint includes (s : string) (c : ascii) : bool :=
  match s with
  | EmptyString => false
  | String a s' => Ascii.eqb a c || includes s' c
  end.

Fixpoint repeat_char (c : ascii) (n : nat) : string :=
  match n with
  | O => EmptyString
  | S n' => String c (repeat_char c n')
  end.

(** [s.padStart(n, c)] for a one-character filler. *)
Definition padStart (n : nat) (c : ascii) (s : string) : string :=
  repeat_char c (n - String.length s) ++ s.

(** [String(n)] for an integer [n]. *)
Definition Number_toString (n : Z) : string :=
  NilZero.string_of_int (Z.to_int n).

(** *** parseInt *)

Definition digit_value (radix : Z) (c : ascii) : option Z :=
  let v :=
    if is_digit c then code c - 48
    else if (97 <=? code c) && (code c <=? 122) then code c - 87
    else if (65 <=? code c) && (code c <=? 90) then code c - 55
    else 36 in
  if v <? radix then Some v else None.

Fixpoint trimStart (s : string) : string :=
  match s with
  | String c s' => if is_space c then trimStart s' else s
  | EmptyString => EmptyString
  end.

(** The longest prefix of radix-[radix] digits, as a number; [None] when
    that prefix is empty. *)
Fixpoint parse_digits (radix : Z) (acc : option Z) (s : string) : option Z :=
  match s with
  | EmptyString => acc
  | String c s' =>
      match digit_value radix c with
      | Some v =>
          parse_digits radix
            (Some (match acc with Some a => a * radix + v | None => v end)) s'
      | None => acc
      end
  end.

(** [parseInt(s)] with no radix argument. *)
Definition parseInt (s : string) : option Z :=
  let s1 := trimStart s in
  let '(sign, s2) :=
    match s1 with
    | String "-" r => (-1, r)
    | String "+" r => (1, r)
    | _ => (1, s1)
    end in
  let '(radix, s3) :=
    match s2 with
    | String "0" (String "x" r) => (16, r)
    | String "0" (String "X" r) => (16, r)
    | _ => (10, s2)
    end in
  match parse_digits radix None s3 with
  | Some v => Some (sign * v)
  | None => None
  end.

(* ================================================================== *)
(** ** Regular expressions *)
(* ================================================================== *)

(** The fragment of the regular-expression language that the source uses:
    character classes, concatenation, alternation, the greedy [?],
    numbered capture groups and the two anchors.  [\d{4}] is written as
    four copies of [\d], [\d{1,2}] as [\d] followed by [\d?]. *)
Inductive regex : Type :=
| Chr (p : ascii -> bool)
| Cat (r1 r2 : regex)
| Alt (r1 r2 : regex)
| Opt (r : regex)
| Grp (n : nat) (r : regex)
| Eps
| Bos
| Eos.

Definition captures := list (option string).

Fixpoint set_capture (n : nat) (v : string) (c : captures) : captures :=
  match n, c with
  | O, _ :: c' => Some v :: c'
  | O, [] => [Some v]
  | S n', x :: c' => x :: set_capture n' v c'
  | S n', [] => None :: set_capture n' v []
  end.

(** Backtracking matcher in continuation-passing style.  [i] is the index
    of the current position in the subject, [s] what is left of it. *)
Fixpoint rmatch (r : regex) (i : nat) (s : string) (c : captures)
         (k : nat -> string -> captures -> option captures)
  : option captures :=
  match r with
  | Chr p =>
      match s with
      | String a s' => if p a then k (S i) s' c else None
      | EmptyString => None
      end
  | Cat r1 r2 => rmatch r1 i s c (fun i' s' c' => rmatch r2 i' s' c' k)
  | Alt r1 r2 =>
      match rmatch r1 i s c k with
      | Some c' => Some c'
      | None => rmatch r2 i s c k
      end
  | Opt r1 =>
      match rmatch r1 i s c k with
      | Some c' => Some c'
      | None => k i s c
      end
  | Grp n r1 =>
      rmatch r1 i s c
        (fun i' s' c' => k i' s' (set_capture n (substring 0 (i' - i) s) c'))
  | Eps => k i s c
  | Bos => if Nat.eqb i 0 then k i s c else None
  | Eos => match s with EmptyString => k i s c | String _ _ => None end
  end.

(** One attempt at position [i]; capture 0 is the whole match. *)
Definition rmatch_at (r : regex) (i : nat) (s : string) : option captures :=
  rmatch r i s []
    (fun i' _ c => Some (set_capture 0 (substring 0 (i' - i) s) c)).

(** Scan of the start positions, left to right. *)
Fixpoint rsearch (r : regex) (i : nat) (s : string) : option captures :=
  match rmatch_at r i s with
  | Some c => Some c
  | None =>
      match s with
      | String _ s' => rsearch r (S i) s'
      | EmptyString => None
      end
  end.

(** [s.match(r)] for a regular expression without the [g] flag. *)
Definition str_match (s : string) (r : regex) : option captures :=
  rsearch r 0%nat s.

(** [parts[n]]; a group that did not take part in the match, or an index
    past the end of the array, gives [undefined]. *)
Definition group (parts : captures) (n : nat) : option string :=
  nth n parts None.

Definition lit (c : ascii) : regex := Chr (Ascii.eqb c).

(** A literal under the [i] flag: the two characters agree after
    canonicalization. *)
Definition lit_i (c : ascii) : regex :=
  Chr (fun a => Ascii.eqb (upper a) (upper c)).

Definition d : regex := Chr is_digit.
Definition d2 : regex := Cat d d.
Definition d4 : regex := Cat d (Cat d (Cat d d)).
Definition d12 : regex := Cat d (Opt d).
Definition ws : regex := Chr is_space.

Fixpoint seq (rs : list regex) : regex :=
  match rs with
  | [] => Eps
  | [r] => r
  | r :: rs' => Cat r (seq rs')
  end.

(** [/^\d{4}-\d{2}-\d{2} \d{2}:\d{2}:\d{2}$/] *)
Definition re_sql_outer : regex :=
  seq [Bos; d4; lit "-"; d2; lit "-"; d2; lit " ";
       d2; lit ":"; d2; lit ":"; d2; Eos].

(** [/(\d{4})-(\d{2})-(\d{2}) (\d{2}):(\d{2}):(\d{2})/] *)
Definition re_sql_inner : regex :=
  seq [Grp 1 d4; lit "-"; Grp 2 d2; lit "-"; Grp 3 d2; lit " ";
       Grp 4 d2; lit ":"; Grp 5 d2; lit ":"; Grp 6 d2].

(** [(AM|PM)] as group [n], under the [i] flag. *)
Definition AM_PM (n : nat) : regex :=
  Grp n (Alt (Cat (lit_i "A") (lit_i "M")) (Cat (lit_i "P") (lit_i "M"))).

(** [/^\d{1,2}:\d{2}\s?(AM|PM)$/i] *)
Definition re_clock_outer : regex :=
  seq [Bos; d12; lit ":"; d2; Opt ws; AM_PM 1; Eos].

(** [/(\d{1,2}):(\d{2})\s?(AM|PM)/i] *)
Definition re_clock_inner : regex :=
  seq [Grp 1 d12; lit ":"; Grp 2 d2; Opt ws; AM_PM 3].

Definition matches (s : string) (r : regex) : bool :=
  match str_match s r with Some _ => true | None => false end.

(* ================================================================== *)
(** ** Time values *)
(* ================================================================== *)

(** A number that may be [NaN]. *)
Definition number : Type := option Z.

Definition NaN : number := None.

Definition num_add (a : number) (b : Z) : number :=
  match a with Some x => Some (x + b) | None => None end.

Definition num_sub (a : number) (b : Z) : number :=
  match a with Some x => Some (x - b) | None => None end.

(** [a === b] for a number [a] and a literal [b]. *)
Definition num_eq (a : number) (b : Z) : bool :=
  match a with Some x => x =? b | None => false end.

Definition msPerSecond : Z := 1000.
Definition msPerMinute : Z := 60000.
Definition msPerHour : Z := 3600000.
Definition msPerDay : Z := 86400000.

Definition Day (t : Z) : Z := t / msPerDay.
Definition TimeWithinDay (t : Z) : Z := t mod msPerDay.

Definition is_leap (y : Z) : bool :=
  if negb (y mod 4 =? 0) then false
  else if negb (y mod 100 =? 0) then true
  else if negb (y mod 400 =? 0) then false
  else true.

Definition DaysInYear (y : Z) : Z := if is_leap y then 366 else 365.

Definition DayFromYear (y : Z) : Z :=
  365 * (y - 1970) + (y - 1969) / 4 - (y - 1901) / 100 + (y - 1601) / 400.

Definition TimeFromYear (y : Z) : Z := msPerDay * DayFromYear y.

(** The year that contains day number [dn]: the largest [y] with
    [DayFromYear y <= dn].  The mean length of a year gives a guess
    that is off by at most one. *)
Definition year_of_day (dn : Z) : Z :=
  let y0 := 1970 + (400 * dn) / 146097 in
  if DayFromYear (y0 + 1) <=? dn then y0 + 1
  else if DayFromYear y0 <=? dn then y0
  else y0 - 1.

Definition YearFromTime (t : Z) : Z := year_of_day (Day t).

Definition InLeapYear (t : Z) : Z :=
  if is_leap (YearFromTime t) then 1 else 0.

Definition DayWithinYear (t : Z) : Z :=
  Day t - DayFromYear (YearFromTime t).

(** Day number within the year of the first day of each month, for
    January to December, and of the first day of the next year. *)
Definition month_starts (leap : Z) : list Z :=
  [0; 31; 59 + leap; 90 + leap; 120 + leap; 151 + leap; 181 + leap;
   212 + leap; 243 + leap; 273 + leap; 304 + leap; 334 + leap; 365 + leap].

Definition month_start (leap : Z) (m : Z) : Z :=
  nth (Z.to_nat m) (month_starts leap) 0.

(** The month (0 to 11) that contains day [dwy] of the year. *)
Definition month_of_day (leap dwy : Z) : Z :=
  if dwy <? 31 then 0
  else if dwy <? 59 + leap then 1
  else if dwy <? 90 + leap then 2
  else if dwy <? 120 + leap then 3
  else if dwy <? 151 + leap then 4
  else if dwy <? 181 + leap then 5
  else if dwy <? 212 + leap then 6
  else if dwy <? 243 + leap then 7
  else if dwy <? 273 + leap then 8
  else if dwy <? 304 + leap then 9
  else if dwy <? 334 + leap then 10
  else 11.

Definition MonthFromTime (t : Z) : Z :=
  month_of_day (InLeapYear t) (DayWithinYear t).

Definition DateFromTime (t : Z) : Z :=
  DayWithinYear t - month_start (InLeapYear t) (MonthFromTime t) + 1.

Definition HourFromTime (t : Z) : Z := (t / msPerHour) mod 24.
Definition MinFromTime (t : Z) : Z := (t / msPerMinute) mod 60.
Definition SecFromTime (t : Z) : Z := (t / msPerSecond) mod 60.

Definition MakeTime (hour min sec ms : Z) : Z :=
  hour * msPerHour + min * msPerMinute + sec * msPerSecond + ms.

(** The day number of day [date] of month [month] of year [year]; months
    outside 0..11 carry into the year, days outside the month carry into
    the neighbouring months. *)
Definition MakeDay (year month date : Z) : Z :=
  let ym := year + month / 12 in
  let mn := month mod 12 in
  DayFromYear ym + month_start (if is_leap ym then 1 else 0) mn + date - 1.

Definition MakeDate (day time : Z) : Z := day * msPerDay + time.

(** The number of days of month [m] (0 to 11) of year [y]. *)
Definition DaysInMonth (y m : Z) : Z :=
  let leap := if is_leap y then 1 else 0 in
  month_start leap (m + 1) - month_start leap m.

Definition TimeClip (time : Z) : number :=
  if 8640000000000000 <? Z.abs time then NaN else Some time.

Definition MakeFullYear (y : Z) : Z :=
  if (0 <=? y) && (y <=? 99) then 1900 + y else y.

(** [Date.UTC(year, month, date, hours, minutes, seconds)] *)
Definition Date_UTC (year month date hours minutes seconds : number) : number :=
  match year, month, date, hours, minutes, seconds with
  | Some y, Some m, Some dt, Some h, Some mi, Some s =>
      TimeClip (MakeDate (MakeDay (MakeFullYear y) m dt) (MakeTime h mi s 0))
  | _, _, _, _, _, _ => NaN
  end.

(** A [Date] object: its time value, [NaN] for an invalid date. *)
Record Date : Type := mkDate { getTime : number }.

Definition isNaN (n : number) : bool :=
  match n with Some _ => false | None => true end.

(** *** The host environment *)

Inductive field_style : Type := numeric | two_digit | short.

(** The options bag of [toLocaleString] and [toLocaleTimeString]; a field
    that is absent or [undefined] is [None]. *)
Record DateTimeFormatOptions : Type := mkOptions {
  opt_month : option field_style;
  opt_day : option field_style;
  opt_year : option field_style;
  opt_hour : option field_style;
  opt_minute : option field_style;
  opt_hour12 : option bool
}.

Record Env : Type := mkEnv {
  (** the time value of [new Date()] *)
  now : Z;
  (** the offset of the local zone from UTC, in milliseconds, at a UTC
      time value *)
  LocalTZA : Z -> Z;
  (** the time value of [new Date(s)] for a string [s] *)
  Date_parse : string -> number;
  (** [toLocaleTimeString(locale, options)] of a valid date *)
  toLocaleTimeString : Z -> string -> DateTimeFormatOptions -> outcome string;
  (** [toLocaleString(locale, options)] of a valid date *)
  toLocaleString : Z -> string -> DateTimeFormatOptions -> outcome string
}.

Definition LocalTime (E : Env) (t : Z) : Z := t + LocalTZA E t.

Definition getFullYear (E : Env) (t : Z) : Z := YearFromTime (LocalTime E t).
Definition getMonth (E : Env) (t : Z) : Z := MonthFromTime (LocalTime E t).
Definition getDate (E : Env) (t : Z) : Z := DateFromTime (LocalTime E t).
Definition getHours (E : Env) (t : Z) : Z := HourFromTime (LocalTime E t).
Definition getMinutes (E : Env) (t : Z) : Z := MinFromTime (LocalTime E t).
Definition getSeconds (E : Env) (t : Z) : Z := SecFromTime (LocalTime E t).

Definition getUTCFullYear (t : Z) : Z := YearFromTime t.
Definition getUTCMonth (t : Z) : Z := MonthFromTime t.
Definition getUTCDate (t : Z) : Z := DateFromTime t.

(* ================================================================== *)
(** ** Values of type [string | null | undefined] *)
(* ================================================================== *)

Inductive jsval : Type :=
| Null
| Undefined
| Str (s : string).

(** [!v] *)
Definition falsy (v : jsval) : bool :=
  match v with
  | Null | Undefined => true
  | Str s => (s =? "")%string
  end.

(** [v === 'lit'] *)
Definition is_str (v : jsval) (lit : string) : bool :=
  match v with
  | Str s => (s =? lit)%string
  | _ => false
  end.

(** [v || 'dflt'] *)
Definition or_else (v : jsval) (dflt : string) : jsval :=
  if falsy v then Str dflt else v.

Definition null_access {A} : outcome A :=
  Raises (TypeError "Cannot read properties of null or undefined").

(** [v.includes(c)] *)
Definition js_includes (v : jsval) (c : ascii) : outcome bool :=
  match v with
  | Str s => Returns (includes s c)
  | _ => null_access
  end.

(** [v.match(r)] *)
Definition js_match (v : jsval) (r : regex) : outcome (option captures) :=
  match v with
  | Str s => Returns (str_match s r)
  | _ => null_access
  end.

(** [parseInt(parts[n])] *)
Definition parseInt_group (parts : captures) (n : nat) : number :=
  match group parts n with
  | Some s => parseInt s
  | None => NaN
  end.

(** [parts[n].toUpperCase()] *)
Definition toUpperCase_group (parts : captures) (n : nat) : outcome string :=
  match group parts n with
  | Some s => Returns (toUpperCase s)
  | None => null_access
  end.

(** [new Date(v)] *)
Definition new_Date (E : Env) (v : jsval) : Date :=
  match v with
  | Str s => mkDate (Date_parse E s)
  | Null => mkDate (Some 0)
  | Undefined => mkDate NaN
  end.

Definition Date_toLocaleTimeString (E : Env) (date : Date) (locale : string)
           (o : DateTimeFormatOptions) : outcome string :=
  match getTime date with
  | Some t => toLocaleTimeString E t locale o
  | None => Returns "Invalid Date"
  end.

Definition Date_toLocaleString (E : Env) (date : Date) (locale : string)
           (o : DateTimeFormatOptions) : outcome string :=
  match getTime date with
  | Some t => toLocaleString E t locale o
  | None => Returns "Invalid Date"
  end.

(* ================================================================== *)
(** ** The timezone utilities *)
(* ================================================================== *)

(** [{ hour: '2-digit', minute: '2-digit', hour12: true }] *)
Definition time_options : DateTimeFormatOptions :=
  {| opt_month := None; opt_day := None; opt_year := None;
     opt_hour := Some two_digit; opt_minute := Some two_digit;
     opt_hour12 := Some true |}.

(** The six-argument [Date.UTC] call on the groups of the SQL-style
    pattern. *)
Definition Date_UTC_of_parts (parts : captures) : Date :=
  mkDate (Date_UTC
            (parseInt_group parts 1)
            (num_sub (parseInt_group parts 2) 1)
            (parseInt_group parts 3)
            (parseInt_group parts 4)
            (parseInt_group parts 5)
            (parseInt_group parts 6)).

(** The conversion to the 24-hour clock. *)
Definition to_24_hour (period : string) (hours : number) : number :=
  let hours1 :=
    if (period =? "PM")%string && negb (num_eq hours 12)
    then num_add hours 12 else hours in
  if (period =? "AM")%string && num_eq hours1 12 then Some 0 else hours1.

Definition formatLocalTime (E : Env) (timestamp : jsval) : outcome jsval :=
  call
    (if falsy timestamp || is_str timestamp "Unknown"
        || is_str timestamp "Never" || is_str timestamp "Recent"
     then Return (or_else timestamp "Unknown")
     else
       try_catch
         (date <-
            (hasT <- perform (js_includes timestamp "T") ;;
             hasZ <- (if hasT then Normal true
                      else perform (js_includes timestamp "Z")) ;;
             if hasZ then Normal (new_Date E timestamp)
             else
               sql <- perform (js_match timestamp re_sql_outer) ;;
               match sql with
               | Some _ =>
                   parts <- perform (js_match timestamp re_sql_inner) ;;
                   match parts with
                   | Some parts => Normal (Date_UTC_of_parts parts)
                   | None => Return timestamp
                   end
               | None =>
                   clock <- perform (js_match timestamp re_clock_outer) ;;
                   match clock with
                   | Some _ =>
                       let now_ := now E in
                       timeMatch <- perform (js_match timestamp re_clock_inner) ;;
                       match timeMatch with
                       | Some timeMatch =>
                           let hours := parseInt_group timeMatch 1 in
                           let minutes := parseInt_group timeMatch 2 in
                           period <- perform (toUpperCase_group timeMatch 3) ;;
                           let hours := to_24_hour period hours in
                           Normal (mkDate (Date_UTC
                                             (Some (getUTCFullYear now_))
                                             (Some (getUTCMonth now_))
                                             (Some (getUTCDate now_))
                                             hours
                                             minutes
                                             (Some 0)))
                       | None => Return timestamp
                       end
                   | None => Normal (new_Date E timestamp)
                   end
               end) ;;
          if isNaN (getTime date) then Return timestamp
          else
            r <- perform (Date_toLocaleTimeString E date "en-US" time_options) ;;
            Return (Str r))
         (fun error => Return timestamp)).

(** [`${year}-${month}-${day} ${hours}:${minutes}:${seconds}`] of the
    local fields of a valid time value. *)
Definition local_datetime_string (E : Env) (t : Z) : string :=
  let year := getFullYear E t in
  let month := padStart 2 "0" (Number_toString (getMonth E t + 1)) in
  let day := padStart 2 "0" (Number_toString (getDate E t)) in
  let hours := padStart 2 "0" (Number_toString (getHours E t)) in
  let minutes := padStart 2 "0" (Number_toString (getMinutes E t)) in
  let seconds := padStart 2 "0" (Number_toString (getSeconds E t)) in
  Number_toString year ++ "-" ++ month ++ "-" ++ day ++ " "
    ++ hours ++ ":" ++ minutes ++ ":" ++ seconds.

Definition formatLocalDateTime (E : Env) (timestamp : jsval) : outcome jsval :=
  call
    (if falsy timestamp || is_str timestamp "Unknown"
        || is_str timestamp "Never"
     then Return (or_else timestamp "Unknown")
     else
       try_catch
         (date <-
            (hasT <- perform (js_includes timestamp "T") ;;
             hasZ <- (if hasT then Normal true
                      else perform (js_includes timestamp "Z")) ;;
             if hasZ then Normal (new_Date E timestamp)
             else
               sql <- perform (js_match timestamp re_sql_outer) ;;
               match sql with
               | Some _ =>
                   parts <- perform (js_match timestamp re_sql_inner) ;;
                   match parts with
                   | Some parts => Normal (Date_UTC_of_parts parts)
                   | None => Return timestamp
                   end
               | None => Normal (new_Date E timestamp)
               end) ;;
          match getTime date with
          | None => Return timestamp
          | Some t => Return (Str (local_datetime_string E t))
          end)
         (fun error => Return timestamp)).

Definition formatScreenshotTime (E : Env) (timestamp : jsval) : outcome jsval :=
  formatLocalDateTime E timestamp.

Definition formatActivityTime (E : Env) (timestamp : jsval) : outcome jsval :=
  formatLocalTime E timestamp.

(* ================================================================== *)
(** ** [src/utils/timeUtils.ts] *)
(* ================================================================== *)

(** The options of the absolute date; [year] is ['numeric'] or
    [undefined]. *)
Definition date_options (with_year : bool) : DateTimeFormatOptions :=
  {| opt_month := Some short; opt_day := Some numeric;
     opt_year := if with_year then Some numeric else None;
     opt_hour := Some numeric; opt_minute := Some two_digit;
     opt_hour12 := Some true |}.

(** [`${n} ${unit}${n !== 1 ? 's' : ''} ago`] *)
Definition ago (n : Z) (unit : string) : string :=
  Number_toString n ++ " " ++ unit ++ (if negb (n =? 1) then "s" else "")
    ++ " ago".

Definition formatLastActivity (E : Env) (lastActivityStr : jsval)
  : outcome jsval :=
  call
    (if falsy lastActivityStr || is_str lastActivityStr "Unknown"
        || is_str lastActivityStr "Never"
     then Return (Str "Never")
     else
       try_catch
         (lastActivityDate <-
            (hasT <- perform (js_includes lastActivityStr "T") ;;
             hasZ <- (if hasT then Normal true
                      else perform (js_includes lastActivityStr "Z")) ;;
             if hasZ then Normal (new_Date E lastActivityStr)
             else Normal (new_Date E lastActivityStr)) ;;
          match getTime lastActivityDate with
          | None => Return lastActivityStr
          | Some t =>
              let now_ := now E in
              let diffMs := now_ - t in
              let diffSeconds := diffMs / 1000 in
              let diffMinutes := diffSeconds / 60 in
              let diffHours := diffMinutes / 60 in
              let diffDays := diffHours / 24 in
              if diffSeconds <? 60 then
                if diffSeconds <=? 5 then Return (Str "Just now")
                else Return (Str (ago diffSeconds "second"))
              else if diffMinutes <? 60 then
                Return (Str (ago diffMinutes "minute"))
              else if diffHours <? 24 then
                Return (Str (ago diffHours "hour"))
              else if diffDays <=? 2 then
                Return (Str (ago diffDays "day"))
              else
                r <- perform
                       (Date_toLocaleString E lastActivityDate "en-US"
                          (date_options
                             (negb (getFullYear E t =? getFullYear E now_)))) ;;
                Return (Str r)
          end)
         (fun error => Return lastActivityStr)).

(* ================================================================== *)
(** ** A reference host *)
(* ================================================================== *)

(** A small host on which the formatters can be run: a fixed clock, a
    zone at a constant offset from UTC, a date parser that understands
    the UTC form [YYYY-MM-DDTHH:MM:SSZ] of the ISO format and nothing
    else, and the en-US renderings of the two option bags that the source
    uses. *)
Module Host.

Definition pad2 (n : Z) : string := padStart 2 "0" (Number_toString n).

(** [/^(\d{4})-(\d{2})-(\d{2})T(\d{2}):(\d{2}):(\d{2})Z$/] *)
Definition re_iso : regex :=
  seq [Bos; Grp 1 d4; lit "-"; Grp 2 d2; lit "-"; Grp 3 d2; lit "T";
       Grp 4 d2; lit ":"; Grp 5 d2; lit ":"; Grp 6 d2; lit "Z"; Eos].

Definition parse (s : string) : number :=
  match str_match s re_iso with
  | None => NaN
  | Some p =>
      match parseInt_group p 1, parseInt_group p 2, parseInt_group p 3,
            parseInt_group p 4, parseInt_group p 5, parseInt_group p 6 with
      | Some y, Some m, Some dt, Some h, Some mi, Some se =>
          if (1 <=? m) && (m <=? 12) && (1 <=? dt)
             && (dt <=? DaysInMonth y (m - 1))
             && (h <=? 23) && (mi <=? 59) && (se <=? 59)
          then TimeClip (MakeDate (MakeDay y (m - 1) dt) (MakeTime h mi se 0))
          else NaN
      | _, _, _, _, _, _ => NaN
      end
  end.

Definition month_name (m : Z) : string :=
  nth (Z.to_nat m)
      ["Jan"; "Feb"; "Mar"; "Apr"; "May"; "Jun";
       "Jul"; "Aug"; "Sep"; "Oct"; "Nov"; "Dec"] "".

Definition hour12 (h : Z) : Z := if h mod 12 =? 0 then 12 else h mod 12.

Definition day_period (h : Z) : string := if h <? 12 then "AM" else "PM".

(** en-US, [hour: '2-digit', minute: '2-digit', hour12: true]:
    [06:36 AM] *)
Definition en_US_time (lt : Z) : string :=
  pad2 (hour12 (HourFromTime lt)) ++ ":" ++ pad2 (MinFromTime lt)
    ++ " " ++ day_period (HourFromTime lt).

(** en-US, [month: 'short', day: 'numeric', hour: 'numeric',
    minute: '2-digit', hour12: true], with or without
    [year: 'numeric']: [Dec 22, 6:31 PM] and [Dec 22, 2024, 6:31 PM] *)
Definition en_US_date (lt : Z) (o : DateTimeFormatOptions) : string :=
  month_name (MonthFromTime lt) ++ " " ++ Number_toString (DateFromTime lt)
    ++ (match opt_year o with
        | Some _ => ", " ++ Number_toString (YearFromTime lt)
        | None => ""
        end)
    ++ ", " ++ Number_toString (hour12 (HourFromTime lt)) ++ ":"
    ++ pad2 (MinFromTime lt) ++ " " ++ day_period (HourFromTime lt).

(** The host with clock [clock] in the zone at [tza] milliseconds from
    UTC. *)
Definition host (clock tza : Z) : Env :=
  {| now := clock;
     LocalTZA := fun _ => tza;
     Date_parse := parse;
     toLocaleTimeString := fun t _ _ => Returns (en_US_time (t + tza));
     toLocaleString := fun t _ o => Returns (en_US_date (t + tza) o) |}.

(** 2025-12-22T06:36:15Z *)
Definition t0 : Z := 1766385375000.

(** A host in the UTC zone whose clock shows [t0]. *)
Definition utc : Env := host t0 0.

(** A host at UTC+05:30 whose clock shows [t0]. *)
Definition ist : Env := host t0 19800000.

End Host.

(* ================================================================== *)
(** ** Definitions in the words of the description *)
(* ================================================================== *)

(** The phrase of a band, in the words of the description: the number, the
    unit in the singular exactly when the number is one, and [ago]. *)
Definition phrase (n : Z) (singular plural : string) : string :=
  Number_toString n ++ " " ++ (if n =? 1 then singular else plural) ++ " ago".

(** The relative-time formatter as the description has it: every input
    that passes the guard is parsed by the general-purpose constructor,
    with no test for [T] or [Z]. *)
Definition formatLastActivity_simplified (E : Env) (lastActivityStr : jsval)
  : outcome jsval :=
  call
    (if falsy lastActivityStr || is_str lastActivityStr "Unknown"
        || is_str lastActivityStr "Never"
     then Return (Str "Never")
     else
       try_catch
         (let lastActivityDate := new_Date E lastActivityStr in
          match getTime lastActivityDate with
          | None => Return lastActivityStr
          | Some t =>
              let seconds := (now E - t) / 1000 in
              let minutes := seconds / 60 in
              let hours := minutes / 60 in
              let days := hours / 24 in
              if seconds <? 60 then
                if seconds <=? 5 then Return (Str "Just now")
                else Return (Str (phrase seconds "second" "seconds"))
              else if minutes <? 60 then
                Return (Str (phrase minutes "minute" "minutes"))
              else if hours <? 24 then
                Return (Str (phrase hours "hour" "hours"))
              else if days <=? 2 then
                Return (Str (phrase days "day" "days"))
              else
                r <- perform
                       (Date_toLocaleString E lastActivityDate "en-US"
                          {| opt_month := Some short;
                             opt_day := Some numeric;
                             opt_year :=
                               if getFullYear E t =? getFullYear E (now E)
                               then None else Some numeric;
                             opt_hour := Some numeric;
                             opt_minute := Some two_digit;
                             opt_hour12 := Some true |}) ;;
                Return (Str r)
          end)
         (fun error => Return lastActivityStr)).

(** The absolute date of the last band: the year is shown only when the
    local year of the instant differs from the local year of the clock. *)
Definition absolute_date (E : Env) (s : string) (t : Z) : outcome jsval :=
  match toLocaleString E t "en-US"
          {| opt_month := Some short;
             opt_day := Some numeric;
             opt_year := if getFullYear E t =? getFullYear E (now E)
                         then None else Some numeric;
             opt_hour := Some numeric;
             opt_minute := Some two_digit;
             opt_hour12 := Some true |} with
  | Returns r => Returns (Str r)
  | Raises _ => Returns (Str s)
  end.

(** The four shapes of a timestamp, in their order of precedence. *)
Inductive shape : Type := IsoLike | NaiveSql | BareClock | Fallback.

Definition classify (s : string) : shape :=
  if includes s "T" || includes s "Z" then IsoLike
  else if matches s re_sql_outer then NaiveSql
  else if matches s re_clock_outer then BareClock
  else Fallback.

(** The local clock time of a date, or the input when the date is invalid
    or the rendering fails. *)
Definition clock_time_or_input (E : Env) (s : string) (date : Date)
  : outcome jsval :=
  match getTime date with
  | None => Returns (Str s)
  | Some t =>
      match toLocaleTimeString E t "en-US" time_options with
      | Returns r => Returns (Str r)
      | Raises _ => Returns (Str s)
      end
  end.

(** The rule of the 12-hour clock: 12 AM is hour 0, 12 PM stays 12, PM adds
    12 to every other hour. *)
Definition hour24 (pm : bool) (h : Z) : Z :=
  if pm then (if h =? 12 then 12 else h + 12)
  else (if h =? 12 then 0 else h).

(** The date built from the groups of the bare clock-time pattern. *)
Definition clock_date (E : Env) (timeMatch : captures) (period : string)
  : Date :=
  mkDate (Date_UTC (Some (getUTCFullYear (now E)))
                   (Some (getUTCMonth (now E)))
                   (Some (getUTCDate (now E)))
                   (to_24_hour period (parseInt_group timeMatch 1))
                   (parseInt_group timeMatch 2)
                   (Some 0)).

(** The value of a decimal digit. *)
Definition digit_of (c : ascii) : Z := code c - 48.

Definition digit_chars : list ascii :=
  ["0"; "1"; "2"; "3"; "4"; "5"; "6"; "7"; "8"; "9"]%char.

Definition str2 (a b : ascii) : string := String a (String b "").

Definition str4 (a b c e : ascii) : string :=
  String a (String b (String c (String e ""))).

Definition num2 (a b : ascii) : Z := 10 * digit_of a + digit_of b.

Definition num4 (a b c e : ascii) : Z :=
  1000 * digit_of a + 100 * digit_of b + 10 * digit_of c + digit_of e.

(** The text [YYYY-MM-DD HH:MM:SS] with the given characters in the place
    of the letters. *)
Definition sql_text (y1 y2 y3 y4 mo1 mo2 dd1 dd2 h1 h2 mi1 mi2 se1 se2 : ascii)
  : string :=
  str4 y1 y2 y3 y4 ++ "-" ++ str2 mo1 mo2 ++ "-" ++ str2 dd1 dd2 ++ " "
    ++ str2 h1 h2 ++ ":" ++ str2 mi1 mi2 ++ ":" ++ str2 se1 se2.

(** The six numbers that the SQL-style branch hands to [Date.UTC], the
    month still 1-based. *)
Definition sql_fields (s : string) : option (Z * Z * Z * Z * Z * Z) :=
  match str_match s re_sql_inner with
  | Some parts =>
      match parseInt_group parts 1, parseInt_group parts 2,
            parseInt_group parts 3, parseInt_group parts 4,
            parseInt_group parts 5, parseInt_group parts 6 with
      | Some y, Some mo, Some dd, Some h, Some mi, Some se =>
          Some (y, mo, dd, h, mi, se)
      | _, _, _, _, _, _ => None
      end
  | None => None
  end.

Definition opt_char (c : option ascii) (s : string) : string :=
  match c with Some a => String a s | None => s end.

(** The text [H:MM], [HH:MM] followed by an optional white-space character
    and the two letters of the day period. *)
Definition clock_text (h1 : ascii) (h2 : option ascii) (mi1 mi2 : ascii)
           (sp : option ascii) (p1 p2 : ascii) : string :=
  String h1 (opt_char h2 (String ":" (String mi1 (String mi2
    (opt_char sp (String p1 (String p2 "")))))))%string.

Definition clock_hour (h1 : ascii) (h2 : option ascii) : Z :=
  match h2 with
  | Some c => num2 h1 c
  | None => digit_of h1
  end.

Definition opt_forall (p : ascii -> bool) (c : option ascii) : bool :=
  match c with Some a => p a | None => true end.

Definition is_char_i (c x : ascii) : bool := Ascii.eqb (upper x) c.

(** The texts that the strict SQL-style pattern is meant to accept:
    [YYYY-MM-DD HH:MM:SS] made of decimal digits. *)
Definition has_sql_shape (s : string) : Prop :=
  exists y1 y2 y3 y4 mo1 mo2 dd1 dd2 h1 h2 mi1 mi2 se1 se2,
    s = sql_text y1 y2 y3 y4 mo1 mo2 dd1 dd2 h1 h2 mi1 mi2 se1 se2 /\
    forallb is_digit [y1; y2; y3; y4; mo1; mo2; dd1; dd2;
                      h1; h2; mi1; mi2; se1; se2] = true.

(** The texts that the bare clock-time pattern is meant to accept: one
    or two digits, a colon, two digits, an optional white-space
    character, and AM or PM in either case. *)
Definition has_clock_shape (s : string) : Prop :=
  exists h1 h2 mi1 mi2 sp p1 p2,
    s = clock_text h1 h2 mi1 mi2 sp p1 p2 /\
    is_digit h1 = true /\ opt_forall is_digit h2 = true /\
    is_digit mi1 = true /\ is_digit mi2 = true /\
    opt_forall is_space sp = true /\
    is_char_i "A" p1 || is_char_i "P" p1 = true /\ is_char_i "M" p2 = true.

(** *** Checks by enumeration

    Boolean tests that the proofs below run over all digits and over
    ranges of numbers. *)

Definition number_eqb (a b : number) : bool :=
  match a, b with
  | Some x, Some y => x =? y
  | None, None => true
  | _, _ => false
  end.

Definition check1 (a : ascii) : bool :=
  number_eqb (parseInt (String a "")) (Some (digit_of a))
  && (0 <=? digit_of a) && (digit_of a <=? 9).

Definition check2 (a b : ascii) : bool :=
  number_eqb (parseInt (str2 a b)) (Some (num2 a b))
  && (padStart 2 "0" (Number_toString (num2 a b)) =? str2 a b)%string
  && (0 <=? num2 a b) && (num2 a b <=? 99).

Definition check4 (a b c e : ascii) : bool :=
  number_eqb (parseInt (str4 a b c e)) (Some (num4 a b c e))
  && ((num4 a b c e <? 1000)
      || (Number_toString (num4 a b c e) =? str4 a b c e)%string)
  && (0 <=? num4 a b c e) && (num4 a b c e <=? 9999).

Definition is_str2 (s : string) : bool :=
  match s with
  | String a (String b EmptyString) => is_digit a && is_digit b
  | _ => false
  end.

Definition is_str4 (s : string) : bool :=
  match s with
  | String a (String b (String c (String e EmptyString))) =>
      is_digit a && is_digit b && is_digit c && is_digit e
  | _ => false
  end.

Definition Z_range (lo n : Z) : list Z :=
  map (fun k => lo + Z.of_nat k) (List.seq 0 (Z.to_nat n)).

Definition is_str2_of (n : Z) (s : string) : bool :=
  match s with
  | String a (String b EmptyString) =>
      is_digit a && is_digit b && (num2 a b =? n)
  | _ => false
  end.

Definition is_str4_of (n : Z) (s : string) : bool :=
  match s with
  | String a (String b (String c (String e EmptyString))) =>
      is_digit a && is_digit b && is_digit c && is_digit e
      && (num4 a b c e =? n)
  | _ => false
  end.

(* ================================================================== *)
(** ** The dashboard: the status of an employee *)
(* ================================================================== *)

(** Lower-casing of a code unit below 256: the letters [A] to [Z] and the
    accented capitals from 192 to 222, the multiplication sign 215
    apart, move up by 32. *)
Definition lower (c : ascii) : ascii :=
  if ((65 <=? code c) && (code c <=? 90))
     || ((192 <=? code c) && (code c <=? 222) && negb (code c =? 215))
  then ascii_of_N (N_of_ascii c + 32)
  else c.

(** [String.prototype.toLowerCase] on a text of code units below 256,
    where it works character by character.  On other texts it does not:
    a Greek capital sigma is lowered by what stands around it. *)
Fixpoint toLowerCase (s : string) : string :=
  match s with
  | EmptyString => EmptyString
  | String c s' => String (lower c) (toLowerCase s')
  end.

Module Dashboard.

(** The status that [loadEmployees] gives an employee of the backend.
    The three numbers of the record are only compared with 0: the
    outcomes of [emp.workdayHours > 0], [emp.activeHours > 0] and
    [emp.idleHours > 0] stand for them. *)
Definition normalizedStatus (status : jsval)
           (workdayHours_positive activeHours_positive idleHours_positive
            : bool) : outcome string :=
  if negb (falsy status) then
    match status with
    | Str s => Returns (toLowerCase s)
    | _ => null_access
    end
  else if workdayHours_positive || activeHours_positive then Returns "active"
  else if idleHours_positive then Returns "idle"
  else Returns "offline".

End Dashboard.

(* ================================================================== *)
(** ** The employee detail view: the activity log *)
(* ================================================================== *)

(** The entries of the activity log of [EmployeeDetailView], whose times
    [formatActivityTime] renders, and the list that is displayed. *)
Module DetailView.

(** An entry of the activity log, as [loadActivities] builds it. *)
Record Activity : Type := mkActivity {
  time : jsval;
  action : string;
  app : string;
  isIdle : option bool;
  isLocked : option bool
}.

(** [l.reduce(f, init)], the callback given the accumulator, the element
    and its index; [index] is the index of the head of [l]. *)
Fixpoint reduce_from {A B : Type} (f : B -> A -> nat -> outcome B)
         (l : list A) (index : nat) (acc : B) : outcome B :=
  match l with
  | [] => Returns acc
  | x :: l' =>
      match f acc x index with
      | Returns acc' => reduce_from f l' (S index) acc'
      | Raises e => Raises e
      end
  end.

Definition Array_reduce {A B : Type} (f : B -> A -> nat -> outcome B)
           (l : list A) (init : B) : outcome B :=
  reduce_from f l 0%nat init.

(** [acc[acc.length - 1]]; [undefined] on the empty array. *)
Definition last_entry {A : Type} (acc : list A) : option A :=
  match acc with
  | [] => None
  | _ :: _ => nth_error acc (List.length acc - 1)
  end.

(** The callback of the reduction: the first entry starts the list, a
    later one is pushed when its action differs from that of the last
    entry of the accumulator. *)
Definition keep_change (acc : list Activity) (activity : Activity)
           (index : nat) : outcome (list Activity) :=
  if Nat.eqb index 0 then Returns [activity]
  else
    match last_entry acc with
    | None => null_access
    | Some lastActivity =>
        if negb (action lastActivity =? action activity)%string
        then Returns (acc ++ [activity])%list
        else Returns acc
    end.

Definition deduplicatedActivities (displayedActivities : list Activity)
  : outcome (list Activity) :=
  Array_reduce keep_change displayedActivities [].

(** The colour of the status dot of the detail view. *)
Definition getStatusColor (status : string) : string :=
  if (status =? "active")%string then "bg-green-500"
  else if (status =? "idle")%string then "bg-yellow-500"
  else if (status =? "offline")%string then "bg-slate-400"
  else "bg-slate-400".

End DetailView.

(** No two neighbours of the list have the same action. *)
Fixpoint changes_at_each_step (l : list DetailView.Activity) : Prop :=
  match l with
  | [] => True
  | x :: l' =>
      match l' with
      | [] => True
      | y :: _ => DetailView.action x <> DetailView.action y
      end /\ changes_at_each_step l'
  end.

(** [r] is [l] with some entries left out, the order kept. *)
Inductive subsequence {A : Type} : list A -> list A -> Prop :=
| subsequence_nil : subsequence [] []
| subsequence_skip x r l : subsequence r l -> subsequence r (x :: l)
| subsequence_keep x r l : subsequence r l -> subsequence (x :: r) (x :: l).

(** The entries of [l] whose action differs from that of the entry just
    before them; [prev] is the entry before the head of [l]. *)
Fixpoint changes_after (prev : DetailView.Activity)
         (l : list DetailView.Activity) : list DetailView.Activity :=
  match l with
  | [] => []
  | y :: l' =>
      if (DetailView.action prev =? DetailView.action y)%string
      then changes_after y l'
      else y :: changes_after y l'
  end.

Definition first_and_changes (l : list DetailView.Activity)
  : list DetailView.Activity :=
  match l with
  | [] => []
  | x :: l' => x :: changes_after x l'
  end.

(* ================================================================== *)
(** ** The employee overview table: the sort state *)
(* ================================================================== *)

Module OverviewTable.

Inductive SortField : Type :=
| name | status | screenTime | activeTime | idleTime | productivity
| screenshots | lastActivity.

Inductive SortOrder : Type := asc | desc.

(** The two pieces of state of the table; [null] is [None]. *)
Record SortState : Type := mkSortState {
  sortField : option SortField;
  sortOrder : option SortOrder
}.

Definition SortField_eqb (a b : SortField) : bool :=
  match a, b with
  | name, name | status, status | screenTime, screenTime
  | activeTime, activeTime | idleTime, idleTime
  | productivity, productivity | screenshots, screenshots
  | lastActivity, lastActivity => true
  | _, _ => false
  end.

(** [useState(null)] twice. *)
Definition initial : SortState :=
  {| sortField := None; sortOrder := None |}.

(** The state after [handleSort(field)]. *)
Definition handleSort (st : SortState) (field : SortField) : SortState :=
  if match sortField st with
     | Some f => SortField_eqb f field
     | None => false
     end
  then
    match sortOrder st with
    | Some asc => {| sortField := sortField st; sortOrder := Some desc |}
    | Some desc => {| sortField := None; sortOrder := None |}
    | None => st
    end
  else {| sortField := Some field; sortOrder := Some asc |}.

(** The colour of the status dot of the table. *)
Definition getStatusDotColor (status : string) : string :=
  let normalizedStatus := toLowerCase status in
  if (normalizedStatus =? "active")%string then "bg-green-500"
  else if (normalizedStatus =? "idle")%string then "bg-yellow-500"
  else if (normalizedStatus =? "offline")%string then "bg-slate-400"
  else "bg-slate-400".

(** The state after a sequence of clicks on column headers. *)
Definition clicks (st : SortState) (fields : list SortField) : SortState :=
  fold_left handleSort fields st.

End OverviewTable.

(** The sort column and the sort direction are set together. *)
Definition sort_state_ok (st : OverviewTable.SortState) : Prop :=
  (OverviewTable.sortField st = None /\ OverviewTable.sortOrder st = None) \/
  (exists f o, OverviewTable.sortField st = Some f /\
               OverviewTable.sortOrder st = Some o).

(* ================================================================== *)
(** ** [src/config/api.ts]: the fetch wrapper *)
(* ================================================================== *)

(** [fetchAPI] is the wrapper through which the views load what the
    formatters render.  The network, the JSON parser and the timer belong
    to the host: the answers to the requests are a parameter, and what
    [fetchAPI] asks of the host is recorded as a trace of requests and
    waits.  The [console] calls are left out.  Every value that is thrown
    is an [Error] object. *)
Module Api.

Inductive ErrorClass : Type :=
| PlainError | TypeErrorClass | SyntaxErrorClass | OtherErrorClass.

(** An [Error] object: its class and its message. *)
Record JsError : Type := mkError {
  error_class : ErrorClass;
  message : string
}.

(** [e instanceof TypeError] *)
Definition instanceof_TypeError (e : JsError) : bool :=
  match error_class e with TypeErrorClass => true | _ => false end.

(** [new Error(msg)] *)
Definition new_Error (msg : string) : JsError :=
  {| error_class := PlainError; message := msg |}.

(** The way an awaited promise settles. *)
Inductive settled (A : Type) : Type :=
| Resolved (a : A)
| Rejected (e : JsError).

Arguments Resolved {A} a.
Arguments Rejected {A} e.

(** [s.startsWith(pre)] *)
Fixpoint startsWith (s pre : string) {struct pre} : bool :=
  match pre with
  | EmptyString => true
  | String a pre' =>
      match s with
      | EmptyString => false
      | String b s' => Ascii.eqb a b && startsWith s' pre'
      end
  end.

(** [s.includes(sub)] *)
Fixpoint includes_sub (s sub : string) : bool :=
  startsWith s sub
  || match s with
     | EmptyString => false
     | String _ s' => includes_sub s' sub
     end.

(** [v || w] on strings: the empty string is falsy. *)
Definition str_or (v w : string) : string :=
  if (v =? "")%string then w else v.

(** A property that is absent or falsy is [None]. *)
Definition opt_or (v : option string) (w : string) : string :=
  match v with Some s => s | None => w end.

(** What the wrapper reads of the parsed body of an error response: the
    properties [error] and [message], each as the text that a template
    literal prints for it, or [None] when it is absent or falsy.
    [NullBody] is a body that parses to [null], of which no property can
    be read. *)
Inductive ErrorData : Type :=
| NullBody
| Fields (error message : option string).

(** What the host does at one step. *)
Inductive Event : Type :=
| Request (url : string)
| Wait (ms : Z).

Definition maxRetries : Z := 3.

(** [Math.min(2000 * Math.pow(2, attempt - 1), 10000)] *)
Definition delay (attempt : Z) : Z :=
  Z.min (2000 * 2 ^ (attempt - 1)) 10000.

Section Host.

(** The type of the JSON values that the backend answers with, and of the
    options that the caller passes on. *)
Variable Data : Type.
Variable RequestInit : Type.

(** A [Response]: the status line and the two ways of reading the
    body. *)
Record Response : Type := mkResponse {
  status : Z;
  statusText : string;
  text : settled string;
  json : settled Data
}.

(** [response.ok] *)
Definition ok (response : Response) : bool :=
  (200 <=? status response) && (status response <=? 299).

(** [import.meta.env.VITE_API_URL || 'https://backend-35m2.onrender.com'] *)
Variable API_BASE_URL : string.

(** The answer to the request number [n] (from 0) of one call of
    [fetchAPI], to a URL and with the options of the caller. *)
Variable fetch : nat -> string -> RequestInit -> settled Response.

(** [JSON.parse(text)], as far as the wrapper looks at the result;
    [None] when the text is not JSON. *)
Variable JSON_parse : string -> option ErrorData.

(** The [TypeError] that the host raises when a property of [null] is
    read. *)
Variable null_read : JsError.

(** The body of the [try] block of one attempt. *)
Definition try_attempt (attempt : Z) (endpoint : string)
           (options : RequestInit) : list Event * settled Data :=
  let url := if startsWith endpoint "http" then endpoint
             else API_BASE_URL ++ endpoint in
  ([Request url],
   match fetch (Z.to_nat (attempt - 1)) url options with
   | Rejected e => Rejected e
   | Resolved response =>
       if negb (ok response) then
         match text response with
         | Rejected e => Rejected e
         | Resolved errorText =>
             let errorData :=
               match JSON_parse errorText with
               | Some parsed => parsed
               | None =>
                   Fields
                     (let v := str_or errorText (statusText response) in
                      if (v =? "")%string then None else Some v)
                     None
               end in
             if (400 <=? status response) && (status response <? 500) then
               match errorData with
               | NullBody => Rejected null_read
               | Fields error message =>
                   let errorMessage :=
                     match error with
                     | Some e => e
                     | None => opt_or message (statusText response)
                     end in
                   Rejected
                     (new_Error ("HTTP " ++ Number_toString (status response)
                                 ++ ": " ++ errorMessage))
               end
             else
               match errorData with
               | NullBody => Rejected null_read
               | Fields error _ =>
                   Rejected
                     (new_Error ("HTTP " ++ Number_toString (status response)
                                 ++ ": "
                                 ++ opt_or error (statusText response)))
               end
         end
       else json response
   end).

(** What follows the loop when every attempt has failed. *)
Definition all_retries_failed (lastError : option JsError) : settled Data :=
  match lastError with
  | Some e =>
      if instanceof_TypeError e && includes_sub (message e) "fetch"
      then Rejected
             (new_Error ("Cannot connect to backend at " ++ API_BASE_URL
                         ++ ". "
                         ++ "The backend might be sleeping (Render free tier). "
                         ++ "Please wait 30-60 seconds and refresh."))
      else Rejected e
  | None => Rejected (new_Error "Unknown error occurred")
  end.

(** The [for] loop, with [remaining] iterations to go: the attempt in
    hand is [maxRetries - remaining + 1]. *)
Fixpoint retry_loop (remaining : nat) (lastError : option JsError)
         (endpoint : string) (options : RequestInit)
  : list Event * settled Data :=
  match remaining with
  | O => ([], all_retries_failed lastError)
  | S remaining' =>
      let attempt := maxRetries - Z.of_nat remaining' in
      match try_attempt attempt endpoint options with
      | (events, Resolved data) => (events, Resolved data)
      | (events, Rejected error) =>
          if includes_sub (message error) "HTTP 4"
          then (events, Rejected error)
          else
            let waits :=
              if attempt <? maxRetries then [Wait (delay attempt)] else [] in
            let '(rest, result) :=
              retry_loop remaining' (Some error) endpoint options in
            ((events ++ waits ++ rest)%list, result)
      end
  end.

Definition fetchAPI (endpoint : string) (options : RequestInit)
  : list Event * settled Data :=
  retry_loop (Z.to_nat maxRetries) None endpoint options.

(** The parsed body of an error response:
    [JSON.parse(errorText)], or [{ error: errorText || statusText }] when
    the text is not JSON. *)
Definition error_data (response : Response) (errorText : string)
  : ErrorData :=
  match JSON_parse errorText with
  | Some parsed => parsed
  | None =>
      Fields
        (let v := str_or errorText (statusText response) in
         if (v =? "")%string then None else Some v)
        None
  end.

(** [errorData.error || errorData.message || response.statusText];
    [None] when the body is [null]. *)
Definition client_error_detail (response : Response) (errorText : string)
  : option string :=
  match error_data response errorText with
  | NullBody => None
  | Fields (Some e) _ => Some e
  | Fields None message => Some (opt_or message (statusText response))
  end.

(** [errorData.error || response.statusText]; [None] when the body is
    [null]. *)
Definition server_error_detail (response : Response) (errorText : string)
  : option string :=
  match error_data response errorText with
  | NullBody => None
  | Fields error _ => Some (opt_or error (statusText response))
  end.

(** An attempt fails in a way that the loop retries: it ends in an error
    whose message does not contain [HTTP 4]. *)
Definition fails_retryably (attempt : Z) (endpoint : string)
           (options : RequestInit) (e : JsError) : Prop :=
  snd (try_attempt attempt endpoint options) = Rejected e /\
  includes_sub (message e) "HTTP 4" = false.

(** An attempt ends in a way that ends the loop: with the data, or with
    an error whose message contains [HTTP 4]. *)
Definition decisive (result : settled Data) : Prop :=
  match result with
  | Resolved _ => True
  | Rejected e => includes_sub (message e) "HTTP 4" = true
  end.

(** [data.status === 'online'], which reads a property of [data]: the
    reading fails on [null]. *)
Variable status_is_online : Data -> settled bool.

(** [API_ENDPOINTS.health] *)
Definition health : string := "/".

(** [testConnection]; [no_options] is the default [{}] of the second
    parameter of [fetchAPI]. *)
Definition testConnection (no_options : RequestInit)
  : list Event * settled bool :=
  let '(events, result) := fetchAPI health no_options in
  (events,
   match result with
   | Resolved data =>
       match status_is_online data with
       | Resolved b => Resolved b
       | Rejected _ => Resolved false
       end
   | Rejected _ => Resolved false
   end).

End Host.

Arguments status {Data} r.
Arguments statusText {Data} r.
Arguments text {Data} r.
Arguments json {Data} r.
Arguments mkResponse {Data} status statusText text json.
Arguments ok {Data} response.

(** A host for the examples: the answers to the successive requests are
    the entries of a script, a request past its end fails to connect; no
    body is JSON. *)
Definition failed_to_fetch : JsError :=
  {| error_class := TypeErrorClass; message := "Failed to fetch" |}.

Definition scripted (script : list (settled (Response string)))
  : nat -> string -> unit -> settled (Response string) :=
  fun n _ _ => nth n script (Rejected failed_to_fetch).

Definition plain_text : string -> option ErrorData := fun _ => None.

Definition null_read_error : JsError :=
  {| error_class := TypeErrorClass;
     message := "Cannot read properties of null" |}.

Definition base_url : string := "https://backend-35m2.onrender.com".

(** An error response with a body of plain text. *)
Definition error_response (status : Z) (statusText body : string)
  : Response string :=
  mkResponse status statusText (Resolved body)
    (Rejected {| error_class := SyntaxErrorClass;
                 message := "Unexpected token" |}).

Definition answer (status : Z) (statusText body : string)
  : settled (Response string) :=
  Resolved (error_response status statusText body).

(** A 200 answer with the given data. *)
Definition success (data : string) : settled (Response string) :=
  Resolved (mkResponse 200 "OK" (Resolved data) (Resolved data)).

(** [fetchAPI] on the scripted host. *)
Definition run (script : list (settled (Response string)))
           (endpoint : string) : list Event * settled string :=
  fetchAPI string unit base_url (scripted script) plain_text
           null_read_error endpoint tt.

End Api.

(** The number of requests in a trace, and the time spent waiting. *)
Definition requests (trace : list Api.Event) : nat :=
  List.length (filter (fun ev => match ev with
                                 | Api.Request _ => true
                                 | Api.Wait _ => false
                                 end) trace).

Definition waited (trace : list Api.Event) : Z :=
  fold_right (fun ev acc => match ev with
                            | Api.Request _ => acc
                            | Api.Wait ms => ms + acc
                            end) 0 trace.

(** The URL that [fetchAPI] requests for an endpoint. *)
Definition url_of (API_BASE_URL endpoint : string) : string :=
  if Api.startsWith endpoint "http" then endpoint
  else API_BASE_URL ++ endpoint.

(** The trace up to and including the request of attempt [k + 1]. *)
Definition schedule (url : string) (k : nat) : list Api.Event :=
  match k with
  | 0%nat => [Api.Request url]
  | 1%nat => [Api.Request url; Api.Wait 2000; Api.Request url]
  | _ => [Api.Request url; Api.Wait 2000; Api.Request url;
          Api.Wait 4000; Api.Request url]
  end.


(* ================================================================== *)
(** ** [src/components/MembersManagement.tsx]: the list of members *)
(* ================================================================== *)

Module Members.

(** What the list reads of a [Member].  [employee_id] is read with [?.]:
    [None] is [null] or [undefined].  [is_currently_tracking] is
    optional. *)
Record Member : Type := mkMember {
  full_name : string;
  email : string;
  employee_id : option string;
  is_currently_tracking : option bool
}.

(** ['all' | 'active' | 'inactive'] *)
Inductive FilterStatus : Type := all | active | inactive.

(** The truth value of an optional boolean. *)
Definition truthy (b : option bool) : bool :=
  match b with Some true => true | _ => false end.

Definition matchesSearch (searchTerm : string) (member : Member) : bool :=
  Api.includes_sub (toLowerCase (full_name member)) (toLowerCase searchTerm)
  || Api.includes_sub (toLowerCase (email member)) (toLowerCase searchTerm)
  || match employee_id member with
     | Some id =>
         Api.includes_sub (toLowerCase id) (toLowerCase searchTerm)
     | None => false
     end.

Definition matchesFilter (filterStatus : FilterStatus) (member : Member)
  : bool :=
  match filterStatus with
  | all => true
  | active => truthy (is_currently_tracking member)
  | inactive => negb (truthy (is_currently_tracking member))
  end.

Definition filteredMembers (members : list Member) (searchTerm : string)
           (filterStatus : FilterStatus) : list Member :=
  filter (fun member =>
            matchesSearch searchTerm member
            && matchesFilter filterStatus member) members.

(** The three counts of the cards above the list. *)
Definition totalMembers (members : list Member) : Z :=
  Z.of_nat (List.length members).

Definition activeMembers (members : list Member) : Z :=
  Z.of_nat (List.length
              (filter (fun m => truthy (is_currently_tracking m)) members)).

Definition inactiveMembers (members : list Member) : Z :=
  totalMembers members - activeMembers members.

End Members.

(* ================================================================== *)
(** ** [src/components/MembersManagement.tsx]: adding a member *)
(* ================================================================== *)

(** A character class under [+]: one character of the class or more, as
    many as possible first. *)
Fixpoint many1 (p : ascii -> bool) (i : nat) (s : string) (c : captures)
         (k : nat -> string -> captures -> option captures)
  : option captures :=
  match s with
  | String a s' =>
      if p a then
        match many1 p (S i) s' c k with
        | Some c' => Some c'
        | None => k (S i) s' c
        end
      else None
  | EmptyString => None
  end.

(** The regular expressions of the form: those of [regex], and repeated
    character classes. *)
Inductive pattern : Type :=
| Re (r : regex)
| Many1 (p : ascii -> bool)
| Then (p1 p2 : pattern)
| Group (n : nat) (p : pattern).

Fixpoint pmatch (p : pattern) (i : nat) (s : string) (c : captures)
         (k : nat -> string -> captures -> option captures)
  : option captures :=
  match p with
  | Re r => rmatch r i s c k
  | Many1 cls => many1 cls i s c k
  | Then p1 p2 => pmatch p1 i s c (fun i' s' c' => pmatch p2 i' s' c' k)
  | Group n p1 =>
      pmatch p1 i s c
        (fun i' s' c' => k i' s' (set_capture n (substring 0 (i' - i) s) c'))
  end.

Definition pmatch_at (p : pattern) (i : nat) (s : string)
  : option captures :=
  pmatch p i s []
    (fun i' _ c => Some (set_capture 0 (substring 0 (i' - i) s) c)).

Fixpoint psearch (p : pattern) (i : nat) (s : string) : option captures :=
  match pmatch_at p i s with
  | Some c => Some c
  | None =>
      match s with
      | String _ s' => psearch p (S i) s'
      | EmptyString => None
      end
  end.

(** [s.match(p)] *)
Definition pattern_match (s : string) (p : pattern) : option captures :=
  psearch p 0%nat s.

(** [p.test(s)] *)
Definition pattern_test (p : pattern) (s : string) : bool :=
  match psearch p 0%nat s with
  | Some _ => true
  | None => false
  end.

Fixpoint pseq (ps : list pattern) : pattern :=
  match ps with
  | [] => Re Eps
  | [p] => p
  | p :: ps' => Then p (pseq ps')
  end.

(** The text of a string literal as a pattern. *)
Fixpoint literal (s : string) : pattern :=
  match s with
  | EmptyString => Re Eps
  | String a EmptyString => Re (lit a)
  | String a s' => Then (Re (lit a)) (literal s')
  end.

(** The double quote. *)
Definition dquote : ascii := ascii_of_nat 34.

Module AddMember.

Record FormData : Type := mkFormData {
  email : string;
  full_name : string
}.

(** The state of the component that [handleAddMember] sets. *)
Record State : Type := mkState {
  showAddModal : bool;
  submitting : bool;
  errorMessage : string;
  formData : FormData
}.

(** [{ method: ..., body: ... }] *)
Record RequestInit : Type := mkRequestInit {
  method : string;
  body : string
}.

(** What [handleAddMember] does besides setting the state: what
    [fetchAPI] asks of the host, the call of [loadMembers], which is not
    awaited, and the call of [showNotification] with the type
    ['success'], whose text is left out. *)
Inductive Effect : Type :=
| Net (ev : Api.Event)
| LoadMembers
| ShowSuccess.

(** What [handleAddMember] reads of the data that [fetchAPI] returns: the
    truth value of [success], and [error] and [message] as texts, [None]
    when absent or falsy.  [NullData] is [null] or [undefined], of which
    no property can be read. *)
Inductive Reply : Type :=
| NullData
| Props (success : bool) (error message : option string).

Definition API_BASE : string := "/api/members".

(** [[^\s@]] *)
Definition no_space_no_at (c : ascii) : bool :=
  negb (is_space c || Ascii.eqb c "@").

(** [/^[^\s@]+@[^\s@]+\.[^\s@]+$/] *)
Definition emailRegex : pattern :=
  pseq [Re Bos; Many1 no_space_no_at; Re (lit "@"); Many1 no_space_no_at;
        Re (lit "."); Many1 no_space_no_at; Re Eos].

(** The pattern of the [catch] block: the word [error] between double
    quotes, a colon, and between double quotes the group 1, of one
    character or more other than the double quote. *)
Definition error_pattern : pattern :=
  pseq [Re (lit dquote); literal "error"; Re (lit dquote); Re (lit ":");
        Re (lit dquote);
        Group 1 (Many1 (fun c => negb (Ascii.eqb c dquote)));
        Re (lit dquote)].

(** What the [catch] block shows for an error with the message
    [message]. *)
Definition shown_for_error (form : FormData) (message : string) : string :=
  let errorMsg := Api.str_or message "Failed to add member. Please try again." in
  if Api.includes_sub errorMsg "HTTP 409" then
    "Email " ++ String dquote (email form)
    ++ String dquote " already exists in the system!"
  else if Api.includes_sub errorMsg "HTTP 400" then
    match pattern_match errorMsg error_pattern with
    | Some parts =>
        match group parts 1 with
        | Some found =>
            if (found =? "")%string
            then "Invalid request. Please check your input."
            else found
        | None => "Invalid request. Please check your input."
        end
    | None => "Invalid request. Please check your input."
    end
  else if Api.includes_sub errorMsg "HTTP 503" then
    "Database connection failed. Please try again in a moment."
  else if Api.includes_sub errorMsg "Cannot connect" then
    "Cannot connect to server. The backend may be sleeping (Render free tier). Please wait 30-60 seconds and try again."
  else errorMsg.

Section Host.

Variable Data : Type.
Variable API_BASE_URL : string.
Variable fetch :
  nat -> string -> RequestInit -> Api.settled (Api.Response Data).
Variable JSON_parse : string -> option Api.ErrorData.

(** The [TypeError]s that the host raises when a property of [null] is
    read: in [fetchAPI], and in [handleAddMember]. *)
Variable null_read : Api.JsError.
Variable null_read_success : Api.JsError.

(** [JSON.stringify(formData)] *)
Variable JSON_stringify : FormData -> string.

Variable reply : Data -> Reply.

Definition set_errorMessage (st : State) (msg : string) : State :=
  {| showAddModal := showAddModal st; submitting := submitting st;
     errorMessage := msg; formData := formData st |}.

Definition set_submitting (st : State) (b : bool) : State :=
  {| showAddModal := showAddModal st; submitting := b;
     errorMessage := errorMessage st; formData := formData st |}.

(** What follows the call of [fetchAPI]: the rest of the [try] block
    when the call returns, the [catch] block when the call or the
    reading of [data.success] throws. *)
Definition settle (st : State) (form : FormData)
           (result : Api.settled Data) : list Effect * State :=
  let caught (e : Api.JsError) : list Effect * State :=
    ([], set_errorMessage st (shown_for_error form (Api.message e))) in
  match result with
  | Api.Resolved data =>
      match reply data with
      | NullData => caught null_read_success
      | Props true _ _ =>
          ([LoadMembers; ShowSuccess],
           {| showAddModal := false; submitting := submitting st;
              errorMessage := "";
              formData := {| email := ""; full_name := "" |} |})
      | Props false error message =>
          ([],
           set_errorMessage st
             (Api.opt_or error
                (Api.opt_or message "Failed to add member")))
      end
  | Api.Rejected e => caught e
  end.

(** The options of the request. *)
Definition post (form : FormData) : RequestInit :=
  {| method := "POST"; body := JSON_stringify form |}.

(** [handleAddMember], on the state at the time of the call: what it
    does, and the state that it leaves.  The call of [preventDefault]
    and the [console] calls are left out. *)
Definition handleAddMember (st : State) : list Effect * State :=
  let form := formData st in
  let st := set_errorMessage st "" in
  if (email form =? "")%string || (full_name form =? "")%string then
    ([], set_errorMessage st "Email and Name are required")
  else if negb (pattern_test emailRegex (email form)) then
    ([], set_errorMessage st "Please enter a valid email address")
  else
    let st := set_submitting st true in
    let '(events, result) :=
      Api.fetchAPI Data RequestInit API_BASE_URL fetch JSON_parse null_read
        API_BASE (post form) in
    let '(effects, st) := settle st form result in
    ((map Net events ++ effects)%list, set_submitting st false).

End Host.

(** For the examples: a form that is open and filled in, a backend that
    gives every request the same answer, whose error bodies are JSON
    texts with the given [error], and a [JSON.stringify] for texts that
    need no escape. *)
Definition filled_in : State :=
  {| showAddModal := true; submitting := false; errorMessage := "";
     formData := {| email := "ada@example.com"; full_name := "Ada" |} |}.

Definition always (answer : Api.settled (Api.Response string))
  : nat -> string -> RequestInit -> Api.settled (Api.Response string) :=
  fun _ _ _ => answer.

Definition with_error (error : string) : string -> option Api.ErrorData :=
  fun _ => Some (Api.Fields (Some error) None).

Definition quoted (s : string) : string :=
  String dquote (s ++ String dquote "").

Definition write_form (form : FormData) : string :=
  "{" ++ quoted "email" ++ ":" ++ quoted (email form) ++ ","
  ++ quoted "full_name" ++ ":" ++ quoted (full_name form) ++ "}".

(** [handleAddMember] on that backend; the data of an answer is [null]. *)
Definition run (answer : Api.settled (Api.Response string))
           (error : string) (st : State) : list Effect * State :=
  handleAddMember string Api.base_url (always answer) (with_error error)
    Api.null_read_error Api.null_read_error write_form
    (fun _ => NullData) st.

End AddMember.

(** The characters of a string all pass a test. *)
Fixpoint string_forall (p : ascii -> bool) (s : string) : bool :=
  match s with
  | EmptyString => true
  | String a s' => p a && string_forall p s'
  end.

(** The shape of an address that the form accepts: a name, [@], and a
    domain with a dot inside, without white space and without another
    [@]. *)
Definition address_shape (s : string) : Prop :=
  exists name domain top,
    s = name ++ String "@" (domain ++ String "." top) /\
    name <> "" /\ domain <> "" /\ top <> "" /\
    string_forall AddMember.no_space_no_at name = true /\
    string_forall AddMember.no_space_no_at domain = true /\
    string_forall AddMember.no_space_no_at top = true.

(** The requests among the effects. *)
Definition net_events (effects : list AddMember.Effect) : list Api.Event :=
  flat_map (fun ef => match ef with
                      | AddMember.Net ev => [ev]
                      | _ => []
                      end) effects.

(* ================================================================== *)
(** * Properties *)
(* ================================================================== *)

(* ================================================================== *)
(** ** Guards and sentinels *)
(* ================================================================== *)

Lemma eqb_neq_false (s l : string) : s <> l -> (s =? l)%string = false.
Proof. intro H. apply String.eqb_neq. exact H. Qed.

Ltac guard_false :=
  repeat match goal with
         | H : ?s <> ?l |- context [(?s =? ?l)%string] =>
             rewrite (eqb_neq_false s l H)
         end.

(** The relative-time formatter on a string that passes its guard: both
    arms of the test for [T] and [Z] build the date the same way. *)
Lemma formatLastActivity_unguarded (E : Env) (s : string) :
  s <> "" -> s <> "Unknown" -> s <> "Never" ->
  formatLastActivity E (Str s) =
  call
    (try_catch
       (match Date_parse E s with
        | None => Return (Str s)
        | Some t =>
            let diffSeconds := (now E - t) / 1000 in
            let diffMinutes := diffSeconds / 60 in
            let diffHours := diffMinutes / 60 in
            let diffDays := diffHours / 24 in
            if diffSeconds <? 60 then
              if diffSeconds <=? 5 then Return (Str "Just now")
              else Return (Str (ago diffSeconds "second"))
            else if diffMinutes <? 60 then
              Return (Str (ago diffMinutes "minute"))
            else if diffHours <? 24 then
              Return (Str (ago diffHours "hour"))
            else if diffDays <=? 2 then
              Return (Str (ago diffDays "day"))
            else
              r <- perform
                     (toLocaleString E t "en-US"
                        (date_options
                           (negb (getFullYear E t =? getFullYear E (now E))))) ;;
              Return (Str r)
        end)
       (fun _ => Return (Str s))).
Proof.
  intros H1 H2 H3. unfold formatLastActivity, falsy, is_str. guard_false.
  cbn [orb]. cbn [js_includes perform bind].
  destruct (includes s "T"); [| destruct (includes s "Z")];
    cbn [bind new_Date getTime];
    destruct (Date_parse E s); reflexivity.
Qed.

Lemma append_assoc (a b c : string) : (a ++ b) ++ c = a ++ (b ++ c).
Proof.
  induction a as [| x a IH]; cbn [append].
  - reflexivity.
  - rewrite IH. reflexivity.
Qed.

Lemma ago_phrase (n : Z) (unit : string) :
  ago n unit = phrase n unit (unit ++ "s").
Proof.
  unfold ago, phrase. destruct (n =? 1); cbn [negb].
  - reflexivity.
  - rewrite (append_assoc unit "s" " ago"). reflexivity.
Qed.

Lemma date_options_year (b : bool) :
  date_options (negb b) =
  {| opt_month := Some short; opt_day := Some numeric;
     opt_year := if b then None else Some numeric;
     opt_hour := Some numeric; opt_minute := Some two_digit;
     opt_hour12 := Some true |}.
Proof. destruct b; reflexivity. Qed.

(* ================================================================== *)
(** ** The relative-time formatter *)
(* ================================================================== *)

(** C1.  For every input that [formatLastActivity] parses to a valid
    instant [t] (in particular a past one), with
    seconds = floor((now - t)/1000), minutes = floor(seconds/60),
    hours = floor(minutes/60) and days = floor(hours/24), the output is
    that of the first band that applies: ["Just now"] up to 5 seconds,
    then the count of seconds, of minutes (below 60), of hours (below 24),
    of days (up to 2), each with its unit in the singular exactly when the
    count is 1, and otherwise the absolute date, which shows the year only
    when the year of the instant differs from the current year. *)
Theorem formatLastActivity_bands (E : Env) (s : string) (t : Z) :
  s <> "" -> s <> "Unknown" -> s <> "Never" ->
  Date_parse E s = Some t ->
  let seconds := (now E - t) / 1000 in
  let minutes := seconds / 60 in
  let hours := minutes / 60 in
  let days := hours / 24 in
  (seconds < 60 -> seconds <= 5 ->
   formatLastActivity E (Str s) = Returns (Str "Just now")) /\
  (seconds < 60 -> 5 < seconds ->
   formatLastActivity E (Str s)
   = Returns (Str (phrase seconds "second" "seconds"))) /\
  (60 <= seconds -> minutes < 60 ->
   formatLastActivity E (Str s)
   = Returns (Str (phrase minutes "minute" "minutes"))) /\
  (60 <= seconds -> 60 <= minutes -> hours < 24 ->
   formatLastActivity E (Str s)
   = Returns (Str (phrase hours "hour" "hours"))) /\
  (60 <= seconds -> 60 <= minutes -> 24 <= hours -> days <= 2 ->
   formatLastActivity E (Str s)
   = Returns (Str (phrase days "day" "days"))) /\
  (60 <= seconds -> 60 <= minutes -> 24 <= hours -> 2 < days ->
   formatLastActivity E (Str s) = absolute_date E s t).
Proof.
  intros H1 H2 H3 Hp seconds minutes hours days.
  rewrite (formatLastActivity_unguarded E s H1 H2 H3), Hp.
  cbv zeta. fold seconds. fold minutes. fold hours. fold days.
  rewrite !ago_phrase, date_options_year. cbn [append].
  repeat split; intros;
    repeat match goal with
           | |- context [?a <? ?b] =>
               first [ replace (a <? b) with true by (symmetry; apply Z.ltb_lt; lia)
                     | replace (a <? b) with false by (symmetry; apply Z.ltb_ge; lia) ]
           | |- context [?a <=? ?b] =>
               first [ replace (a <=? b) with true by (symmetry; apply Z.leb_le; lia)
                     | replace (a <=? b) with false by (symmetry; apply Z.leb_gt; lia) ]
           end;
    try reflexivity.
  unfold absolute_date. cbn [try_catch bind perform call].
  destruct (toLocaleString E t _ _); reflexivity.
Qed.

(** The band of 45 seconds on the reference host. *)
Lemma formatLastActivity_bands_45_seconds :
  formatLastActivity Host.utc (Str "2025-12-22T06:35:30Z")
  = Returns (Str "45 seconds ago").
Proof.
  pose proof (formatLastActivity_bands Host.utc "2025-12-22T06:35:30Z"
                1766385330000) as H.
  cbv zeta in H.
  refine (proj1 (proj2 (H _ _ _ _)) _ _);
    solve [ discriminate | reflexivity ].
Defined.

(** C10.  An instant after the clock, by any amount, is rendered as
    ["Just now"]: its count of seconds is negative, hence below 60 and
    at most 5. *)
Theorem formatLastActivity_future (E : Env) (s : string) (t : Z) :
  s <> "" -> s <> "Unknown" -> s <> "Never" ->
  Date_parse E s = Some t ->
  now E < t ->
  (now E - t) / 1000 < 0 /\
  formatLastActivity E (Str s) = Returns (Str "Just now").
Proof.
  intros H1 H2 H3 Hp Hfut.
  assert (Hneg : (now E - t) / 1000 < 0)
    by (apply Z.div_lt_upper_bound; lia).
  split; [exact Hneg |].
  rewrite (formatLastActivity_unguarded E s H1 H2 H3), Hp. cbv zeta.
  replace ((now E - t) / 1000 <? 60) with true
    by (symmetry; apply Z.ltb_lt; lia).
  replace ((now E - t) / 1000 <=? 5) with true
    by (symmetry; apply Z.leb_le; lia).
  reflexivity.
Qed.

(** A year ahead of the clock of the reference host. *)
Lemma formatLastActivity_future_next_year :
  (Host.t0 - 1797964305000) / 1000 < 0 /\
  formatLastActivity Host.utc (Str "2026-12-22T18:31:45Z")
  = Returns (Str "Just now").
Proof.
  apply (formatLastActivity_future Host.utc "2026-12-22T18:31:45Z"
           1797964305000);
    solve [ discriminate | reflexivity ].
Defined.

(** C9.  The test for [T] and [Z] in [formatLastActivity] has no effect:
    the function agrees, on every input, with the version that parses
    every input that passes the guard with the general-purpose
    constructor. *)
Theorem formatLastActivity_simplified_eq (E : Env) (v : jsval) :
  formatLastActivity E v = formatLastActivity_simplified E v.
Proof.
  unfold formatLastActivity, formatLastActivity_simplified.
  destruct (falsy v || is_str v "Unknown" || is_str v "Never") eqn:G;
    [reflexivity |].
  destruct v as [| | s]; cbn in G; try discriminate.
  cbn [js_includes perform bind].
  assert (Hsame :
    (hasZ <- (if includes s "T" then Normal true
              else Normal (includes s "Z")) ;;
     (if hasZ then Normal (new_Date E (Str s))
      else Normal (new_Date E (Str s))))
    = (Normal (new_Date E (Str s)) : completion jsval Date)).
  { destruct (includes s "T"); [| destruct (includes s "Z")]; reflexivity. }
  rewrite Hsame. cbn [bind new_Date getTime Date_toLocaleString].
  destruct (Date_parse E s) as [t |]; [| reflexivity].
  cbv zeta. rewrite !ago_phrase, date_options_year. reflexivity.
Qed.

(* ================================================================== *)
(** ** The clock-time and date-time formatters on a string *)
(* ================================================================== *)

Ltac run := cbn [bind perform js_includes js_match try_catch call
                 new_Date getTime isNaN Date_toLocaleTimeString
                 Date_toLocaleString].

(** [formatLocalTime] on a string that passes its guard, by shape. *)
Lemma formatLocalTime_unguarded (E : Env) (s : string) :
  s <> "" -> s <> "Unknown" -> s <> "Never" -> s <> "Recent" ->
  formatLocalTime E (Str s) =
  match classify s with
  | IsoLike => clock_time_or_input E s (mkDate (Date_parse E s))
  | NaiveSql =>
      match str_match s re_sql_inner with
      | Some parts => clock_time_or_input E s (Date_UTC_of_parts parts)
      | None => Returns (Str s)
      end
  | BareClock =>
      match str_match s re_clock_inner with
      | Some timeMatch =>
          match toUpperCase_group timeMatch 3 with
          | Returns period =>
              clock_time_or_input E s (clock_date E timeMatch period)
          | Raises _ => Returns (Str s)
          end
      | None => Returns (Str s)
      end
  | Fallback => clock_time_or_input E s (mkDate (Date_parse E s))
  end.
Proof.
  intros H1 H2 H3 H4.
  unfold formatLocalTime, classify, matches, clock_time_or_input, clock_date,
    falsy, is_str.
  guard_false. cbn [orb]. run.
  destruct (includes s "T"); cbn [orb]; run.
  { destruct (Date_parse E s); run; [| reflexivity].
    destruct (toLocaleTimeString E z "en-US" time_options); reflexivity. }
  destruct (includes s "Z"); run.
  { destruct (Date_parse E s); run; [| reflexivity].
    destruct (toLocaleTimeString E z "en-US" time_options); reflexivity. }
  destruct (str_match s re_sql_outer); run.
  { destruct (str_match s re_sql_inner) as [parts |]; run; [| reflexivity].
    destruct (Date_UTC_of_parts parts) as [[t |]]; run; [| reflexivity].
    destruct (toLocaleTimeString E t "en-US" time_options); reflexivity. }
  destruct (str_match s re_clock_outer); run.
  { destruct (str_match s re_clock_inner) as [tm |]; run; [| reflexivity].
    destruct (toUpperCase_group tm 3) as [period |]; run; [| reflexivity].
    destruct (Date_UTC _ _ _ _ _ _); run; [| reflexivity].
    destruct (toLocaleTimeString E z "en-US" time_options); reflexivity. }
  destruct (Date_parse E s); run; [| reflexivity].
  destruct (toLocaleTimeString E z "en-US" time_options); reflexivity.
Qed.

(** [formatLocalDateTime] on a string that passes its guard. *)
Lemma formatLocalDateTime_unguarded (E : Env) (s : string) :
  s <> "" -> s <> "Unknown" -> s <> "Never" ->
  formatLocalDateTime E (Str s) =
  let date :=
    if includes s "T" || includes s "Z" then Some (mkDate (Date_parse E s))
    else if matches s re_sql_outer then
      option_map Date_UTC_of_parts (str_match s re_sql_inner)
    else Some (mkDate (Date_parse E s)) in
  match date with
  | Some (mkDate (Some t)) => Returns (Str (local_datetime_string E t))
  | _ => Returns (Str s)
  end.
Proof.
  intros H1 H2 H3.
  unfold formatLocalDateTime, matches, falsy, is_str.
  guard_false. cbn [orb]. run.
  destruct (includes s "T"); cbn [orb]; run.
  { destruct (Date_parse E s); reflexivity. }
  destruct (includes s "Z"); run.
  { destruct (Date_parse E s); reflexivity. }
  destruct (str_match s re_sql_outer); run.
  { destruct (str_match s re_sql_inner) as [parts |]; run; [| reflexivity].
    cbn [option_map]. destruct (Date_UTC_of_parts parts) as [[t |]]; reflexivity. }
  destruct (Date_parse E s); reflexivity.
Qed.

(** C8.  The two wrappers return, on every input, what the functions they
    delegate to return. *)
Theorem wrappers_delegate (E : Env) (v : jsval) :
  formatScreenshotTime E v = formatLocalDateTime E v /\
  formatActivityTime E v = formatLocalTime E v.
Proof. split; reflexivity. Qed.

(** C6.  [formatLocalTime] returns at its guard for null, undefined, the
    empty string and the three tokens, with ["Unknown"] for the first
    four; [formatLocalDateTime] has the same guard without ["Recent"],
    which it hands to the date parser and returns unchanged when
    the parser rejects it. *)
Theorem sentinel_guards (E : Env) :
  (formatLocalTime E Null = Returns (Str "Unknown") /\
   formatLocalTime E Undefined = Returns (Str "Unknown") /\
   formatLocalTime E (Str "") = Returns (Str "Unknown") /\
   formatLocalTime E (Str "Unknown") = Returns (Str "Unknown") /\
   formatLocalTime E (Str "Never") = Returns (Str "Never") /\
   formatLocalTime E (Str "Recent") = Returns (Str "Recent")) /\
  (formatLocalDateTime E Null = Returns (Str "Unknown") /\
   formatLocalDateTime E Undefined = Returns (Str "Unknown") /\
   formatLocalDateTime E (Str "") = Returns (Str "Unknown") /\
   formatLocalDateTime E (Str "Unknown") = Returns (Str "Unknown") /\
   formatLocalDateTime E (Str "Never") = Returns (Str "Never")) /\
  formatLocalDateTime E (Str "Recent") =
    match Date_parse E "Recent" with
    | None => Returns (Str "Recent")
    | Some t => Returns (Str (local_datetime_string E t))
    end.
Proof.
  repeat split; try reflexivity.
  rewrite formatLocalDateTime_unguarded by discriminate.
  cbv zeta.
  replace (includes "Recent" "T" || includes "Recent" "Z") with false
    by reflexivity.
  replace (matches "Recent" re_sql_outer) with false by reflexivity.
  destruct (Date_parse E "Recent"); reflexivity.
Qed.

(* ================================================================== *)
(** ** Failure never leaves a formatter *)
(* ================================================================== *)

Lemma clock_time_or_input_string (E : Env) (s : string) (date : Date) :
  exists r, clock_time_or_input E s date = Returns (Str r).
Proof.
  unfold clock_time_or_input.
  destruct (getTime date) as [t |]; [| eexists; reflexivity].
  destruct (toLocaleTimeString E t "en-US" time_options);
    eexists; reflexivity.
Qed.

Lemma formatLocalTime_string (E : Env) (v : jsval) :
  exists r, formatLocalTime E v = Returns (Str r).
Proof.
  destruct v as [| | s]; try (eexists; reflexivity).
  destruct (String.eqb_spec s ""); [subst; eexists; reflexivity |].
  destruct (String.eqb_spec s "Unknown"); [subst; eexists; reflexivity |].
  destruct (String.eqb_spec s "Never"); [subst; eexists; reflexivity |].
  destruct (String.eqb_spec s "Recent"); [subst; eexists; reflexivity |].
  rewrite formatLocalTime_unguarded by assumption.
  destruct (classify s); try apply clock_time_or_input_string.
  - destruct (str_match s re_sql_inner);
      [apply clock_time_or_input_string | eexists; reflexivity].
  - destruct (str_match s re_clock_inner) as [tm |];
      [| eexists; reflexivity].
    destruct (toUpperCase_group tm 3);
      [apply clock_time_or_input_string | eexists; reflexivity].
Qed.

Lemma formatLocalDateTime_string (E : Env) (v : jsval) :
  exists r, formatLocalDateTime E v = Returns (Str r).
Proof.
  destruct v as [| | s]; try (eexists; reflexivity).
  destruct (String.eqb_spec s ""); [subst; eexists; reflexivity |].
  destruct (String.eqb_spec s "Unknown"); [subst; eexists; reflexivity |].
  destruct (String.eqb_spec s "Never"); [subst; eexists; reflexivity |].
  rewrite formatLocalDateTime_unguarded by assumption. cbv zeta.
  match goal with
  | |- exists r, match ?d with _ => _ end = _ =>
      destruct d as [[[t |]] |]; eexists; reflexivity
  end.
Qed.

Lemma formatLastActivity_string (E : Env) (v : jsval) :
  exists r, formatLastActivity E v = Returns (Str r).
Proof.
  destruct v as [| | s]; try (eexists; reflexivity).
  destruct (String.eqb_spec s ""); [subst; eexists; reflexivity |].
  destruct (String.eqb_spec s "Unknown"); [subst; eexists; reflexivity |].
  destruct (String.eqb_spec s "Never"); [subst; eexists; reflexivity |].
  rewrite formatLastActivity_unguarded by assumption.
  destruct (Date_parse E s) as [t |]; [| eexists; reflexivity].
  cbv zeta.
  repeat match goal with
         | |- context [if ?b then _ else _] =>
             destruct b; try (eexists; reflexivity)
         end.
  destruct (toLocaleString E t _ _); eexists; reflexivity.
Qed.

(** C2.  Every call of the three formatters returns a string and raises
    nothing, whatever the host's renderers do.  A string that matches
    neither pattern and that the date parser rejects is returned
    unchanged by the three formatters.  The empty string and the tokens
    that a formatter answers at its guard are shapes of their own and
    are not parsed: the statement leaves out the empty string, and
    ["Unknown"] for [formatLastActivity], which answers ["Never"] to
    it. *)
Theorem unparseable_is_returned (E : Env) :
  (forall v, exists r, formatLocalTime E v = Returns (Str r)) /\
  (forall v, exists r, formatLocalDateTime E v = Returns (Str r)) /\
  (forall v, exists r, formatLastActivity E v = Returns (Str r)) /\
  (forall s,
      s <> "" ->
      matches s re_sql_outer = false ->
      matches s re_clock_outer = false ->
      Date_parse E s = None ->
      formatLocalTime E (Str s) = Returns (Str s) /\
      formatLocalDateTime E (Str s) = Returns (Str s) /\
      (s <> "Unknown" -> formatLastActivity E (Str s) = Returns (Str s))).
Proof.
  split; [exact (formatLocalTime_string E) |].
  split; [exact (formatLocalDateTime_string E) |].
  split; [exact (formatLastActivity_string E) |].
  intros s Hne Hsql Hclock Hparse. repeat split.
  - destruct (String.eqb_spec s "Unknown"); [subst; reflexivity |].
    destruct (String.eqb_spec s "Never"); [subst; reflexivity |].
    destruct (String.eqb_spec s "Recent"); [subst; reflexivity |].
    rewrite formatLocalTime_unguarded by assumption.
    unfold classify. rewrite Hsql, Hclock.
    unfold clock_time_or_input. cbn [getTime]. rewrite Hparse.
    destruct (includes s "T" || includes s "Z"); reflexivity.
  - destruct (String.eqb_spec s "Unknown"); [subst; reflexivity |].
    destruct (String.eqb_spec s "Never"); [subst; reflexivity |].
    rewrite formatLocalDateTime_unguarded by assumption. cbv zeta.
    rewrite Hsql, Hparse.
    destruct (includes s "T" || includes s "Z"); reflexivity.
  - intros Hunk.
    destruct (String.eqb_spec s "Never"); [subst; reflexivity |].
    rewrite formatLastActivity_unguarded by assumption.
    rewrite Hparse. reflexivity.
Qed.

(** A string of no recognized shape on the reference host. *)
Lemma unparseable_is_returned_garbage :
  formatLocalTime Host.utc (Str "last week") = Returns (Str "last week") /\
  formatLocalDateTime Host.utc (Str "last week") = Returns (Str "last week") /\
  formatLastActivity Host.utc (Str "last week") = Returns (Str "last week").
Proof.
  destruct (unparseable_is_returned Host.utc) as (_ & _ & _ & H).
  destruct (H "last week") as (H1 & H2 & H3);
    try solve [ discriminate | reflexivity ].
  split; [exact H1 | split; [exact H2 | apply H3; discriminate]].
Defined.

(* ================================================================== *)
(** ** The calendar *)
(* ================================================================== *)

Ltac zdiv := Z.to_euclidean_division_equations; lia.

Lemma DayFromYear_succ (y : Z) :
  DayFromYear (y + 1) = DayFromYear y + DaysInYear y.
Proof.
  unfold DayFromYear, DaysInYear, is_leap.
  destruct (Z.eqb_spec (y mod 4) 0); cbn [negb];
    [ destruct (Z.eqb_spec (y mod 100) 0); cbn [negb];
      [ destruct (Z.eqb_spec (y mod 400) 0); cbn [negb] | ] | ];
    zdiv.
Qed.

Lemma DayFromYear_le (y y' : Z) : y <= y' -> DayFromYear y <= DayFromYear y'.
Proof. unfold DayFromYear. intros. zdiv. Qed.

(** [year_of_day] meets the definition of [YearFromTime]: the year it
    gives starts on or before the day, and the next one after it. *)
Lemma year_of_day_bounds (dn : Z) :
  DayFromYear (year_of_day dn) <= dn < DayFromYear (year_of_day dn + 1).
Proof.
  unfold year_of_day. cbv zeta.
  set (y0 := 1970 + 400 * dn / 146097).
  assert (H0 : 146097 * (y0 - 1970) <= 400 * dn
               < 146097 * (y0 - 1970) + 146097) by (unfold y0; zdiv).
  clearbody y0.
  destruct (Z.leb_spec (DayFromYear (y0 + 1)) dn) as [H1 | H1].
  - split; [lia |]. unfold DayFromYear in *. zdiv.
  - destruct (Z.leb_spec (DayFromYear y0) dn) as [H2 | H2].
    + split; lia.
    + replace (y0 - 1 + 1) with y0 by lia. split; [| lia].
      unfold DayFromYear in *. zdiv.
Qed.

Lemma year_of_day_unique (dn y : Z) :
  DayFromYear y <= dn < DayFromYear (y + 1) -> year_of_day dn = y.
Proof.
  intros Hy. pose proof (year_of_day_bounds dn) as HY.
  destruct (Z.lt_trichotomy (year_of_day dn) y) as [Hlt | [Heq | Hgt]].
  - pose proof (DayFromYear_le (year_of_day dn + 1) y ltac:(lia)). lia.
  - exact Heq.
  - pose proof (DayFromYear_le (y + 1) (year_of_day dn) ltac:(lia)). lia.
Qed.

Lemma DayWithinYear_bounds (t : Z) :
  0 <= DayWithinYear t < 365 + InLeapYear t.
Proof.
  unfold DayWithinYear, InLeapYear, YearFromTime.
  pose proof (year_of_day_bounds (Day t)) as H.
  rewrite DayFromYear_succ in H. unfold DaysInYear in H.
  destruct (is_leap (year_of_day (Day t))); lia.
Qed.

Lemma InLeapYear_cases (t : Z) : InLeapYear t = 0 \/ InLeapYear t = 1.
Proof. unfold InLeapYear. destruct (is_leap _); auto. Qed.

Ltac eval_month_start :=
  repeat match goal with
         | |- context [month_start ?l ?m] =>
             let v := eval vm_compute in (month_start l m) in
             change (month_start l m) with v
         | H : context [month_start ?l ?m] |- _ =>
             let v := eval vm_compute in (month_start l m) in
             change (month_start l m) with v in H
         end.

Lemma month_of_day_range (leap dwy : Z) : 0 <= month_of_day leap dwy <= 11.
Proof.
  unfold month_of_day.
  repeat match goal with
         | |- context [if ?b then _ else _] => destruct b
         end; lia.
Qed.

(** Day [dwy] of the year lies in the month that [month_of_day] gives. *)
Lemma month_of_day_bounds (leap dwy : Z) :
  (leap = 0 \/ leap = 1) -> 0 <= dwy < 365 + leap ->
  month_start leap (month_of_day leap dwy) <= dwy
  < month_start leap (month_of_day leap dwy + 1).
Proof.
  intros Hl Hd. unfold month_of_day.
  destruct Hl as [-> | ->];
    repeat match goal with
           | |- context [if ?a <? ?b then _ else _] =>
               destruct (Z.ltb_spec a b)
           end;
    eval_month_start; lia.
Qed.

(** The day at offset [off] in month [m] is in month [m]. *)
Lemma month_of_day_start (leap m off : Z) :
  (leap = 0 \/ leap = 1) -> 0 <= m <= 11 ->
  0 <= off < month_start leap (m + 1) - month_start leap m ->
  month_of_day leap (month_start leap m + off) = m.
Proof.
  intros Hl Hm Hoff.
  assert (Hcases : m = 0 \/ m = 1 \/ m = 2 \/ m = 3 \/ m = 4 \/ m = 5 \/
                   m = 6 \/ m = 7 \/ m = 8 \/ m = 9 \/ m = 10 \/ m = 11)
    by lia.
  unfold month_of_day.
  destruct Hl as [-> | ->];
    repeat (destruct Hcases as [-> | Hcases]); try subst m;
    eval_month_start;
    repeat match goal with
           | |- context [if ?a <? ?b then _ else _] =>
               destruct (Z.ltb_spec a b); try lia
           end.
Qed.

Lemma month_start_bounds (leap m : Z) :
  (leap = 0 \/ leap = 1) -> 0 <= m <= 11 ->
  0 <= month_start leap m /\ month_start leap (m + 1) <= 365 + leap /\
  28 <= month_start leap (m + 1) - month_start leap m <= 31.
Proof.
  intros Hl Hm.
  assert (Hcases : m = 0 \/ m = 1 \/ m = 2 \/ m = 3 \/ m = 4 \/ m = 5 \/
                   m = 6 \/ m = 7 \/ m = 8 \/ m = 9 \/ m = 10 \/ m = 11)
    by lia.
  destruct Hl as [-> | ->];
    repeat (destruct Hcases as [-> | Hcases]); try subst m;
    eval_month_start; lia.
Qed.

Lemma MonthFromTime_range (t : Z) : 0 <= MonthFromTime t <= 11.
Proof. apply month_of_day_range. Qed.

Lemma DateFromTime_range (t : Z) : 1 <= DateFromTime t <= 31.
Proof.
  unfold DateFromTime, MonthFromTime.
  pose proof (month_of_day_bounds (InLeapYear t) (DayWithinYear t)
                (InLeapYear_cases t) (DayWithinYear_bounds t)) as Hb.
  pose proof (month_start_bounds (InLeapYear t)
                (month_of_day (InLeapYear t) (DayWithinYear t))
                (InLeapYear_cases t)
                (month_of_day_range _ _)) as Hs.
  lia.
Qed.

(** A month in 0..11 does not carry into the year. *)
Lemma MakeDay_in_year (y m dt : Z) :
  0 <= m <= 11 ->
  MakeDay y m dt
  = DayFromYear y + month_start (if is_leap y then 1 else 0) m + dt - 1.
Proof.
  intros Hm. unfold MakeDay. cbv zeta.
  replace (m / 12) with 0 by zdiv.
  replace (m mod 12) with m by zdiv.
  replace (y + 0) with y by lia. reflexivity.
Qed.

(** The day number of the calendar date of a time value is its day. *)
Lemma MakeDay_of_fields (t : Z) :
  MakeDay (YearFromTime t) (MonthFromTime t) (DateFromTime t) = Day t.
Proof.
  rewrite MakeDay_in_year by apply MonthFromTime_range.
  unfold DateFromTime, DayWithinYear, InLeapYear. lia.
Qed.

Lemma Day_MakeDate (day time : Z) :
  0 <= time < msPerDay -> Day (MakeDate day time) = day.
Proof. unfold Day, MakeDate, msPerDay. intros. zdiv. Qed.

Lemma MakeTime_bounds (h mi se : Z) :
  0 <= h <= 23 -> 0 <= mi <= 59 -> 0 <= se <= 59 ->
  0 <= MakeTime h mi se 0 < msPerDay.
Proof.
  unfold MakeTime, msPerHour, msPerMinute, msPerSecond, msPerDay. lia.
Qed.

(** The UTC calendar fields of the time value built from a real calendar
    date and time of day are the fields it was built from. *)
Lemma fields_of_MakeDate (y m dt h mi se : Z) :
  0 <= m <= 11 -> 1 <= dt <= DaysInMonth y m ->
  0 <= h <= 23 -> 0 <= mi <= 59 -> 0 <= se <= 59 ->
  let t := MakeDate (MakeDay y m dt) (MakeTime h mi se 0) in
  YearFromTime t = y /\ MonthFromTime t = m /\ DateFromTime t = dt /\
  HourFromTime t = h /\ MinFromTime t = mi /\ SecFromTime t = se.
Proof.
  intros Hm Hd Hh Hmi Hse t.
  pose proof (MakeTime_bounds h mi se Hh Hmi Hse) as Htime.
  assert (Hday : Day t = MakeDay y m dt) by (apply Day_MakeDate; exact Htime).
  set (leap := if is_leap y then 1 else 0) in *.
  assert (Hl : leap = 0 \/ leap = 1) by (unfold leap; destruct (is_leap y); auto).
  unfold DaysInMonth in Hd. cbv zeta in Hd. fold leap in Hd.
  pose proof (month_start_bounds leap m Hl Hm) as (Hs0 & Hs1 & _).
  rewrite MakeDay_in_year in Hday by exact Hm. fold leap in Hday.
  assert (Hy : YearFromTime t = y).
  { unfold YearFromTime. apply year_of_day_unique.
    rewrite DayFromYear_succ, Hday. unfold DaysInYear. fold leap.
    unfold leap in *. destruct (is_leap y); lia. }
  assert (Hleap : InLeapYear t = leap) by (unfold InLeapYear; rewrite Hy; reflexivity).
  assert (Hdwy : DayWithinYear t = month_start leap m + (dt - 1))
    by (unfold DayWithinYear; rewrite Hy, Hday; lia).
  assert (Hmo : MonthFromTime t = m).
  { unfold MonthFromTime. rewrite Hleap, Hdwy.
    apply month_of_day_start; [exact Hl | exact Hm | lia]. }
  split; [exact Hy |]. split; [exact Hmo |].
  split; [unfold DateFromTime; rewrite Hmo, Hleap, Hdwy; lia |].
  unfold HourFromTime, MinFromTime, SecFromTime.
  subst t. unfold MakeDate, MakeTime, msPerDay, msPerHour, msPerMinute,
             msPerSecond in *.
  generalize dependent (MakeDay y m dt). intros dn _ _.
  repeat split; zdiv.
Qed.

(** [MakeDay] meets its definition: the time value at the start of the
    day it gives for day 1 lies in the year and month asked for, months
    outside 0..11 carried into the year. *)
Lemma MakeDay_meets_definition (year month : Z) :
  let t := MakeDay year month 1 * msPerDay in
  YearFromTime t = year + month / 12 /\
  MonthFromTime t = month mod 12 /\
  DateFromTime t = 1.
Proof.
  cbv zeta.
  assert (Hmn : 0 <= month mod 12 <= 11) by zdiv.
  pose proof (month_start_bounds
                (if is_leap (year + month / 12) then 1 else 0)
                (month mod 12)
                ltac:(destruct (is_leap _); auto) Hmn) as (_ & _ & Hlen).
  pose proof (fields_of_MakeDate (year + month / 12) (month mod 12) 1 0 0 0
                Hmn) as H.
  unfold DaysInMonth in H. cbv zeta in H.
  specialize (H ltac:(lia) ltac:(lia) ltac:(lia) ltac:(lia)).
  destruct H as (Hy & Hm & Hd & _).
  assert (Heq : MakeDay year month 1 * msPerDay
                = MakeDate (MakeDay (year + month / 12) (month mod 12) 1)
                           (MakeTime 0 0 0 0)).
  { unfold MakeDate, MakeTime.
    rewrite (MakeDay_in_year (year + month / 12) (month mod 12) 1 Hmn).
    unfold MakeDay. lia. }
  rewrite Heq. auto.
Qed.

(* ================================================================== *)
(** ** Digits and the two patterns *)
(* ================================================================== *)

Lemma is_digit_In (c : ascii) : is_digit c = true -> In c digit_chars.
Proof.
  destruct c as [[] [] [] [] [] [] [] []]; intro H;
    try discriminate H; cbn; tauto.
Qed.

Lemma is_space_cases (c : ascii) :
  is_space c = true ->
  In c [ascii_of_nat 9; ascii_of_nat 10; ascii_of_nat 11; ascii_of_nat 12;
        ascii_of_nat 13; " "%char; ascii_of_nat 160].
Proof.
  destruct c as [[] [] [] [] [] [] [] []]; intro H;
    try discriminate H; cbn; tauto.
Qed.

Lemma number_eqb_eq (a b : number) : number_eqb a b = true -> a = b.
Proof.
  destruct a, b; cbn; intro H; try discriminate; [| reflexivity].
  apply Z.eqb_eq in H. subst. reflexivity.
Qed.

Lemma check1_all : forallb check1 digit_chars = true.
Proof. vm_compute. reflexivity. Qed.

Lemma check2_all :
  forallb (fun a => forallb (check2 a) digit_chars) digit_chars = true.
Proof. vm_compute. reflexivity. Qed.

Lemma check4_all :
  forallb (fun a =>
    forallb (fun b =>
      forallb (fun c => forallb (check4 a b c) digit_chars) digit_chars)
      digit_chars) digit_chars = true.
Proof. vm_compute. reflexivity. Qed.

Lemma one_digit (a : ascii) :
  is_digit a = true ->
  parseInt (String a "") = Some (digit_of a) /\ 0 <= digit_of a <= 9.
Proof.
  intros Ha. apply is_digit_In in Ha.
  pose proof (proj1 (forallb_forall _ _) check1_all a Ha) as H.
  unfold check1 in H.
  apply andb_prop in H as [H H3]. apply andb_prop in H as [H1 H2].
  apply number_eqb_eq in H1. apply Z.leb_le in H2, H3. auto.
Qed.

(** Two digits are read by [parseInt] as their value, and the value is
    written back by [padStart] as the same two digits. *)
Lemma two_digits (a b : ascii) :
  is_digit a = true -> is_digit b = true ->
  parseInt (str2 a b) = Some (num2 a b) /\
  padStart 2 "0" (Number_toString (num2 a b)) = str2 a b /\
  0 <= num2 a b <= 99.
Proof.
  intros Ha Hb. apply is_digit_In in Ha, Hb.
  pose proof (proj1 (forallb_forall _ _) check2_all a Ha) as H.
  pose proof (proj1 (forallb_forall _ _) H b Hb) as H'.
  unfold check2 in H'.
  apply andb_prop in H' as [H' H4]. apply andb_prop in H' as [H' H3].
  apply andb_prop in H' as [H1 H2].
  apply number_eqb_eq in H1. apply String.eqb_eq in H2.
  apply Z.leb_le in H3, H4. auto.
Qed.

(** Four digits are read by [parseInt] as their value; a value of 1000 or
    more is written back as the same four digits. *)
Lemma four_digits (a b c e : ascii) :
  is_digit a = true -> is_digit b = true ->
  is_digit c = true -> is_digit e = true ->
  parseInt (str4 a b c e) = Some (num4 a b c e) /\
  (1000 <= num4 a b c e -> Number_toString (num4 a b c e) = str4 a b c e) /\
  0 <= num4 a b c e <= 9999.
Proof.
  intros Ha Hb Hc He. apply is_digit_In in Ha, Hb, Hc, He.
  pose proof (proj1 (forallb_forall _ _) check4_all a Ha) as H.
  pose proof (proj1 (forallb_forall _ _) H b Hb) as H'.
  pose proof (proj1 (forallb_forall _ _) H' c Hc) as H''.
  pose proof (proj1 (forallb_forall _ _) H'' e He) as K.
  unfold check4 in K.
  apply andb_prop in K as [K K4]. apply andb_prop in K as [K K3].
  apply andb_prop in K as [K1 K2].
  apply number_eqb_eq in K1. apply Z.leb_le in K3, K4.
  split; [exact K1 |]. split; [| lia].
  intro Hge. apply orb_prop in K2 as [K2 | K2].
  - apply Z.ltb_lt in K2. lia.
  - apply String.eqb_eq. exact K2.
Qed.

Lemma digit_not (x c : ascii) :
  is_digit c = true -> is_digit x = false ->
  Ascii.eqb x c = false /\ Ascii.eqb c x = false.
Proof.
  intros Hc Hx.
  split; apply Ascii.eqb_neq; intro Heq; subst; congruence.
Qed.

Lemma digit_not_space (c : ascii) : is_digit c = true -> is_space c = false.
Proof.
  intros Hc. apply is_digit_In in Hc. cbn in Hc.
  repeat (destruct Hc as [<- | Hc]; [reflexivity |]). contradiction.
Qed.

(** An anchored pattern matches at the start of the subject or not at
    all. *)
Lemma rsearch_anchored (r : regex) (i : nat) (s : string) :
  rsearch (Cat Bos r) (S i) s = None.
Proof.
  revert i. induction s as [| a s IH]; intro i; cbn.
  - reflexivity.
  - apply IH.
Qed.

Lemma str_match_anchored (r : regex) (s : string) :
  str_match s (Cat Bos r) = rmatch_at (Cat Bos r) 0 s.
Proof.
  unfold str_match. destruct s as [| a s]; cbn [rsearch].
  - destruct (rmatch_at (Cat Bos r) 0 ""); reflexivity.
  - rewrite rsearch_anchored.
    destruct (rmatch_at (Cat Bos r) 0 (String a s)); reflexivity.
Qed.

(** One step of the inversion of a successful match: the next character
    of the subject exists and passes the test of the pattern. *)
Ltac inv_step H :=
  match type of H with
  | context [match ?s with EmptyString => _ | String _ _ => _ end] =>
      is_var s; destruct s; [discriminate H |]
  | context [if is_digit ?c then _ else _] =>
      let D := fresh "D" in destruct (is_digit c) eqn:D; [| discriminate H]
  | context [if Ascii.eqb ?a ?c then _ else _] =>
      destruct (Ascii.eqb_spec a c); [subst | discriminate H]
  end.

Ltac use_digits :=
  repeat match goal with
         | D : is_digit ?c = true |- context [is_digit ?c] => rewrite D
         | D : is_digit ?c = true |- context [is_space ?c] =>
             rewrite (digit_not_space c D)
         | D : is_digit ?c = true |- context [Ascii.eqb ?x ?c] =>
             rewrite (proj1 (digit_not x c D eq_refl))
         | D : is_digit ?c = true |- context [Ascii.eqb ?c ?x] =>
             rewrite (proj2 (digit_not x c D eq_refl))
         end.

(** The strings that match the strict SQL-style pattern are the texts
    [YYYY-MM-DD HH:MM:SS] made of digits. *)
Lemma sql_outer_inv (s : string) :
  matches s re_sql_outer = true ->
  exists y1 y2 y3 y4 mo1 mo2 dd1 dd2 h1 h2 mi1 mi2 se1 se2,
    s = sql_text y1 y2 y3 y4 mo1 mo2 dd1 dd2 h1 h2 mi1 mi2 se1 se2 /\
    forallb is_digit [y1; y2; y3; y4; mo1; mo2; dd1; dd2;
                      h1; h2; mi1; mi2; se1; se2] = true.
Proof.
  unfold matches, re_sql_outer. cbn [seq]. rewrite str_match_anchored.
  unfold rmatch_at. cbn [rmatch d2 d4 d lit Nat.eqb].
  intro H. repeat inv_step H.
  destruct s; [| discriminate H].
  do 14 eexists. split; [reflexivity |].
  cbn [forallb].
  repeat match goal with
         | D : is_digit _ = true |- _ => rewrite D; clear D
         end.
  reflexivity.
Qed.

Ltac split_digits H :=
  cbn [forallb] in H;
  repeat match type of H with
         | _ && _ = true =>
             let D := fresh "D" in
             apply andb_prop in H as [D H]
         end.

(** What the formatters see of a text [YYYY-MM-DD HH:MM:SS] made of
    digits. *)
Lemma sql_text_seen (y1 y2 y3 y4 mo1 mo2 dd1 dd2 h1 h2 mi1 mi2 se1 se2 : ascii) :
  forallb is_digit [y1; y2; y3; y4; mo1; mo2; dd1; dd2;
                    h1; h2; mi1; mi2; se1; se2] = true ->
  let s := sql_text y1 y2 y3 y4 mo1 mo2 dd1 dd2 h1 h2 mi1 mi2 se1 se2 in
  includes s "T" = false /\ includes s "Z" = false /\
  matches s re_sql_outer = true /\
  str_match s re_sql_inner
  = Some [Some s; Some (str4 y1 y2 y3 y4); Some (str2 mo1 mo2);
          Some (str2 dd1 dd2); Some (str2 h1 h2); Some (str2 mi1 mi2);
          Some (str2 se1 se2)] /\
  s <> "" /\ s <> "Unknown" /\ s <> "Never" /\ s <> "Recent".
Proof.
  intros H s. split_digits H.
  repeat split; try discriminate.
  - unfold s, sql_text, str4, str2. cbn [append includes].
    use_digits. reflexivity.
  - unfold s, sql_text, str4, str2. cbn [append includes].
    use_digits. reflexivity.
  - unfold matches, re_sql_outer. cbn [seq]. rewrite str_match_anchored.
    unfold rmatch_at, s, sql_text, str4, str2.
    cbn [append rmatch d2 d4 d lit Nat.eqb]. use_digits.
    cbn. use_digits. reflexivity.
  - unfold str_match, re_sql_inner, s, sql_text, str4, str2.
    cbn [seq append rsearch rmatch_at rmatch d2 d4 d lit]. use_digits.
    cbn. use_digits. reflexivity.
Qed.

(* ================================================================== *)
(** ** The SQL-style branch and its round trip *)
(* ================================================================== *)

(** The groups of a text [YYYY-MM-DD HH:MM:SS] made of digits, as
    numbers: the inner match of the SQL-style branch never fails. *)
Lemma sql_fields_of_text
      (y1 y2 y3 y4 mo1 mo2 dd1 dd2 h1 h2 mi1 mi2 se1 se2 : ascii) :
  forallb is_digit [y1; y2; y3; y4; mo1; mo2; dd1; dd2;
                    h1; h2; mi1; mi2; se1; se2] = true ->
  sql_fields (sql_text y1 y2 y3 y4 mo1 mo2 dd1 dd2 h1 h2 mi1 mi2 se1 se2)
  = Some (num4 y1 y2 y3 y4, num2 mo1 mo2, num2 dd1 dd2,
          num2 h1 h2, num2 mi1 mi2, num2 se1 se2).
Proof.
  intros H.
  pose proof (sql_text_seen _ _ _ _ _ _ _ _ _ _ _ _ _ _ H)
    as (_ & _ & _ & Hinner & _).
  cbv zeta in Hinner. unfold sql_fields. rewrite Hinner.
  split_digits H.
  cbn [parseInt_group group nth].
  rewrite (proj1 (four_digits y1 y2 y3 y4 D D0 D1 D2)).
  rewrite (proj1 (two_digits mo1 mo2 D3 D4)).
  rewrite (proj1 (two_digits dd1 dd2 D5 D6)).
  rewrite (proj1 (two_digits h1 h2 D7 D8)).
  rewrite (proj1 (two_digits mi1 mi2 D9 D10)).
  rewrite (proj1 (two_digits se1 se2 D11 D12)).
  reflexivity.
Qed.

(** The time value of a real calendar date of the years 0 to 9999 is in
    the range of [TimeClip]. *)
Lemma TimeClip_in_range (y m dt h mi se : Z) :
  0 <= y <= 9999 -> 0 <= m <= 11 -> 1 <= dt <= DaysInMonth y m ->
  0 <= h <= 23 -> 0 <= mi <= 59 -> 0 <= se <= 59 ->
  TimeClip (MakeDate (MakeDay y m dt) (MakeTime h mi se 0))
  = Some (MakeDate (MakeDay y m dt) (MakeTime h mi se 0)).
Proof.
  intros Hy Hm Hd Hh Hmi Hse.
  pose proof (MakeTime_bounds h mi se Hh Hmi Hse) as Ht.
  rewrite MakeDay_in_year by exact Hm.
  set (leap := if is_leap y then 1 else 0).
  assert (Hl : leap = 0 \/ leap = 1)
    by (unfold leap; destruct (is_leap y); auto).
  unfold DaysInMonth in Hd. cbv zeta in Hd. fold leap in Hd.
  pose proof (month_start_bounds leap m Hl Hm) as (Hs0 & Hs1 & _).
  assert (Hdy : -720000 <= DayFromYear y <= 2940000)
    by (unfold DayFromYear; zdiv).
  unfold TimeClip, MakeDate, msPerDay in *.
  destruct (Z.ltb_spec 8640000000000000
              (Z.abs ((DayFromYear y + month_start leap m + dt - 1)
                      * 86400000 + MakeTime h mi se 0)));
    [lia | reflexivity].
Qed.

(** Both formatters on a text [YYYY-MM-DD HH:MM:SS] made of digits. *)
Lemma formatters_on_sql_text (E : Env)
      (y1 y2 y3 y4 mo1 mo2 dd1 dd2 h1 h2 mi1 mi2 se1 se2 : ascii) :
  forallb is_digit [y1; y2; y3; y4; mo1; mo2; dd1; dd2;
                    h1; h2; mi1; mi2; se1; se2] = true ->
  let s := sql_text y1 y2 y3 y4 mo1 mo2 dd1 dd2 h1 h2 mi1 mi2 se1 se2 in
  let date :=
    mkDate (Date_UTC (Some (num4 y1 y2 y3 y4)) (Some (num2 mo1 mo2 - 1))
                     (Some (num2 dd1 dd2)) (Some (num2 h1 h2))
                     (Some (num2 mi1 mi2)) (Some (num2 se1 se2))) in
  formatLocalDateTime E (Str s)
  = match getTime date with
    | Some t => Returns (Str (local_datetime_string E t))
    | None => Returns (Str s)
    end /\
  formatLocalTime E (Str s) = clock_time_or_input E s date.
Proof.
  intros Hdig s date.
  pose proof (sql_text_seen _ _ _ _ _ _ _ _ _ _ _ _ _ _ Hdig)
    as (HT & HZ & Hm & Hinner & Hn1 & Hn2 & Hn3 & Hn4).
  fold s in HT, HZ, Hm, Hinner, Hn1, Hn2, Hn3, Hn4.
  pose proof Hdig as Hd'. split_digits Hd'.
  assert (Hparts :
    Date_UTC_of_parts
      [Some s; Some (str4 y1 y2 y3 y4); Some (str2 mo1 mo2);
       Some (str2 dd1 dd2); Some (str2 h1 h2); Some (str2 mi1 mi2);
       Some (str2 se1 se2)] = date).
  { unfold Date_UTC_of_parts, date. cbn [parseInt_group group nth].
    rewrite (proj1 (four_digits y1 y2 y3 y4 D D0 D1 D2)),
      (proj1 (two_digits mo1 mo2 D3 D4)), (proj1 (two_digits dd1 dd2 D5 D6)),
      (proj1 (two_digits h1 h2 D7 D8)), (proj1 (two_digits mi1 mi2 D9 D10)),
      (proj1 (two_digits se1 se2 D11 D12)).
    reflexivity. }
  split.
  - rewrite formatLocalDateTime_unguarded by assumption. cbv zeta.
    rewrite HT, HZ, Hm, Hinner. cbn [orb option_map]. rewrite Hparts.
    destruct date as [[t |]]; reflexivity.
  - rewrite formatLocalTime_unguarded by assumption.
    unfold classify. rewrite HT, HZ, Hm, Hinner. cbn [orb].
    rewrite Hparts. reflexivity.
Qed.

(** [Date.UTC] of a year of at most four digits and fields of at most two
    is within the range of time values, whatever the fields. *)
Lemma Date_UTC_of_digits (y mo dd h mi se : Z) :
  0 <= y <= 9999 -> 0 <= mo <= 99 -> 0 <= dd <= 99 ->
  0 <= h <= 99 -> 0 <= mi <= 99 -> 0 <= se <= 99 ->
  let t := MakeDate (MakeDay (MakeFullYear y) (mo - 1) dd)
                    (MakeTime h mi se 0) in
  Z.abs t <= 8640000000000000 /\
  Date_UTC (Some y) (Some (mo - 1)) (Some dd) (Some h) (Some mi) (Some se)
  = Some t.
Proof.
  intros Hy Hmo Hdd Hh Hmi Hse t.
  assert (Hb : Z.abs t <= 8640000000000000).
  { subst t.
    assert (HY : 0 <= MakeFullYear y <= 9999).
    { unfold MakeFullYear. destruct ((0 <=? y) && (y <=? 99)) eqn:Q; [| lia].
      apply andb_prop in Q as [_ Q]. apply Z.leb_le in Q. lia. }
    set (Y := MakeFullYear y) in *. clearbody Y.
    unfold MakeDay. cbv zeta.
    set (ym := Y + (mo - 1) / 12). set (mn := (mo - 1) mod 12).
    assert (Hym : -1 <= ym <= 10008) by (unfold ym; zdiv).
    assert (Hmn : 0 <= mn <= 11) by (unfold mn; zdiv).
    set (leap := if is_leap ym then 1 else 0).
    assert (Hl : leap = 0 \/ leap = 1)
      by (unfold leap; destruct (is_leap ym); auto).
    pose proof (month_start_bounds leap mn Hl Hmn) as (Hs0 & Hs1 & Hs2).
    assert (Hdy : -720000 <= DayFromYear ym <= 2940000)
      by (unfold DayFromYear; zdiv).
    unfold MakeDate, MakeTime, msPerDay, msPerHour, msPerMinute,
      msPerSecond.
    lia. }
  split; [exact Hb |].
  unfold Date_UTC. fold t. unfold TimeClip.
  destruct (Z.ltb_spec 8640000000000000 (Z.abs t)); [lia | reflexivity].
Qed.

(** C3, as it holds.  For a string of the shape [YYYY-MM-DD HH:MM:SS]
    the six groups, read as decimal numbers, are handed to [Date.UTC],
    the month moved to base 0; the instant that comes back is always
    valid, and it is what is rendered.  When the groups denote a real
    calendar date and time of day in a year from 100 on, they are the
    UTC fields of that instant; when, moreover, the year is from 1000 on
    and the zone is at offset 0, the output is the input. *)
Theorem sql_round_trip (E : Env) (s : string) (y mo dd h mi se : Z) :
  matches s re_sql_outer = true ->
  sql_fields s = Some (y, mo, dd, h, mi, se) ->
  (exists y1 y2 y3 y4 mo1 mo2 dd1 dd2 h1 h2 mi1 mi2 se1 se2,
      s = sql_text y1 y2 y3 y4 mo1 mo2 dd1 dd2 h1 h2 mi1 mi2 se1 se2 /\
      (y, mo, dd, h, mi, se)
      = (num4 y1 y2 y3 y4, num2 mo1 mo2, num2 dd1 dd2,
         num2 h1 h2, num2 mi1 mi2, num2 se1 se2)) /\
  (exists t,
      Date_UTC (Some y) (Some (mo - 1)) (Some dd)
               (Some h) (Some mi) (Some se) = Some t /\
      formatLocalDateTime E (Str s)
      = Returns (Str (local_datetime_string E t))) /\
  (100 <= y ->
   1 <= mo <= 12 -> 1 <= dd <= DaysInMonth y (mo - 1) ->
   h <= 23 -> mi <= 59 -> se <= 59 ->
   let t := MakeDate (MakeDay y (mo - 1) dd) (MakeTime h mi se 0) in
   Date_UTC (Some y) (Some (mo - 1)) (Some dd)
            (Some h) (Some mi) (Some se) = Some t /\
   (YearFromTime t, MonthFromTime t + 1, DateFromTime t,
    HourFromTime t, MinFromTime t, SecFromTime t) = (y, mo, dd, h, mi, se) /\
   formatLocalDateTime E (Str s)
   = Returns (Str (local_datetime_string E t)) /\
   (1000 <= y -> (forall u, LocalTZA E u = 0) ->
    formatLocalDateTime E (Str s) = Returns (Str s))).
Proof.
  intros Hm Hf.
  destruct (sql_outer_inv s Hm)
    as (y1 & y2 & y3 & y4 & mo1 & mo2 & dd1 & dd2 & h1 & h2 & mi1 & mi2
        & se1 & se2 & -> & Hdig).
  rewrite (sql_fields_of_text _ _ _ _ _ _ _ _ _ _ _ _ _ _ Hdig) in Hf.
  injection Hf as Ey Emo Edd Eh Emi Ese.
  pose proof (formatters_on_sql_text E _ _ _ _ _ _ _ _ _ _ _ _ _ _ Hdig)
    as (Hdt & _).
  cbv zeta in Hdt.
  pose proof Hdig as Hd'. split_digits Hd'.
  pose proof (four_digits y1 y2 y3 y4 D D0 D1 D2) as (_ & Sy & By).
  pose proof (two_digits mo1 mo2 D3 D4) as (_ & Smo & Bmo).
  pose proof (two_digits dd1 dd2 D5 D6) as (_ & Sdd & Bdd).
  pose proof (two_digits h1 h2 D7 D8) as (_ & Sh & Bh).
  pose proof (two_digits mi1 mi2 D9 D10) as (_ & Smi & Bmi).
  pose proof (two_digits se1 se2 D11 D12) as (_ & Sse & Bse).
  pose proof (Date_UTC_of_digits _ _ _ _ _ _ By Bmo Bdd Bh Bmi Bse)
    as (_ & HU).
  cbv zeta in HU. rewrite HU in Hdt. cbn [getTime] in Hdt.
  split.
  { exists y1, y2, y3, y4, mo1, mo2, dd1, dd2, h1, h2, mi1, mi2, se1, se2.
    split; [reflexivity |].
    rewrite Ey, Emo, Edd, Eh, Emi, Ese. reflexivity. }
  rewrite Ey in *. rewrite Emo in *. rewrite Edd in *.
  rewrite Eh in *. rewrite Emi in *. rewrite Ese in *.
  split.
  { eexists. split; [exact HU | exact Hdt]. }
  intros Hy Hmo Hdd Hh Hmi Hse t.
  assert (HY : MakeFullYear y = y).
  { unfold MakeFullYear. destruct (Z.leb_spec y 99);
      [lia | rewrite andb_false_r; reflexivity]. }
  rewrite HY in HU, Hdt. fold t in HU, Hdt.
  pose proof (fields_of_MakeDate y (mo - 1) dd h mi se
                ltac:(lia) Hdd ltac:(lia) ltac:(lia) ltac:(lia))
    as (Fy & Fmo & Fdd & Fh & Fmi & Fse).
  fold t in Fy, Fmo, Fdd, Fh, Fmi, Fse.
  split; [exact HU |].
  split; [rewrite Fy, Fmo, Fdd, Fh, Fmi, Fse; repeat f_equal; lia |].
  split; [exact Hdt |].
  intros Hy4 Hutc. rewrite Hdt. do 2 f_equal.
  unfold local_datetime_string, getFullYear, getMonth, getDate, getHours,
    getMinutes, getSeconds, LocalTime.
  rewrite Hutc, Z.add_0_r, Fy, Fmo, Fdd, Fh, Fmi, Fse.
  replace (mo - 1 + 1) with mo by lia.
  rewrite (Sy Hy4), Smo, Sdd, Sh, Smi, Sse.
  reflexivity.
Qed.

(** The example of the description, in the UTC zone. *)
Lemma sql_round_trip_example :
  formatLocalDateTime Host.utc (Str "2025-12-22 06:36:15")
  = Returns (Str "2025-12-22 06:36:15").
Proof.
  destruct (sql_round_trip Host.utc "2025-12-22 06:36:15"
              2025 12 22 6 36 15 eq_refl eq_refl) as (_ & _ & H).
  apply H; try solve [ reflexivity | cbv; intuition discriminate ].
Defined.

(** C3, as stated, fails: the 31st of February has the shape, and in the
    UTC zone it comes back as the 3rd of March. *)
Lemma sql_round_trip_fails_february_31 :
  matches "2025-02-31 06:36:15" re_sql_outer = true /\
  (forall u, LocalTZA Host.utc u = 0) /\
  formatLocalDateTime Host.utc (Str "2025-02-31 06:36:15")
  = Returns (Str "2025-03-03 06:36:15") /\
  formatLocalDateTime Host.utc (Str "2025-02-31 06:36:15")
  <> Returns (Str "2025-02-31 06:36:15").
Proof.
  assert (Hrun : formatLocalDateTime Host.utc (Str "2025-02-31 06:36:15")
                 = Returns (Str "2025-03-03 06:36:15"))
    by (vm_compute; reflexivity).
  split; [vm_compute; reflexivity |].
  split; [intro u; reflexivity |].
  split; [exact Hrun |].
  rewrite Hrun. discriminate.
Qed.

(* ================================================================== *)
(** ** The bare clock time *)
(* ================================================================== *)

Lemma class_not (p : ascii -> bool) (x c : ascii) :
  p c = true -> p x = false ->
  Ascii.eqb x c = false /\ Ascii.eqb c x = false.
Proof.
  intros Hc Hx.
  split; apply Ascii.eqb_neq; intro Heq; subst; congruence.
Qed.

Lemma char_i_A (c : ascii) :
  is_char_i "A" c = true -> c = "A"%char \/ c = "a"%char.
Proof.
  destruct c as [[] [] [] [] [] [] [] []]; intro H;
    try discriminate H; auto.
Qed.

Lemma char_i_P (c : ascii) :
  is_char_i "P" c = true -> c = "P"%char \/ c = "p"%char.
Proof.
  destruct c as [[] [] [] [] [] [] [] []]; intro H;
    try discriminate H; auto.
Qed.

Lemma char_i_M (c : ascii) :
  is_char_i "M" c = true -> c = "M"%char \/ c = "m"%char.
Proof.
  destruct c as [[] [] [] [] [] [] [] []]; intro H;
    try discriminate H; auto.
Qed.

Ltac use_spaces :=
  repeat match goal with
         | D : is_space ?c = true |- context [is_space ?c] => rewrite D
         | D : is_space ?c = true |- context [Ascii.eqb ?x ?c] =>
             rewrite (proj1 (class_not is_space x c D eq_refl))
         | D : is_space ?c = true |- context [Ascii.eqb ?c ?x] =>
             rewrite (proj2 (class_not is_space x c D eq_refl))
         end.

(** What [formatLocalTime] sees of a bare clock time. *)
Lemma clock_text_seen (h1 : ascii) (h2 : option ascii) (mi1 mi2 : ascii)
      (sp : option ascii) (p1 p2 : ascii) :
  is_digit h1 = true -> opt_forall is_digit h2 = true ->
  is_digit mi1 = true -> is_digit mi2 = true ->
  opt_forall is_space sp = true ->
  is_char_i "A" p1 || is_char_i "P" p1 = true -> is_char_i "M" p2 = true ->
  let s := clock_text h1 h2 mi1 mi2 sp p1 p2 in
  includes s "T" = false /\ includes s "Z" = false /\
  matches s re_sql_outer = false /\
  matches s re_clock_outer = true /\
  str_match s re_clock_inner
  = Some [Some s; Some (String h1 (opt_char h2 "")); Some (str2 mi1 mi2);
          Some (str2 p1 p2)] /\
  toUpperCase (str2 p1 p2) = (if is_char_i "P" p1 then "PM" else "AM") /\
  s <> "" /\ s <> "Unknown" /\ s <> "Never" /\ s <> "Recent".
Proof.
  intros D1 D2 D3 D4 S1 P1 P2 s.
  apply orb_prop in P1.
  assert (Hp1 : p1 = "A"%char \/ p1 = "a"%char \/
                p1 = "P"%char \/ p1 = "p"%char).
  { destruct P1 as [P1 | P1];
      [apply char_i_A in P1 | apply char_i_P in P1]; tauto. }
  apply char_i_M in P2.
  unfold s, clock_text, matches, re_sql_outer, re_clock_outer.
  cbn [seq]. rewrite !str_match_anchored.
  unfold rmatch_at, re_clock_inner, str_match.
  destruct h2 as [h2 |], sp as [sp |]; cbn [opt_forall opt_char] in *;
    destruct Hp1 as [-> | [-> | [-> | ->]]];
    destruct P2 as [-> | ->];
    (repeat split; try discriminate;
     cbn [seq append includes rsearch rmatch_at rmatch d12 d2 d4 d lit ws AM_PM lit_i];
     repeat (use_digits; use_spaces; cbn); reflexivity).
Qed.

Lemma to_24_hour_rule (pm : bool) (h : Z) :
  to_24_hour (if pm then "PM" else "AM") (Some h) = Some (hour24 pm h).
Proof.
  unfold to_24_hour, hour24, num_eq, num_add.
  destruct pm; cbn [String.eqb Ascii.eqb Bool.eqb andb negb];
    destruct (Z.eqb_spec h 12) as [-> | Hne]; cbn [negb andb];
    reflexivity.
Qed.

Lemma clock_hour_parse (h1 : ascii) (h2 : option ascii) :
  is_digit h1 = true -> opt_forall is_digit h2 = true ->
  parseInt (String h1 (opt_char h2 "")) = Some (clock_hour h1 h2).
Proof.
  intros D1 D2. destruct h2 as [h2 |]; cbn [opt_forall opt_char clock_hour] in *.
  - exact (proj1 (two_digits h1 h2 D1 D2)).
  - exact (proj1 (one_digit h1 D1)).
Qed.

(** From 1970 on the year is outside 0..99 and [Date.UTC] takes it as it
    is. *)
Lemma MakeFullYear_modern (t : Z) :
  0 <= t -> MakeFullYear (YearFromTime t) = YearFromTime t.
Proof.
  intros Ht. unfold MakeFullYear, YearFromTime.
  pose proof (year_of_day_bounds (Day t)) as [_ Hb].
  assert (Hd : 0 <= Day t) by (unfold Day, msPerDay; zdiv).
  assert (Hy : 1970 <= year_of_day (Day t)).
  { destruct (Z.le_gt_cases 1970 (year_of_day (Day t))) as [H | H];
      [exact H |].
    pose proof (DayFromYear_le (year_of_day (Day t) + 1) 1970 ltac:(lia)) as Hle.
    change (DayFromYear 1970) with 0 in Hle. lia. }
  destruct (Z.leb_spec (year_of_day (Day t)) 99); [lia |].
  rewrite andb_false_r. reflexivity.
Qed.

(** C5.  A bare clock time, [H:MM] or [HH:MM], an optional white-space
    character, and AM or PM in either case, is taken by [formatLocalTime]
    as a clock time: it is handed to [Date.UTC] with the year, month and
    day of the clock read in UTC, the hour converted by the rule
    (12 AM is 0, 12 PM stays 12, PM adds 12 to every other hour), the
    minutes, and 0 seconds; the instant is then rendered as a local clock
    time.  On a clock from 1970 on that instant is the given time of day
    on the current UTC day. *)
Theorem clock_time_today (E : Env) (h1 : ascii) (h2 : option ascii)
        (mi1 mi2 : ascii) (sp : option ascii) (p1 p2 : ascii) :
  is_digit h1 = true -> opt_forall is_digit h2 = true ->
  is_digit mi1 = true -> is_digit mi2 = true ->
  opt_forall is_space sp = true ->
  is_char_i "A" p1 || is_char_i "P" p1 = true -> is_char_i "M" p2 = true ->
  let s := clock_text h1 h2 mi1 mi2 sp p1 p2 in
  let hours := hour24 (is_char_i "P" p1) (clock_hour h1 h2) in
  let minutes := num2 mi1 mi2 in
  let instant :=
    Date_UTC (Some (getUTCFullYear (now E))) (Some (getUTCMonth (now E)))
             (Some (getUTCDate (now E))) (Some hours) (Some minutes)
             (Some 0) in
  classify s = BareClock /\
  formatLocalTime E (Str s) = clock_time_or_input E s (mkDate instant) /\
  (0 <= now E ->
   instant = TimeClip (Day (now E) * msPerDay
                       + hours * msPerHour + minutes * msPerMinute)).
Proof.
  intros D1 D2 D3 D4 S1 P1 P2 s hours minutes instant.
  pose proof (clock_text_seen h1 h2 mi1 mi2 sp p1 p2 D1 D2 D3 D4 S1 P1 P2)
    as (HT & HZ & Hsql & Hclock & Hinner & Hup & Hn1 & Hn2 & Hn3 & Hn4).
  fold s in HT, HZ, Hsql, Hclock, Hinner, Hn1, Hn2, Hn3, Hn4.
  assert (Hclass : classify s = BareClock)
    by (unfold classify; rewrite HT, HZ, Hsql, Hclock; reflexivity).
  split; [exact Hclass |]. split.
  - rewrite formatLocalTime_unguarded by assumption.
    rewrite Hclass, Hinner.
    unfold toUpperCase_group, clock_date. cbn [group nth parseInt_group].
    rewrite Hup, (clock_hour_parse h1 h2 D1 D2),
      (proj1 (two_digits mi1 mi2 D3 D4)), to_24_hour_rule.
    reflexivity.
  - intros Hnow. unfold instant, Date_UTC, getUTCFullYear, getUTCMonth,
      getUTCDate.
    rewrite (MakeFullYear_modern (now E) Hnow), MakeDay_of_fields.
    unfold MakeDate, MakeTime. f_equal. lia.
Qed.

(** The example of the source: 07:01 AM in UTC is 12:31 PM at
    UTC+05:30. *)
Lemma clock_time_today_example :
  formatLocalTime Host.ist (Str "07:01 AM") = Returns (Str "12:31 PM").
Proof.
  pose proof (clock_time_today Host.ist "0" (Some "7"%char) "0" "1"
                (Some " "%char) "A" "M"
                eq_refl eq_refl eq_refl eq_refl eq_refl eq_refl eq_refl)
    as H.
  cbv zeta in H. destruct H as (_ & H & _).
  change (clock_text "0" (Some "7"%char) "0" "1" (Some " "%char) "A" "M")
    with "07:01 AM" in H.
  rewrite H. vm_compute. reflexivity.
Defined.

Ltac inv_all H :=
  repeat (match type of H with
          | context [match ?s with EmptyString => _ | String _ _ => _ end] =>
              is_var s; destruct s
          | context [if ?b then _ else _] =>
              lazymatch type of b with bool => idtac end;
              let Q := fresh "Q" in destruct b eqn:Q
          end; cbv beta iota in H; try discriminate H).

Ltac eqb_subst :=
  repeat match goal with
         | Q : Ascii.eqb ":" ?c = true |- _ =>
             apply Ascii.eqb_eq in Q; subst c
         end.

(** The strings that match the bare clock-time pattern are the texts
    [clock_text]. *)
Lemma clock_outer_inv (s : string) :
  matches s re_clock_outer = true ->
  exists h1 h2 mi1 mi2 sp p1 p2,
    s = clock_text h1 h2 mi1 mi2 sp p1 p2 /\
    is_digit h1 = true /\ opt_forall is_digit h2 = true /\
    is_digit mi1 = true /\ is_digit mi2 = true /\
    opt_forall is_space sp = true /\
    is_char_i "A" p1 || is_char_i "P" p1 = true /\ is_char_i "M" p2 = true.
Proof.
  unfold matches, re_clock_outer. cbn [seq]. rewrite str_match_anchored.
  unfold rmatch_at. cbn [rmatch d12 d2 d lit ws AM_PM lit_i Nat.eqb].
  change (upper "A") with "A"%char. change (upper "M") with "M"%char.
  change (upper "P") with "P"%char.
  intro H. inv_all H; eqb_subst; clear H;
    match goal with
    | |- exists h1 h2 mi1 mi2 sp p1 p2,
        String ?a (String ":" (String ?m1 (String ?m2
          (String ?p (String ?q ""))))) = _ /\ _ =>
        exists a, None, m1, m2, None, p, q
    | |- exists h1 h2 mi1 mi2 sp p1 p2,
        String ?a (String ":" (String ?m1 (String ?m2
          (String ?w (String ?p (String ?q "")))))) = _ /\ _ =>
        exists a, None, m1, m2, (Some w), p, q
    | |- exists h1 h2 mi1 mi2 sp p1 p2,
        String ?a (String ?b (String ":" (String ?m1 (String ?m2
          (String ?p (String ?q "")))))) = _ /\ _ =>
        exists a, (Some b), m1, m2, None, p, q
    | |- exists h1 h2 mi1 mi2 sp p1 p2,
        String ?a (String ?b (String ":" (String ?m1 (String ?m2
          (String ?w (String ?p (String ?q ""))))))) = _ /\ _ =>
        exists a, (Some b), m1, m2, (Some w), p, q
    end;
    unfold is_char_i; cbn [opt_forall];
    repeat match goal with
           | Q : _ = true |- _ => rewrite Q; clear Q
           end;
    rewrite ?orb_true_r; repeat split.
Qed.

(** In both pattern branches the inner match succeeds whenever the outer
    test does: the two [return timestamp] of the inner tests are never
    reached. *)
Lemma inner_match_never_fails (s : string) :
  (matches s re_sql_outer = true ->
   exists parts, str_match s re_sql_inner = Some parts) /\
  (matches s re_clock_outer = true ->
   exists timeMatch period,
     str_match s re_clock_inner = Some timeMatch /\
     toUpperCase_group timeMatch 3 = Returns period).
Proof.
  split; intros Hm.
  - destruct (sql_outer_inv s Hm)
      as (y1 & y2 & y3 & y4 & mo1 & mo2 & dd1 & dd2 & h1 & h2 & mi1 & mi2
          & se1 & se2 & -> & Hdig).
    pose proof (sql_text_seen _ _ _ _ _ _ _ _ _ _ _ _ _ _ Hdig)
      as (_ & _ & _ & Hinner & _).
    eexists. exact Hinner.
  - destruct (clock_outer_inv s Hm)
      as (h1 & h2 & mi1 & mi2 & sp & p1 & p2 & -> & D1 & D2 & D3 & D4
          & S1 & P1 & P2).
    pose proof (clock_text_seen h1 h2 mi1 mi2 sp p1 p2 D1 D2 D3 D4 S1 P1 P2)
      as (_ & _ & _ & _ & Hinner & _).
    do 2 eexists. split; [exact Hinner | reflexivity].
Qed.

(** [formatLocalTime] on a bare clock time. *)
Lemma formatLocalTime_clock_text (E : Env) (h1 : ascii) (h2 : option ascii)
      (mi1 mi2 : ascii) (sp : option ascii) (p1 p2 : ascii) :
  is_digit h1 = true -> opt_forall is_digit h2 = true ->
  is_digit mi1 = true -> is_digit mi2 = true ->
  opt_forall is_space sp = true ->
  is_char_i "A" p1 || is_char_i "P" p1 = true -> is_char_i "M" p2 = true ->
  let s := clock_text h1 h2 mi1 mi2 sp p1 p2 in
  formatLocalTime E (Str s)
  = clock_time_or_input E s
      (mkDate (Date_UTC (Some (YearFromTime (now E)))
                        (Some (MonthFromTime (now E)))
                        (Some (DateFromTime (now E)))
                        (Some (hour24 (is_char_i "P" p1) (clock_hour h1 h2)))
                        (Some (num2 mi1 mi2)) (Some 0))).
Proof.
  intros D1 D2 D3 D4 S1 P1 P2 s.
  pose proof (clock_text_seen h1 h2 mi1 mi2 sp p1 p2 D1 D2 D3 D4 S1 P1 P2)
    as (HT & HZ & Hsql & Hclock & Hinner & Hup & Hn1 & Hn2 & Hn3 & Hn4).
  fold s in HT, HZ, Hsql, Hclock, Hinner, Hn1, Hn2, Hn3, Hn4.
  rewrite formatLocalTime_unguarded by assumption.
  unfold classify. rewrite HT, HZ, Hsql, Hclock, Hinner. cbn [orb].
  unfold toUpperCase_group, clock_date, getUTCFullYear, getUTCMonth,
    getUTCDate.
  cbn [group nth parseInt_group].
  rewrite Hup, (clock_hour_parse h1 h2 D1 D2),
    (proj1 (two_digits mi1 mi2 D3 D4)), to_24_hour_rule.
  reflexivity.
Qed.

(** C4.  A string that passes the guard of [formatLocalTime] has exactly
    one shape, and is parsed by it.  With a [T] or a [Z] anywhere it
    goes to the general-purpose constructor.  The strict pattern accepts
    the texts [YYYY-MM-DD HH:MM:SS] made of digits and no other; such a
    text has no [T] and no [Z], and its six numbers go to [Date.UTC] as
    UTC fields, the month moved to base 0.  The clock-time pattern
    accepts the texts [H:MM] or [HH:MM] with an optional white-space
    character and AM or PM in either case and no other; such a text has
    no [T] and no [Z] and not the first shape, and it is read as that
    time of day, in the 24-hour clock, on the UTC day of the clock.
    Every other string goes to the general-purpose constructor.  In both
    pattern branches the inner match succeeds whenever the outer test
    does, and the input would be returned if it did not. *)
Theorem formatLocalTime_classification (E : Env) (s : string) :
  s <> "" -> s <> "Unknown" -> s <> "Never" -> s <> "Recent" ->
  (includes s "T" = true \/ includes s "Z" = true ->
   formatLocalTime E (Str s)
   = clock_time_or_input E s (mkDate (Date_parse E s))) /\
  ((matches s re_sql_outer = true <-> has_sql_shape s) /\
   forall y1 y2 y3 y4 mo1 mo2 dd1 dd2 h1 h2 mi1 mi2 se1 se2,
     s = sql_text y1 y2 y3 y4 mo1 mo2 dd1 dd2 h1 h2 mi1 mi2 se1 se2 ->
     forallb is_digit [y1; y2; y3; y4; mo1; mo2; dd1; dd2;
                       h1; h2; mi1; mi2; se1; se2] = true ->
     includes s "T" = false /\ includes s "Z" = false /\
     formatLocalTime E (Str s)
     = clock_time_or_input E s
         (mkDate (Date_UTC (Some (num4 y1 y2 y3 y4))
                           (Some (num2 mo1 mo2 - 1))
                           (Some (num2 dd1 dd2)) (Some (num2 h1 h2))
                           (Some (num2 mi1 mi2)) (Some (num2 se1 se2))))) /\
  ((matches s re_clock_outer = true <-> has_clock_shape s) /\
   forall h1 h2 mi1 mi2 sp p1 p2,
     s = clock_text h1 h2 mi1 mi2 sp p1 p2 ->
     is_digit h1 = true -> opt_forall is_digit h2 = true ->
     is_digit mi1 = true -> is_digit mi2 = true ->
     opt_forall is_space sp = true ->
     is_char_i "A" p1 || is_char_i "P" p1 = true ->
     is_char_i "M" p2 = true ->
     includes s "T" = false /\ includes s "Z" = false /\
     ~ has_sql_shape s /\
     formatLocalTime E (Str s)
     = clock_time_or_input E s
         (mkDate (Date_UTC (Some (getUTCFullYear (now E)))
                           (Some (getUTCMonth (now E)))
                           (Some (getUTCDate (now E)))
                           (Some (hour24 (is_char_i "P" p1)
                                    (clock_hour h1 h2)))
                           (Some (num2 mi1 mi2)) (Some 0)))) /\
  (includes s "T" = false -> includes s "Z" = false ->
   ~ has_sql_shape s -> ~ has_clock_shape s ->
   formatLocalTime E (Str s)
   = clock_time_or_input E s (mkDate (Date_parse E s))) /\
  ((matches s re_sql_outer = true ->
    exists parts, str_match s re_sql_inner = Some parts) /\
   (matches s re_clock_outer = true ->
    exists timeMatch period,
      str_match s re_clock_inner = Some timeMatch /\
      toUpperCase_group timeMatch 3 = Returns period) /\
   (includes s "T" = false -> includes s "Z" = false ->
    matches s re_sql_outer = true -> str_match s re_sql_inner = None ->
    formatLocalTime E (Str s) = Returns (Str s)) /\
   (includes s "T" = false -> includes s "Z" = false ->
    matches s re_sql_outer = false -> matches s re_clock_outer = true ->
    str_match s re_clock_inner = None ->
    formatLocalTime E (Str s) = Returns (Str s))).
Proof.
  intros H1 H2 H3 H4.
  assert (Hsql : matches s re_sql_outer = true <-> has_sql_shape s).
  { split; [exact (sql_outer_inv s) |].
    intros (y1 & y2 & y3 & y4 & mo1 & mo2 & dd1 & dd2 & h1 & h2 & mi1
            & mi2 & se1 & se2 & -> & Hdig).
    exact (proj1 (proj2 (proj2
             (sql_text_seen _ _ _ _ _ _ _ _ _ _ _ _ _ _ Hdig)))). }
  assert (Hclock : matches s re_clock_outer = true <-> has_clock_shape s).
  { split; [exact (clock_outer_inv s) |].
    intros (h1 & h2 & mi1 & mi2 & sp & p1 & p2 & -> & D1 & D2 & D3 & D4
            & S1 & P1 & P2).
    exact (proj1 (proj2 (proj2 (proj2
             (clock_text_seen h1 h2 mi1 mi2 sp p1 p2
                D1 D2 D3 D4 S1 P1 P2))))). }
  pose proof (formatLocalTime_unguarded E s H1 H2 H3 H4) as Hrun.
  unfold classify in Hrun.
  split.
  { intros HTZ. rewrite Hrun.
    destruct HTZ as [HT | HZ]; [rewrite HT | rewrite HZ, orb_true_r];
      reflexivity. }
  split.
  { split; [exact Hsql |].
    intros y1 y2 y3 y4 mo1 mo2 dd1 dd2 h1 h2 mi1 mi2 se1 se2 -> Hdig.
    pose proof (sql_text_seen _ _ _ _ _ _ _ _ _ _ _ _ _ _ Hdig)
      as (HT & HZ & _).
    pose proof (formatters_on_sql_text E _ _ _ _ _ _ _ _ _ _ _ _ _ _ Hdig)
      as (_ & Htm).
    split; [exact HT |]. split; [exact HZ | exact Htm]. }
  split.
  { split; [exact Hclock |].
    intros h1 h2 mi1 mi2 sp p1 p2 -> D1 D2 D3 D4 S1 P1 P2.
    pose proof (clock_text_seen h1 h2 mi1 mi2 sp p1 p2
                  D1 D2 D3 D4 S1 P1 P2) as (HT & HZ & Hno & _).
    split; [exact HT |]. split; [exact HZ |]. split.
    - intros Hshape. apply Hsql in Hshape. cbv zeta in Hno.
      rewrite Hshape in Hno. discriminate Hno.
    - exact (formatLocalTime_clock_text E h1 h2 mi1 mi2 sp p1 p2
               D1 D2 D3 D4 S1 P1 P2). }
  split.
  { intros HT HZ Hno1 Hno2. rewrite Hrun, HT, HZ. cbn [orb].
    destruct (matches s re_sql_outer) eqn:M1;
      [contradiction Hno1; apply Hsql; reflexivity |].
    destruct (matches s re_clock_outer) eqn:M2;
      [contradiction Hno2; apply Hclock; reflexivity |].
    reflexivity. }
  split; [exact (proj1 (inner_match_never_fails s)) |].
  split; [exact (proj2 (inner_match_never_fails s)) |].
  split.
  - intros HT HZ M1 Hinner. rewrite Hrun, HT, HZ, M1, Hinner. reflexivity.
  - intros HT HZ M1 M2 Hinner.
    rewrite Hrun, HT, HZ, M1, M2, Hinner. reflexivity.
Qed.

(** The example of the source for the strict pattern, at UTC+05:30. *)
Lemma formatLocalTime_classification_sql :
  formatLocalTime Host.ist (Str "2025-12-22 06:36:15")
  = Returns (Str "12:06 PM").
Proof.
  destruct (formatLocalTime_classification Host.ist "2025-12-22 06:36:15")
    as (_ & (_ & Hsql) & _); try discriminate.
  destruct (Hsql "2" "0" "2" "5" "1" "2" "2" "2" "0" "6" "3" "6" "1" "5"
              eq_refl eq_refl)%char as (_ & _ & H).
  rewrite H. vm_compute. reflexivity.
Defined.

(* ================================================================== *)
(** ** The shape of the local date-time *)
(* ================================================================== *)

Lemma Z_range_In (lo n x : Z) :
  lo <= x < lo + n -> In x (Z_range lo n).
Proof.
  intros Hx. unfold Z_range. apply in_map_iff.
  exists (Z.to_nat (x - lo)). split; [lia |].
  apply in_seq. lia.
Qed.

Lemma pad2_check :
  forallb (fun n => is_str2 (padStart 2 "0" (Number_toString n)))
          (Z_range 0 100) = true.
Proof. vm_compute. reflexivity. Qed.

Lemma year_check :
  forallb (fun n => is_str4 (Number_toString n)) (Z_range 1000 9000) = true.
Proof. vm_compute. reflexivity. Qed.

Lemma pad2_digits (n : Z) :
  0 <= n <= 99 ->
  exists a b, padStart 2 "0" (Number_toString n) = str2 a b /\
              is_digit a = true /\ is_digit b = true.
Proof.
  intros Hn.
  pose proof (proj1 (forallb_forall _ _) pad2_check n
                (Z_range_In 0 100 n ltac:(lia))) as H.
  cbv beta in H.
  destruct (padStart 2 "0" (Number_toString n)) as [| a [| b [| ? ?]]];
    try discriminate H.
  apply andb_prop in H. exists a, b. tauto.
Qed.

Lemma year_digits (n : Z) :
  1000 <= n <= 9999 ->
  exists a b c e, Number_toString n = str4 a b c e /\
                  forallb is_digit [a; b; c; e] = true.
Proof.
  intros Hn.
  pose proof (proj1 (forallb_forall _ _) year_check n
                (Z_range_In 1000 9000 n ltac:(lia))) as H.
  cbv beta in H.
  destruct (Number_toString n) as [| a [| b [| c [| e [| ? ?]]]]];
    try discriminate H.
  exists a, b, c, e. split; [reflexivity |].
  cbn [forallb]. rewrite andb_true_r, !andb_assoc. exact H.
Qed.

Lemma time_of_day_ranges (t : Z) :
  0 <= HourFromTime t <= 23 /\ 0 <= MinFromTime t <= 59 /\
  0 <= SecFromTime t <= 59.
Proof. unfold HourFromTime, MinFromTime, SecFromTime. repeat split; zdiv. Qed.

(** With a local year of four digits the rendered date-time has the
    shape [YYYY-MM-DD HH:MM:SS]. *)
Lemma local_datetime_string_shape (E : Env) (t : Z) :
  1000 <= getFullYear E t <= 9999 ->
  matches (local_datetime_string E t) re_sql_outer = true.
Proof.
  intros Hy. unfold local_datetime_string.
  pose proof (MonthFromTime_range (LocalTime E t)) as Hmo.
  pose proof (DateFromTime_range (LocalTime E t)) as Hdd.
  pose proof (time_of_day_ranges (LocalTime E t)) as (Hh & Hmi & Hse).
  destruct (year_digits _ Hy) as (y1 & y2 & y3 & y4 & -> & Dy).
  destruct (pad2_digits (getMonth E t + 1) ltac:(unfold getMonth; lia))
    as (mo1 & mo2 & -> & Dmo1 & Dmo2).
  destruct (pad2_digits (getDate E t) ltac:(unfold getDate; lia))
    as (dd1 & dd2 & -> & Ddd1 & Ddd2).
  destruct (pad2_digits (getHours E t) ltac:(unfold getHours; lia))
    as (h1 & h2 & -> & Dh1 & Dh2).
  destruct (pad2_digits (getMinutes E t) ltac:(unfold getMinutes; lia))
    as (mi1 & mi2 & -> & Dmi1 & Dmi2).
  destruct (pad2_digits (getSeconds E t) ltac:(unfold getSeconds; lia))
    as (se1 & se2 & -> & Dse1 & Dse2).
  split_digits Dy.
  apply (sql_text_seen y1 y2 y3 y4 mo1 mo2 dd1 dd2 h1 h2 mi1 mi2 se1 se2).
  cbn [forallb].
  repeat match goal with
         | D : is_digit _ = true |- _ => rewrite D; clear D
         end.
  reflexivity.
Qed.

(** C7 at a year below 1000.  The string has the SQL-style shape and
    denotes a valid instant, the first of January of the year 999; in the
    UTC zone it is rendered with a year of three digits, which is not of
    the shape [YYYY-MM-DD HH:MM:SS]. *)
Theorem year_is_not_padded :
  matches "0999-01-01 00:00:00" re_sql_outer = true /\
  sql_fields "0999-01-01 00:00:00" = Some (999, 1, 1, 0, 0, 0) /\
  Date_UTC (Some 999) (Some 0) (Some 1) (Some 0) (Some 0) (Some 0)
  = Some (-30641760000000) /\
  formatLocalDateTime Host.utc (Str "0999-01-01 00:00:00")
  = Returns (Str "999-01-01 00:00:00") /\
  matches "999-01-01 00:00:00" re_sql_outer = false.
Proof.
  repeat split; vm_compute; reflexivity.
Qed.

(* ================================================================== *)
(** * Further properties *)
(* ================================================================== *)

(* ================================================================== *)
(** ** The bands of the relative time, in milliseconds *)
(* ================================================================== *)

Ltac decide_tests :=
  repeat match goal with
         | |- context [?a <? ?b] =>
             first [ replace (a <? b) with true
                       by (symmetry; apply Z.ltb_lt; zdiv)
                   | replace (a <? b) with false
                       by (symmetry; apply Z.ltb_ge; zdiv) ]
         | |- context [?a <=? ?b] =>
             first [ replace (a <=? b) with true
                       by (symmetry; apply Z.leb_le; zdiv)
                   | replace (a <=? b) with false
                       by (symmetry; apply Z.leb_gt; zdiv) ]
         | |- context [?a =? ?b] =>
             first [ replace (a =? b) with true
                       by (symmetry; apply Z.eqb_eq; zdiv)
                   | replace (a =? b) with false
                       by (symmetry; apply Z.eqb_neq; zdiv) ]
         end.

Lemma nested_floors (x : Z) :
  x / 1000 / 60 = x / 60000 /\
  x / 1000 / 60 / 60 = x / 3600000 /\
  x / 1000 / 60 / 60 / 24 = x / 86400000.
Proof.
  rewrite !Z.div_div by lia. repeat split.
Qed.

(** X1.  The nested truncations of [formatLastActivity] amount to fixed
    thresholds on the elapsed milliseconds: below 6 s ["Just now"]; below
    1 min the seconds, always in the plural and between 6 and 59; below
    1 h the minutes, 1 to 59; below 24 h the hours, 1 to 23; below 72 h the
    days, 1 or 2; from 72 h on the absolute date.  Each count is the
    elapsed time divided by the length of its unit. *)
Theorem formatLastActivity_thresholds (E : Env) (s : string) (t : Z) :
  s <> "" -> s <> "Unknown" -> s <> "Never" ->
  Date_parse E s = Some t ->
  let elapsed := now E - t in
  (elapsed < 6000 ->
   formatLastActivity E (Str s) = Returns (Str "Just now")) /\
  (6000 <= elapsed < 60000 ->
   6 <= elapsed / 1000 <= 59 /\
   formatLastActivity E (Str s)
   = Returns (Str (Number_toString (elapsed / 1000) ++ " seconds ago"))) /\
  (60000 <= elapsed < 3600000 ->
   1 <= elapsed / 60000 <= 59 /\
   formatLastActivity E (Str s)
   = Returns (Str (phrase (elapsed / 60000) "minute" "minutes"))) /\
  (3600000 <= elapsed < 86400000 ->
   1 <= elapsed / 3600000 <= 23 /\
   formatLastActivity E (Str s)
   = Returns (Str (phrase (elapsed / 3600000) "hour" "hours"))) /\
  (86400000 <= elapsed < 259200000 ->
   1 <= elapsed / 86400000 <= 2 /\
   formatLastActivity E (Str s)
   = Returns (Str (phrase (elapsed / 86400000) "day" "days"))) /\
  (259200000 <= elapsed ->
   formatLastActivity E (Str s) = absolute_date E s t).
Proof.
  intros H1 H2 H3 Hp elapsed.
  rewrite (formatLastActivity_unguarded E s H1 H2 H3), Hp.
  cbv zeta. fold elapsed.
  destruct (nested_floors elapsed) as (Em & Eh & Ed).
  rewrite Ed, Eh, Em. rewrite !ago_phrase, date_options_year.
  cbn [append].
  repeat split; intros; try zdiv; decide_tests; try reflexivity.
  - unfold phrase. decide_tests. reflexivity.
  - unfold absolute_date. cbn [try_catch bind perform call].
    destruct (toLocaleString E t _ _); reflexivity.
Qed.

(** Five seconds and 999 milliseconds are still ["Just now"]. *)
Lemma formatLastActivity_thresholds_example :
  formatLastActivity (Host.host (Host.t0 + 5999) 0)
                     (Str "2025-12-22T06:36:15Z")
  = Returns (Str "Just now").
Proof.
  pose proof (formatLastActivity_thresholds (Host.host (Host.t0 + 5999) 0)
                "2025-12-22T06:36:15Z" Host.t0) as H.
  cbv zeta in H.
  refine (proj1 (H _ _ _ _) _);
    solve [ discriminate | reflexivity ].
Defined.

(* ================================================================== *)
(** ** Strings of the SQL-style shape are never rejected *)
(* ================================================================== *)

(** X2.  No string of the shape [YYYY-MM-DD HH:MM:SS] is rejected or
    returned as it was for being invalid: whatever its digits (a month 00
    or 13, a day 31 in February, an hour 99), [Date.UTC] gives a valid
    instant, fields out of range carried over, and both formatters render
    that instant. *)
Theorem sql_shape_always_rendered (E : Env) (s : string) :
  matches s re_sql_outer = true ->
  exists y mo dd h mi se t,
    sql_fields s = Some (y, mo, dd, h, mi, se) /\
    t = MakeDate (MakeDay (MakeFullYear y) (mo - 1) dd) (MakeTime h mi se 0) /\
    Z.abs t <= 8640000000000000 /\
    formatLocalDateTime E (Str s)
    = Returns (Str (local_datetime_string E t)) /\
    formatLocalTime E (Str s) = clock_time_or_input E s (mkDate (Some t)).
Proof.
  intros Hm.
  destruct (sql_outer_inv s Hm)
    as (y1 & y2 & y3 & y4 & mo1 & mo2 & dd1 & dd2 & h1 & h2 & mi1 & mi2
        & se1 & se2 & -> & Hdig).
  pose proof (formatters_on_sql_text E _ _ _ _ _ _ _ _ _ _ _ _ _ _ Hdig)
    as (Hdt & Htm).
  cbv zeta in Hdt, Htm.
  pose proof Hdig as Hd'. split_digits Hd'.
  pose proof (four_digits y1 y2 y3 y4 D D0 D1 D2) as (_ & _ & By).
  pose proof (two_digits mo1 mo2 D3 D4) as (_ & _ & Bmo).
  pose proof (two_digits dd1 dd2 D5 D6) as (_ & _ & Bdd).
  pose proof (two_digits h1 h2 D7 D8) as (_ & _ & Bh).
  pose proof (two_digits mi1 mi2 D9 D10) as (_ & _ & Bmi).
  pose proof (two_digits se1 se2 D11 D12) as (_ & _ & Bse).
  pose proof (Date_UTC_of_digits _ _ _ _ _ _ By Bmo Bdd Bh Bmi Bse)
    as (Hb & HU).
  rewrite HU in Hdt, Htm. cbn [getTime] in Hdt.
  exists (num4 y1 y2 y3 y4), (num2 mo1 mo2), (num2 dd1 dd2), (num2 h1 h2),
    (num2 mi1 mi2), (num2 se1 se2).
  eexists. split; [apply sql_fields_of_text; exact Hdig |].
  split; [reflexivity |].
  split; [exact Hb |]. split; [exact Hdt | exact Htm].
Qed.

(** The 31st of February at 99:99:99. *)
Lemma sql_shape_always_rendered_example :
  exists y mo dd h mi se t,
    sql_fields "2025-02-31 99:99:99" = Some (y, mo, dd, h, mi, se) /\
    t = MakeDate (MakeDay (MakeFullYear y) (mo - 1) dd) (MakeTime h mi se 0) /\
    Z.abs t <= 8640000000000000 /\
    formatLocalDateTime Host.utc (Str "2025-02-31 99:99:99")
    = Returns (Str (local_datetime_string Host.utc t)) /\
    formatLocalTime Host.utc (Str "2025-02-31 99:99:99")
    = clock_time_or_input Host.utc "2025-02-31 99:99:99" (mkDate (Some t)).
Proof.
  apply (sql_shape_always_rendered Host.utc "2025-02-31 99:99:99").
  vm_compute. reflexivity.
Defined.

(* ================================================================== *)
(** ** Formatting a formatted date-time again *)
(* ================================================================== *)

Lemma pad2_value_check :
  forallb (fun n => is_str2_of n (padStart 2 "0" (Number_toString n)))
          (Z_range 0 100) = true.
Proof. vm_compute. reflexivity. Qed.

Lemma year_value_check :
  forallb (fun n => is_str4_of n (Number_toString n)) (Z_range 1000 9000)
  = true.
Proof. vm_compute. reflexivity. Qed.

(** A number below 100 is written by [padStart] as two digits of that
    value. *)
Lemma pad2_value (n : Z) :
  0 <= n <= 99 ->
  exists a b, padStart 2 "0" (Number_toString n) = str2 a b /\
              is_digit a = true /\ is_digit b = true /\ num2 a b = n.
Proof.
  intros Hn.
  pose proof (proj1 (forallb_forall _ _) pad2_value_check n
                (Z_range_In 0 100 n ltac:(lia))) as H.
  cbv beta in H.
  destruct (padStart 2 "0" (Number_toString n)) as [| a [| b [| ? ?]]];
    try discriminate H.
  cbn [is_str2_of] in H.
  apply andb_prop in H as [H Hv]. apply andb_prop in H as [Ha Hb].
  apply Z.eqb_eq in Hv. exists a, b. auto.
Qed.

(** A year of four digits is written as four digits of that value. *)
Lemma year_value (n : Z) :
  1000 <= n <= 9999 ->
  exists a b c e, Number_toString n = str4 a b c e /\
                  forallb is_digit [a; b; c; e] = true /\
                  num4 a b c e = n.
Proof.
  intros Hn.
  pose proof (proj1 (forallb_forall _ _) year_value_check n
                (Z_range_In 1000 9000 n ltac:(lia))) as H.
  cbv beta in H.
  destruct (Number_toString n) as [| a [| b [| c [| e [| ? ?]]]]];
    try discriminate H.
  cbn [is_str4_of] in H.
  apply andb_prop in H as [H Hv]. apply Z.eqb_eq in Hv.
  exists a, b, c, e. split; [reflexivity |]. split; [| exact Hv].
  cbn [forallb]. rewrite andb_true_r, !andb_assoc. exact H.
Qed.

(** The date-time string shows whole seconds only. *)
Lemma fields_of_whole_seconds (t : Z) :
  let t' := t - t mod 1000 in
  YearFromTime t' = YearFromTime t /\ MonthFromTime t' = MonthFromTime t /\
  DateFromTime t' = DateFromTime t /\ HourFromTime t' = HourFromTime t /\
  MinFromTime t' = MinFromTime t /\ SecFromTime t' = SecFromTime t.
Proof.
  intros t'.
  assert (Hday : Day t' = Day t) by (unfold t', Day, msPerDay; zdiv).
  assert (Hy : YearFromTime t' = YearFromTime t)
    by (unfold YearFromTime; rewrite Hday; reflexivity).
  assert (Hl : InLeapYear t' = InLeapYear t)
    by (unfold InLeapYear; rewrite Hy; reflexivity).
  assert (Hd : DayWithinYear t' = DayWithinYear t)
    by (unfold DayWithinYear; rewrite Hy, Hday; reflexivity).
  assert (Hm : MonthFromTime t' = MonthFromTime t)
    by (unfold MonthFromTime; rewrite Hl, Hd; reflexivity).
  repeat split; try assumption.
  - unfold DateFromTime. rewrite Hm, Hl, Hd. reflexivity.
  - unfold t', HourFromTime, msPerHour. zdiv.
  - unfold t', MinFromTime, msPerMinute. zdiv.
  - unfold t', SecFromTime, msPerSecond. zdiv.
Qed.

(** The time value that has the calendar fields of [t] and no
    milliseconds is [t] without its milliseconds. *)
Lemma MakeDate_of_fields (t : Z) :
  MakeDate (MakeDay (YearFromTime t) (MonthFromTime t) (DateFromTime t))
           (MakeTime (HourFromTime t) (MinFromTime t) (SecFromTime t) 0)
  = t - t mod 1000.
Proof.
  rewrite MakeDay_of_fields.
  unfold MakeDate, MakeTime, Day, HourFromTime, MinFromTime, SecFromTime,
    msPerDay, msPerHour, msPerMinute, msPerSecond.
  zdiv.
Qed.

(** X3.  [formatLocalDateTime] applied to its own output reads it as UTC
    again: for an instant whose local year has four digits, the local
    fields that were printed become the UTC fields of the instant that is
    rendered next, milliseconds dropped, so that the local offset is
    applied twice.  In a zone at offset 0 the function is idempotent. *)
Theorem formatLocalDateTime_again (E : Env) (t : Z) :
  1000 <= getFullYear E t <= 9999 ->
  formatLocalDateTime E (Str (local_datetime_string E t))
  = Returns (Str (local_datetime_string E
                    (LocalTime E t - LocalTime E t mod 1000))) /\
  ((forall u, LocalTZA E u = 0) ->
   formatLocalDateTime E (Str (local_datetime_string E t))
   = Returns (Str (local_datetime_string E t))).
Proof.
  intros Hy.
  set (L := LocalTime E t).
  pose proof (MonthFromTime_range L) as Hmo.
  pose proof (DateFromTime_range L) as Hdd.
  pose proof (time_of_day_ranges L) as (Hh & Hmi & Hse).
  assert (Hfirst :
    formatLocalDateTime E (Str (local_datetime_string E t))
    = Returns (Str (local_datetime_string E (L - L mod 1000)))).
  { unfold local_datetime_string at 1.
    unfold getFullYear, getMonth, getDate, getHours, getMinutes, getSeconds
      in *.
    fold L in Hy |- *.
    destruct (year_value _ Hy) as (y1 & y2 & y3 & y4 & -> & Dy & Vy).
    destruct (pad2_value (MonthFromTime L + 1) ltac:(lia))
      as (mo1 & mo2 & -> & Dmo1 & Dmo2 & Vmo).
    destruct (pad2_value (DateFromTime L) ltac:(lia))
      as (dd1 & dd2 & -> & Ddd1 & Ddd2 & Vdd).
    destruct (pad2_value (HourFromTime L) ltac:(lia))
      as (h1 & h2 & -> & Dh1 & Dh2 & Vh).
    destruct (pad2_value (MinFromTime L) ltac:(lia))
      as (mi1 & mi2 & -> & Dmi1 & Dmi2 & Vmi).
    destruct (pad2_value (SecFromTime L) ltac:(lia))
      as (se1 & se2 & -> & Dse1 & Dse2 & Vse).
    assert (Hdig : forallb is_digit [y1; y2; y3; y4; mo1; mo2; dd1; dd2;
                                     h1; h2; mi1; mi2; se1; se2] = true).
    { split_digits Dy. cbn [forallb].
      repeat match goal with
             | D : is_digit _ = true |- _ => rewrite D; clear D
             end.
      reflexivity. }
    pose proof (formatters_on_sql_text E _ _ _ _ _ _ _ _ _ _ _ _ _ _ Hdig)
      as (Hdt & _).
    cbv zeta in Hdt. unfold sql_text in Hdt. rewrite Hdt.
    rewrite Vy, Vmo, Vdd, Vh, Vmi, Vse.
    destruct (Date_UTC_of_digits (YearFromTime L) (MonthFromTime L + 1)
                (DateFromTime L) (HourFromTime L) (MinFromTime L)
                (SecFromTime L)
                ltac:(lia) ltac:(lia) ltac:(lia) ltac:(lia) ltac:(lia)
                ltac:(lia)) as (_ & HU).
    cbv zeta in HU. rewrite HU. cbn [getTime].
    replace (MakeFullYear (YearFromTime L)) with (YearFromTime L)
      by (unfold MakeFullYear;
          destruct (Z.leb_spec (YearFromTime L) 99);
          [lia | rewrite andb_false_r; reflexivity]).
    replace (MonthFromTime L + 1 - 1) with (MonthFromTime L) by lia.
    rewrite MakeDate_of_fields. reflexivity. }
  split; [exact Hfirst |].
  intros Hutc. rewrite Hfirst. do 2 f_equal.
  assert (HL : L = t) by (unfold L, LocalTime; rewrite Hutc; lia).
  rewrite HL.
  destruct (fields_of_whole_seconds t) as (Fy & Fmo & Fdd & Fh & Fmi & Fse).
  cbv zeta in Fy, Fmo, Fdd, Fh, Fmi, Fse.
  unfold local_datetime_string, getFullYear, getMonth, getDate, getHours,
    getMinutes, getSeconds, LocalTime.
  rewrite !Hutc, !Z.add_0_r, Fy, Fmo, Fdd, Fh, Fmi, Fse. reflexivity.
Qed.

(** At UTC+05:30 the half past five is added twice. *)
Lemma formatLocalDateTime_again_example :
  formatLocalDateTime Host.ist (Str "2025-12-22 06:36:15")
  = Returns (Str "2025-12-22 12:06:15") /\
  formatLocalDateTime Host.ist (Str "2025-12-22 12:06:15")
  = Returns (Str "2025-12-22 17:36:15").
Proof.
  assert (H1 : formatLocalDateTime Host.ist (Str "2025-12-22 06:36:15")
               = Returns (Str (local_datetime_string Host.ist Host.t0)))
    by (vm_compute; reflexivity).
  split; [rewrite H1; vm_compute; reflexivity |].
  change "2025-12-22 12:06:15"
    with (local_datetime_string Host.ist Host.t0) at 1.
  rewrite (proj1 (formatLocalDateTime_again Host.ist Host.t0
                    ltac:(vm_compute; split; discriminate))).
  vm_compute. reflexivity.
Defined.

(* ================================================================== *)
(** ** Clock times that do not fit in a day *)
(* ================================================================== *)

Lemma clock_hour_range (h1 : ascii) (h2 : option ascii) :
  is_digit h1 = true -> opt_forall is_digit h2 = true ->
  0 <= clock_hour h1 h2 <= 99.
Proof.
  intros D1 D2. destruct h2 as [h2 |]; cbn [opt_forall clock_hour] in *.
  - apply (two_digits h1 h2 D1 D2).
  - pose proof (proj2 (one_digit h1 D1)). lia.
Qed.

(** X4.  A bare clock time whose hour or minutes do not fit in a day is
    not rejected: the excess is carried.  With [total] the minutes since
    midnight that the text denotes after the 12-hour rule (PM adds 12 to
    13 as well), the instant lies [total / 1440] days after the current
    UTC day, at hour [(total / 60) mod 24] and minute [total mod 60].  A
    time with an hour up to 23 and minutes up to 59 stays on the current
    day with that hour and those minutes. *)
Theorem clock_time_carries (E : Env) (h1 : ascii) (h2 : option ascii)
        (mi1 mi2 : ascii) (sp : option ascii) (p1 p2 : ascii) :
  is_digit h1 = true -> opt_forall is_digit h2 = true ->
  is_digit mi1 = true -> is_digit mi2 = true ->
  opt_forall is_space sp = true ->
  is_char_i "A" p1 || is_char_i "P" p1 = true -> is_char_i "M" p2 = true ->
  0 <= now E <= 8639000000000000 ->
  let s := clock_text h1 h2 mi1 mi2 sp p1 p2 in
  let hours := hour24 (is_char_i "P" p1) (clock_hour h1 h2) in
  let minutes := num2 mi1 mi2 in
  let total := 60 * hours + minutes in
  let instant := Day (now E) * msPerDay + total * msPerMinute in
  formatLocalTime E (Str s) = clock_time_or_input E s (mkDate (Some instant)) /\
  Day instant = Day (now E) + total / 1440 /\
  HourFromTime instant = (total / 60) mod 24 /\
  MinFromTime instant = total mod 60 /\
  SecFromTime instant = 0 /\
  (hours <= 23 -> minutes <= 59 ->
   Day instant = Day (now E) /\ HourFromTime instant = hours /\
   MinFromTime instant = minutes).
Proof.
  intros D1 D2 D3 D4 S1 P1 P2 Hnow s hours minutes total instant.
  pose proof (clock_hour_range h1 h2 D1 D2) as Hh.
  pose proof (two_digits mi1 mi2 D3 D4) as (_ & _ & Hmi).
  fold minutes in Hmi.
  assert (Hhours : 0 <= hours <= 111).
  { unfold hours, hour24.
    destruct (is_char_i "P" p1); destruct (clock_hour h1 h2 =? 12); lia. }
  assert (Hday : 0 <= Day (now E) <= 99988426)
    by (unfold Day, msPerDay; zdiv).
  split.
  - unfold s. rewrite formatLocalTime_clock_text by assumption.
    fold hours. fold minutes. do 2 f_equal.
    unfold Date_UTC.
    rewrite (MakeFullYear_modern (now E) (proj1 Hnow)), MakeDay_of_fields.
    replace (MakeDate (Day (now E)) (MakeTime hours minutes 0 0))
      with instant
      by (unfold instant, total, MakeDate, MakeTime, msPerDay, msPerHour,
            msPerMinute, msPerSecond; lia).
    unfold TimeClip.
    destruct (Z.ltb_spec 8640000000000000 (Z.abs instant)) as [Hbad |];
      [| reflexivity].
    unfold instant, total, msPerDay, msPerMinute in Hbad. lia.
  - clearbody hours minutes. clear Hday.
    unfold instant, total, Day, HourFromTime, MinFromTime, SecFromTime,
      msPerDay, msPerHour, msPerMinute, msPerSecond.
    set (dn := now E / 86400000). clearbody dn.
    repeat split; intros; zdiv.
Qed.

(** 13:30 PM is half past one on the next UTC day. *)
Lemma clock_time_carries_example :
  formatLocalTime Host.utc (Str "13:30 PM") = Returns (Str "01:30 AM") /\
  Day (Day Host.t0 * msPerDay + (60 * 25 + 30) * msPerMinute)
  = Day Host.t0 + 1.
Proof.
  pose proof (clock_time_carries Host.utc "1" (Some "3"%char) "3" "0"
                (Some " "%char) "P" "M"
                eq_refl eq_refl eq_refl eq_refl eq_refl eq_refl eq_refl
                ltac:(vm_compute; split; discriminate)) as H.
  cbv zeta in H. destruct H as (Hf & Hd & _).
  split.
  - change (clock_text "1" (Some "3"%char) "3" "0" (Some " "%char) "P" "M")
      with "13:30 PM" in Hf.
    rewrite Hf. vm_compute. reflexivity.
  - vm_compute. reflexivity.
Defined.

(* ================================================================== *)
(** ** The two formatters read the same instant *)
(* ================================================================== *)

(** X5.  For one and the same string, [formatLocalTime] and
    [formatLocalDateTime] render one and the same date, except for bare
    clock times: with a [T] or a [Z], of the SQL-style shape, or of any
    other shape, both build the date the same way.  A bare clock time is
    no special case for [formatLocalDateTime], which hands it to the
    general-purpose constructor. *)
Theorem formatters_share_the_date (E : Env) (s : string) :
  s <> "" -> s <> "Unknown" -> s <> "Never" -> s <> "Recent" ->
  (matches s re_clock_outer = false ->
   exists date,
     formatLocalTime E (Str s) = clock_time_or_input E s date /\
     formatLocalDateTime E (Str s)
     = match getTime date with
       | Some t => Returns (Str (local_datetime_string E t))
       | None => Returns (Str s)
       end) /\
  (matches s re_clock_outer = true ->
   formatLocalDateTime E (Str s)
   = match Date_parse E s with
     | Some t => Returns (Str (local_datetime_string E t))
     | None => Returns (Str s)
     end).
Proof.
  intros H1 H2 H3 H4.
  rewrite formatLocalTime_unguarded, formatLocalDateTime_unguarded
    by assumption.
  unfold classify. cbv zeta. split.
  - intros Hc. rewrite Hc.
    destruct (includes s "T" || includes s "Z").
    { exists (mkDate (Date_parse E s)). split; [reflexivity |].
      cbn [getTime]. destruct (Date_parse E s); reflexivity. }
    destruct (matches s re_sql_outer) eqn:Hsql.
    + destruct (proj1 (inner_match_never_fails s) Hsql) as (parts & Hp).
      rewrite Hp. cbn [option_map].
      exists (Date_UTC_of_parts parts). split; [reflexivity |].
      destruct (Date_UTC_of_parts parts) as [[t |]]; reflexivity.
    + exists (mkDate (Date_parse E s)). split; [reflexivity |].
      cbn [getTime]. destruct (Date_parse E s); reflexivity.
  - intros Hc.
    destruct (clock_outer_inv s Hc)
      as (h1 & h2 & mi1 & mi2 & sp & p1 & p2 & -> & D1 & D2 & D3 & D4
          & S1 & P1 & P2).
    pose proof (clock_text_seen h1 h2 mi1 mi2 sp p1 p2 D1 D2 D3 D4 S1 P1 P2)
      as (HT & HZ & Hsql & _).
    cbv zeta in HT, HZ, Hsql. rewrite HT, HZ, Hsql. cbn [orb].
    destruct (Date_parse E _); reflexivity.
Qed.

(** Both formatters on the example of the source, at UTC+05:30. *)
Lemma formatters_share_the_date_example :
  exists date,
    formatLocalTime Host.ist (Str "2025-12-22 06:36:15")
    = clock_time_or_input Host.ist "2025-12-22 06:36:15" date /\
    formatLocalDateTime Host.ist (Str "2025-12-22 06:36:15")
    = match getTime date with
      | Some t => Returns (Str (local_datetime_string Host.ist t))
      | None => Returns (Str "2025-12-22 06:36:15")
      end.
Proof.
  apply (formatters_share_the_date Host.ist "2025-12-22 06:36:15");
    solve [ discriminate | vm_compute; reflexivity ].
Defined.

(* ================================================================== *)
(** ** The displayed activity log *)
(* ================================================================== *)

Lemma last_entry_snoc {A : Type} (pre : list A) (p : A) :
  DetailView.last_entry (pre ++ [p])%list = Some p.
Proof.
  unfold DetailView.last_entry.
  destruct (pre ++ [p])%list as [| a l] eqn:Heq.
  - destruct pre; discriminate Heq.
  - rewrite <- Heq, length_app. cbn [List.length].
    rewrite nth_error_app2 by lia.
    replace (List.length pre + 1 - 1 - List.length pre)%nat with 0%nat by lia.
    reflexivity.
Qed.

(** The reduction from the second entry on: the accumulator ends in the
    last entry kept, whose action is that of the entry just read. *)
Lemma reduce_from_changes (l pre : list DetailView.Activity)
      (p q : DetailView.Activity) (i : nat) :
  DetailView.action p = DetailView.action q ->
  DetailView.reduce_from DetailView.keep_change l (S i) (pre ++ [p])%list
  = Returns (pre ++ p :: changes_after q l)%list.
Proof.
  revert pre p q i. induction l as [| y l IH]; intros pre p q i Hpq.
  - reflexivity.
  - cbn [DetailView.reduce_from changes_after].
    unfold DetailView.keep_change. cbn [Nat.eqb].
    rewrite last_entry_snoc, Hpq.
    destruct (String.eqb_spec (DetailView.action q) (DetailView.action y))
      as [Heq | Hne]; cbn [negb].
    + apply IH. congruence.
    + transitivity
        (Returns ((pre ++ [p]) ++ y :: changes_after y l)%list :
           outcome (list DetailView.Activity)).
      * exact (IH (pre ++ [p])%list y y (S i) eq_refl).
      * rewrite <- app_assoc. reflexivity.
Qed.

(** The reduction never fails and keeps the first entry and every entry
    whose action differs from the one just before it. *)
Lemma deduplicatedActivities_eq (l : list DetailView.Activity) :
  DetailView.deduplicatedActivities l = Returns (first_and_changes l).
Proof.
  destruct l as [| x l]; [reflexivity |].
  unfold DetailView.deduplicatedActivities, DetailView.Array_reduce.
  cbn [DetailView.reduce_from DetailView.keep_change Nat.eqb
       first_and_changes].
  exact (reduce_from_changes l [] x x 0 eq_refl).
Qed.

Lemma changes_after_steps (l : list DetailView.Activity)
      (p q : DetailView.Activity) :
  DetailView.action p = DetailView.action q ->
  changes_at_each_step (p :: changes_after q l).
Proof.
  revert p q. induction l as [| y l IH]; intros p q Hpq.
  - cbn. auto.
  - cbn [changes_after].
    destruct (String.eqb_spec (DetailView.action q) (DetailView.action y))
      as [Heq | Hne].
    + apply IH. congruence.
    + cbn [changes_at_each_step]. split; [congruence |].
      apply (IH y y eq_refl).
Qed.

Lemma changes_after_subsequence (l : list DetailView.Activity)
      (q : DetailView.Activity) :
  subsequence (changes_after q l) l.
Proof.
  revert q. induction l as [| y l IH]; intros q; cbn [changes_after].
  - constructor.
  - destruct (DetailView.action q =? DetailView.action y)%string;
      constructor; apply IH.
Qed.

Lemma changes_after_actions (l : list DetailView.Activity)
      (q a : DetailView.Activity) :
  In a l ->
  exists b, In b (q :: changes_after q l) /\
            DetailView.action b = DetailView.action a.
Proof.
  revert q. induction l as [| y l IH]; intros q Ha; [contradiction |].
  cbn [changes_after].
  destruct Ha as [-> | Ha].
  - destruct (String.eqb_spec (DetailView.action q) (DetailView.action a)).
    + exists q. split; [left; reflexivity | assumption].
    + exists a. split; [right; left; reflexivity | reflexivity].
  - destruct (IH y Ha) as (b & Hb & Hab).
    destruct (String.eqb_spec (DetailView.action q) (DetailView.action y))
      as [Heq | Hne].
    + destruct Hb as [<- | Hb].
      * exists q. split; [left; reflexivity | congruence].
      * exists b. split; [right; exact Hb | exact Hab].
    + exists b. split; [right; exact Hb | exact Hab].
Qed.

Lemma changes_after_fixed (r : list DetailView.Activity)
      (p : DetailView.Activity) :
  changes_at_each_step (p :: r) -> changes_after p r = r.
Proof.
  revert p. induction r as [| y r IH]; intros p Hs; [reflexivity |].
  cbn [changes_after]. cbn [changes_at_each_step] in Hs.
  destruct Hs as (Hne & Hrest).
  destruct (String.eqb_spec (DetailView.action p) (DetailView.action y));
    [contradiction |].
  f_equal. apply IH. exact Hrest.
Qed.

(** X6.  The activity log that is displayed is the loaded list without
    the entries that repeat the action of the entry just before them: an
    entry is shown exactly when it is the first one or when its action
    differs from that of its predecessor in the loaded list.  The
    reduction never reads past the accumulator and never fails, on the
    empty list either. *)
Theorem displayed_log_is_first_and_changes (l : list DetailView.Activity) :
  DetailView.deduplicatedActivities l = Returns (first_and_changes l) /\
  DetailView.deduplicatedActivities [] = Returns [].
Proof.
  split; [apply deduplicatedActivities_eq | reflexivity].
Qed.

(** X7.  In the displayed log no two neighbours show the same action; the
    entries are entries of the loaded list in their order, beginning with
    its first entry; and no action is lost: every action of the loaded
    list is shown by some entry. *)
Theorem displayed_log_has_no_repeats (l : list DetailView.Activity) :
  exists r,
    DetailView.deduplicatedActivities l = Returns r /\
    changes_at_each_step r /\
    subsequence r l /\
    hd_error r = hd_error l /\
    (List.length r <= List.length l)%nat /\
    (forall a, In a l ->
               exists b, In b r /\ DetailView.action b = DetailView.action a).
Proof.
  exists (first_and_changes l).
  split; [apply deduplicatedActivities_eq |].
  destruct l as [| x l]; cbn [first_and_changes].
  - repeat split; try constructor. intros a [].
  - pose proof (changes_after_subsequence l x) as Hsub.
    split; [apply (changes_after_steps l x x eq_refl) |].
    split; [constructor; exact Hsub |].
    split; [reflexivity |].
    split.
    + cbn [List.length]. apply le_n_S.
      clear -Hsub. induction Hsub; cbn [List.length]; lia.
    + intros a [<- | Ha].
      * exists x. split; [left; reflexivity | reflexivity].
      * apply changes_after_actions. exact Ha.
Qed.

(** X8.  Removing the repeats again changes nothing: the displayed log is
    a fixed point of the reduction. *)
Theorem displayed_log_is_stable (l : list DetailView.Activity) :
  exists r,
    DetailView.deduplicatedActivities l = Returns r /\
    DetailView.deduplicatedActivities r = Returns r.
Proof.
  exists (first_and_changes l).
  split; [apply deduplicatedActivities_eq |].
  rewrite deduplicatedActivities_eq. f_equal.
  destruct l as [| x l]; [reflexivity |].
  cbn [first_and_changes]. f_equal.
  apply changes_after_fixed. apply (changes_after_steps l x x eq_refl).
Qed.

(* ================================================================== *)
(** ** The sort state of the overview table *)
(* ================================================================== *)

Section SortStateProperties.

Import OverviewTable.

Lemma SortField_eqb_refl (a : SortField) : SortField_eqb a a = true.
Proof. destruct a; reflexivity. Qed.

Lemma SortField_eqb_neq (a b : SortField) :
  a <> b -> SortField_eqb a b = false.
Proof. destruct a, b; intro H; try reflexivity; contradiction H; reflexivity. Qed.

Lemma handleSort_ok (st : SortState) (field : SortField) :
  sort_state_ok st -> sort_state_ok (handleSort st field).
Proof.
  destruct st as [[f |] [o |]]; unfold sort_state_ok, handleSort;
    cbn [sortField sortOrder]; intros H.
  - destruct (SortField_eqb f field); [destruct o |]; cbn; eauto.
  - destruct H as [[H _] | (f' & o' & _ & H)]; discriminate H.
  - destruct H as [[_ H] | (f' & o' & H & _)]; discriminate H.
  - right. cbn. eauto.
Qed.

(** X9.  Whatever column headers are clicked, in whatever order, the
    table is never left with a sort column but no direction or with a
    direction but no column: both are unset, or both are set. *)
Theorem sort_state_is_never_half_set (fields : list SortField) :
  sort_state_ok (clicks initial fields).
Proof.
  unfold clicks.
  assert (H : sort_state_ok initial) by (left; split; reflexivity).
  revert H. generalize initial.
  induction fields as [| f fields IH]; intros st H; cbn [fold_left].
  - exact H.
  - apply IH. apply handleSort_ok. exact H.
Qed.

(** X10.  Clicking a column that is not the current sort column sorts by
    it in ascending order, whatever the state was; a second click on it
    turns the order to descending; a third click removes the sort and
    brings the table back to its initial state. *)
Theorem sort_cycles_in_three_clicks (st : SortState) (f : SortField) :
  sortField st <> Some f ->
  handleSort st f = {| sortField := Some f; sortOrder := Some asc |} /\
  handleSort (handleSort st f) f
  = {| sortField := Some f; sortOrder := Some desc |} /\
  handleSort (handleSort (handleSort st f) f) f = initial.
Proof.
  intros Hne.
  assert (H1 : handleSort st f
               = {| sortField := Some f; sortOrder := Some asc |}).
  { unfold handleSort. destruct (sortField st) as [g |]; [| reflexivity].
    rewrite SortField_eqb_neq by congruence. reflexivity. }
  rewrite H1. unfold handleSort. cbn [sortField sortOrder].
  rewrite !SortField_eqb_refl. cbn [sortField sortOrder].
  rewrite SortField_eqb_refl. auto.
Qed.

(** Three clicks on the productivity column while sorted by name. *)
Lemma sort_cycles_in_three_clicks_example :
  clicks {| sortField := Some name; sortOrder := Some desc |}
         [productivity; productivity; productivity]
  = initial.
Proof.
  apply (sort_cycles_in_three_clicks
           {| sortField := Some name; sortOrder := Some desc |} productivity).
  discriminate.
Defined.

End SortStateProperties.

(* ================================================================== *)
(** ** The fetch wrapper: retries and backoff *)
(* ================================================================== *)

Section FetchProperties.

Variable Data : Type.
Variable RequestInit : Type.
Variable API_BASE_URL : string.
Variable fetch : nat -> string -> RequestInit -> Api.settled (Api.Response Data).
Variable JSON_parse : string -> option Api.ErrorData.
Variable null_read : Api.JsError.

Local Abbreviation try_attempt :=
  (Api.try_attempt Data RequestInit API_BASE_URL fetch JSON_parse null_read).
Local Abbreviation fetchAPI :=
  (Api.fetchAPI Data RequestInit API_BASE_URL fetch JSON_parse null_read).
Local Abbreviation retry_loop :=
  (Api.retry_loop Data RequestInit API_BASE_URL fetch JSON_parse null_read).

Local Abbreviation fails_retryably :=
  (Api.fails_retryably Data RequestInit API_BASE_URL fetch JSON_parse
     null_read).

Lemma try_attempt_events (attempt : Z) (endpoint : string)
      (options : RequestInit) :
  try_attempt attempt endpoint options
  = ([Api.Request (url_of API_BASE_URL endpoint)],
     snd (try_attempt attempt endpoint options)).
Proof. reflexivity. Qed.

(** One turn of the loop, by the way the attempt ends. *)
Lemma retry_loop_step (remaining : nat) (lastError : option Api.JsError)
      (endpoint : string) (options : RequestInit) :
  let attempt := Api.maxRetries - Z.of_nat remaining in
  let url := url_of API_BASE_URL endpoint in
  retry_loop (S remaining) lastError endpoint options
  = match snd (try_attempt attempt endpoint options) with
    | Api.Resolved data => ([Api.Request url], Api.Resolved data)
    | Api.Rejected error =>
        if Api.includes_sub (Api.message error) "HTTP 4"
        then ([Api.Request url], Api.Rejected error)
        else
          (Api.Request url
             :: (if attempt <? Api.maxRetries
                 then [Api.Wait (Api.delay attempt)] else [])
             ++ fst (retry_loop remaining (Some error) endpoint options),
           snd (retry_loop remaining (Some error) endpoint options))%list
    end.
Proof.
  cbv zeta. cbn [Api.retry_loop]. rewrite try_attempt_events. cbn [snd].
  destruct (snd (try_attempt _ endpoint options)) as [data | error];
    [reflexivity |].
  destruct (Api.includes_sub (Api.message error) "HTTP 4"); [reflexivity |].
  destruct (retry_loop remaining (Some error) endpoint options).
  reflexivity.
Qed.

(** X11.  [fetchAPI] asks the host for at most three requests, all to the
    same URL, and waits only between them: 2000 ms after the first
    failure and 4000 ms after the second, never after the third.  The
    whole trace is one of three. *)
Theorem fetchAPI_schedule (endpoint : string) (options : RequestInit) :
  let url := url_of API_BASE_URL endpoint in
  let trace := fst (fetchAPI endpoint options) in
  (trace = [Api.Request url] \/
   trace = [Api.Request url; Api.Wait 2000; Api.Request url] \/
   trace = [Api.Request url; Api.Wait 2000; Api.Request url;
            Api.Wait 4000; Api.Request url]) /\
  (1 <= requests trace <= 3)%nat /\
  0 <= waited trace <= 6000.
Proof.
  cbv zeta. unfold Api.fetchAPI.
  change (Z.to_nat Api.maxRetries) with 3%nat.
  rewrite (retry_loop_step 2). cbv zeta.
  destruct (snd (try_attempt _ endpoint options)) as [d1 | e1];
    [cbn; intuition lia |].
  destruct (Api.includes_sub (Api.message e1) "HTTP 4"); [cbn; intuition lia |].
  rewrite (retry_loop_step 1). cbv zeta.
  destruct (snd (try_attempt _ endpoint options)) as [d2 | e2];
    [cbn; intuition lia |].
  destruct (Api.includes_sub (Api.message e2) "HTTP 4"); [cbn; intuition lia |].
  rewrite (retry_loop_step 0). cbv zeta.
  destruct (snd (try_attempt _ endpoint options)) as [d3 | e3];
    [cbn; intuition lia |].
  destruct (Api.includes_sub (Api.message e3) "HTTP 4"); cbn; intuition lia.
Qed.


(** The first attempt that does not fail retryably decides the call. *)
Lemma fetchAPI_decided (endpoint : string) (options : RequestInit)
      (k : nat) (result : Api.settled Data) :
  (k < 3)%nat ->
  (forall j, (j < k)%nat ->
             exists e, fails_retryably (Z.of_nat j + 1) endpoint options e) ->
  snd (try_attempt (Z.of_nat k + 1) endpoint options) = result ->
  Api.decisive Data result ->
  fetchAPI endpoint options
  = (schedule (url_of API_BASE_URL endpoint) k, result).
Proof.
  intros Hk Hprev Hres Hdec. unfold Api.fetchAPI.
  change (Z.to_nat Api.maxRetries) with 3%nat.
  assert (Hstop : forall remaining last,
             Api.maxRetries - Z.of_nat remaining = Z.of_nat k + 1 ->
             retry_loop (S remaining) last endpoint options
             = ([Api.Request (url_of API_BASE_URL endpoint)], result)).
  { intros remaining last Ha. rewrite retry_loop_step. cbv zeta.
    rewrite Ha, Hres. destruct result as [d | e]; [reflexivity |].
    cbn in Hdec. rewrite Hdec. reflexivity. }
  assert (Hgo : forall remaining last j,
             (j < k)%nat ->
             Api.maxRetries - Z.of_nat remaining = Z.of_nat j + 1 ->
             exists e,
               retry_loop (S remaining) last endpoint options
               = ((Api.Request (url_of API_BASE_URL endpoint)
                     :: (if Z.of_nat j + 1 <? Api.maxRetries
                         then [Api.Wait (Api.delay (Z.of_nat j + 1))]
                         else [])
                     ++ fst (retry_loop remaining (Some e) endpoint options))%list,
                  snd (retry_loop remaining (Some e) endpoint options))).
  { intros remaining last j Hj Ha.
    destruct (Hprev j Hj) as (e & He & Hno). exists e.
    rewrite retry_loop_step. cbv zeta. rewrite Ha, He, Hno. reflexivity. }
  destruct k as [| [| [| k]]]; [| | | lia].
  - apply Hstop. reflexivity.
  - destruct (Hgo 2%nat None 0%nat ltac:(lia) eq_refl) as (e1 & ->).
    rewrite (Hstop 1%nat (Some e1) eq_refl). reflexivity.
  - destruct (Hgo 2%nat None 0%nat ltac:(lia) eq_refl) as (e1 & ->).
    destruct (Hgo 1%nat (Some e1) 1%nat ltac:(lia) eq_refl) as (e2 & ->).
    rewrite (Hstop 0%nat (Some e2) eq_refl). reflexivity.
Qed.

Lemma schedule_measures (url : string) (k : nat) :
  (k < 3)%nat ->
  requests (schedule url k) = S k /\
  waited (schedule url k)
  = match k with 0%nat => 0 | 1%nat => 2000 | _ => 6000 end.
Proof.
  intros Hk. destruct k as [| [| [| k]]]; [| | | lia]; split; reflexivity.
Qed.

(** X12.  The first attempt that the backend answers with a 2xx status
    and a JSON body ends the call, earlier attempts having failed in a
    way that is retried: the data of that answer is returned, nothing is
    requested after it, and the time spent waiting before it is 0, 2000
    or 6000 ms for the first, second or third attempt. *)
Theorem fetchAPI_first_success (endpoint : string) (options : RequestInit)
        (k : nat) (response : Api.Response Data) (data : Data) :
  (k < 3)%nat ->
  (forall j, (j < k)%nat ->
             exists e, fails_retryably (Z.of_nat j + 1) endpoint options e) ->
  fetch k (url_of API_BASE_URL endpoint) options = Api.Resolved response ->
  Api.ok response = true ->
  Api.json response = Api.Resolved data ->
  snd (fetchAPI endpoint options) = Api.Resolved data /\
  requests (fst (fetchAPI endpoint options)) = S k /\
  waited (fst (fetchAPI endpoint options))
  = match k with 0%nat => 0 | 1%nat => 2000 | _ => 6000 end.
Proof.
  intros Hk Hprev Hfetch Hok Hjson.
  rewrite (fetchAPI_decided endpoint options k (Api.Resolved data) Hk Hprev).
  - cbn [fst snd]. split; [reflexivity |]. apply schedule_measures. exact Hk.
  - unfold Api.try_attempt. cbn [snd].
    replace (Z.to_nat (Z.of_nat k + 1 - 1)) with k by lia.
    fold (url_of API_BASE_URL endpoint).
    rewrite Hfetch, Hok. exact Hjson.
  - exact I.
Qed.



Local Abbreviation client_error_detail :=
  (Api.client_error_detail Data JSON_parse).
Local Abbreviation server_error_detail :=
  (Api.server_error_detail Data JSON_parse).


Lemma includes_sub_append (pre s sub : string) :
  Api.includes_sub s sub = true -> Api.includes_sub (pre ++ s) sub = true.
Proof.
  intros H. induction pre as [| c pre IH]; [exact H |].
  cbn [append Api.includes_sub]. rewrite IH. apply orb_true_r.
Qed.

(** X14.  The test for [HTTP 4] is a test on the message of the error,
    not on the status: an error answer with another status, a 500 for
    one, whose detail (the [error] of the body, else the status text)
    contains [HTTP 4] is not retried either. *)
Theorem server_error_mentioning_http_4 (endpoint : string)
        (options : RequestInit) (k : nat) (response : Api.Response Data)
        (body detail : string) :
  (k < 3)%nat ->
  (forall j, (j < k)%nat ->
             exists e, fails_retryably (Z.of_nat j + 1) endpoint options e) ->
  fetch k (url_of API_BASE_URL endpoint) options = Api.Resolved response ->
  Api.status response < 200 \/ 300 <= Api.status response < 400
  \/ 500 <= Api.status response ->
  Api.text response = Api.Resolved body ->
  server_error_detail response body = Some detail ->
  Api.includes_sub detail "HTTP 4" = true ->
  snd (fetchAPI endpoint options)
  = Api.Rejected
      (Api.new_Error ("HTTP " ++ Number_toString (Api.status response)
                      ++ ": " ++ detail)) /\
  requests (fst (fetchAPI endpoint options)) = S k.
Proof.
  intros Hk Hprev Hfetch Hst Htext Hdetail Hmention.
  assert (Hok : Api.ok response = false).
  { unfold Api.ok.
    destruct (Z.leb_spec 200 (Api.status response));
      destruct (Z.leb_spec (Api.status response) 299);
      try reflexivity; lia. }
  assert (H4 : (400 <=? Api.status response)
               && (Api.status response <? 500) = false).
  { destruct (Z.leb_spec 400 (Api.status response));
      destruct (Z.ltb_spec (Api.status response) 500);
      try reflexivity; lia. }
  assert (Hres :
     snd (try_attempt (Z.of_nat k + 1) endpoint options)
     = Api.Rejected
         (Api.new_Error ("HTTP " ++ Number_toString (Api.status response)
                         ++ ": " ++ detail))).
  { unfold Api.try_attempt. cbn [snd].
    replace (Z.to_nat (Z.of_nat k + 1 - 1)) with k by lia.
    fold (url_of API_BASE_URL endpoint).
    rewrite Hfetch, Hok, Htext, H4. cbn [negb].
    unfold Api.server_error_detail, Api.error_data in Hdetail.
    destruct (JSON_parse body) as [[| e m] |];
      cbv beta iota zeta in Hdetail |- *.
    - discriminate Hdetail.
    - injection Hdetail as <-. reflexivity.
    - injection Hdetail as <-. reflexivity. }
  rewrite (fetchAPI_decided endpoint options k _ Hk Hprev Hres).
  - cbn [fst snd]. split; [reflexivity |].
    apply schedule_measures. exact Hk.
  - cbn [Api.decisive Api.new_Error Api.message].
    apply (includes_sub_append "HTTP ").
    apply includes_sub_append. apply (includes_sub_append ": ").
    exact Hmention.
Qed.

(** After three failures that are retried the loop is left with the last
    error. *)
Lemma fetchAPI_exhausted (endpoint : string) (options : RequestInit)
      (e1 e2 e3 : Api.JsError) :
  fails_retryably 1 endpoint options e1 ->
  fails_retryably 2 endpoint options e2 ->
  fails_retryably 3 endpoint options e3 ->
  fetchAPI endpoint options
  = (schedule (url_of API_BASE_URL endpoint) 2,
     Api.all_retries_failed Data API_BASE_URL (Some e3)).
Proof.
  intros (H1 & N1) (H2 & N2) (H3 & N3). unfold Api.fetchAPI.
  change (Z.to_nat Api.maxRetries) with 3%nat.
  rewrite (retry_loop_step 2). cbv zeta.
  change (Api.maxRetries - Z.of_nat 2) with 1. rewrite H1, N1.
  rewrite (retry_loop_step 1). cbv zeta.
  change (Api.maxRetries - Z.of_nat 1) with 2. rewrite H2, N2.
  rewrite (retry_loop_step 0). cbv zeta.
  change (Api.maxRetries - Z.of_nat 0) with 3. rewrite H3, N3.
  reflexivity.
Qed.

(** X15.  When all three attempts fail in a way that is retried, the
    call ends after three requests and 6000 ms of waiting with the error
    of the last attempt, except that a [TypeError] whose message contains
    [fetch] is replaced by the advice that the backend cannot be
    reached. *)
Theorem fetchAPI_gives_up (endpoint : string) (options : RequestInit)
        (e1 e2 e3 : Api.JsError) :
  fails_retryably 1 endpoint options e1 ->
  fails_retryably 2 endpoint options e2 ->
  fails_retryably 3 endpoint options e3 ->
  requests (fst (fetchAPI endpoint options)) = 3%nat /\
  waited (fst (fetchAPI endpoint options)) = 6000 /\
  (Api.instanceof_TypeError e3 = true ->
   Api.includes_sub (Api.message e3) "fetch" = true ->
   snd (fetchAPI endpoint options)
   = Api.Rejected
       (Api.new_Error
          ("Cannot connect to backend at " ++ API_BASE_URL ++ ". "
           ++ "The backend might be sleeping (Render free tier). "
           ++ "Please wait 30-60 seconds and refresh."))) /\
  (Api.instanceof_TypeError e3 = false
   \/ Api.includes_sub (Api.message e3) "fetch" = false ->
   snd (fetchAPI endpoint options) = Api.Rejected e3).
Proof.
  intros H1 H2 H3.
  rewrite (fetchAPI_exhausted endpoint options e1 e2 e3 H1 H2 H3).
  cbn [fst snd Api.all_retries_failed].
  split; [reflexivity |]. split; [reflexivity |]. split.
  - intros Ht Hf. rewrite Ht, Hf. reflexivity.
  - intros [Ht | Hf].
    + rewrite Ht. reflexivity.
    + rewrite Hf, andb_false_r. reflexivity.
Qed.

Variable status_is_online : Data -> Api.settled bool.

(** X16.  [testConnection] never rejects: it answers [true] exactly when
    [fetchAPI] on the health endpoint returns data whose status is
    ['online'], and [false] in every other case, a failure of the reading
    included; what it asks of the host is what that call of [fetchAPI]
    asks. *)
Theorem testConnection_never_rejects (no_options : RequestInit) :
  let result :=
    Api.testConnection Data RequestInit API_BASE_URL fetch JSON_parse
      null_read status_is_online no_options in
  fst result = fst (fetchAPI Api.health no_options) /\
  exists b,
    snd result = Api.Resolved b /\
    (b = true <->
     exists data,
       snd (fetchAPI Api.health no_options) = Api.Resolved data /\
       status_is_online data = Api.Resolved true).
Proof.
  cbv zeta. unfold Api.testConnection.
  destruct (fetchAPI Api.health no_options) as [events [data | e]];
    cbn [fst snd]; (split; [reflexivity |]).
  - destruct (status_is_online data) as [b | e] eqn:Hs.
    + exists b. split; [reflexivity |]. split.
      * intros ->. exists data. auto.
      * intros (d & Hd & Ho). injection Hd as <-.
        rewrite Hs in Ho. injection Ho as ->. reflexivity.
    + exists false. split; [reflexivity |]. split; [discriminate |].
      intros (d & Hd & Ho). injection Hd as <-.
      rewrite Hs in Ho. discriminate Ho.
  - exists false. split; [reflexivity |]. split; [discriminate |].
    intros (d & Hd & _). discriminate Hd.
Qed.

End FetchProperties.

(** The backend wakes up at the second request. *)
Lemma fetchAPI_first_success_example :
  snd (Api.run [Api.Rejected Api.failed_to_fetch; Api.success "[]"]
               "/api/employees") = Api.Resolved "[]" /\
  requests (fst (Api.run [Api.Rejected Api.failed_to_fetch; Api.success "[]"]
                         "/api/employees")) = 2%nat /\
  waited (fst (Api.run [Api.Rejected Api.failed_to_fetch; Api.success "[]"]
                       "/api/employees")) = 2000.
Proof.
  refine (fetchAPI_first_success string unit Api.base_url
            (Api.scripted [Api.Rejected Api.failed_to_fetch;
                           Api.success "[]"])
            Api.plain_text Api.null_read_error "/api/employees" tt 1
            (Api.mkResponse 200 "OK" (Api.Resolved "[]") (Api.Resolved "[]"))
            "[]" _ _ _ _ _);
    try solve [ lia | reflexivity ].
  intros j Hj. assert (j = 0%nat) as -> by lia.
  exists Api.failed_to_fetch. split; reflexivity.
Defined.


(** A 502 whose text quotes a 404 of the upstream. *)
Lemma server_error_mentioning_http_4_example :
  snd (Api.run [Api.answer 502 "Bad Gateway" "upstream said HTTP 404"]
               "/api/stats")
  = Api.Rejected (Api.new_Error "HTTP 502: upstream said HTTP 404") /\
  requests (fst (Api.run [Api.answer 502 "Bad Gateway"
                                     "upstream said HTTP 404"]
                         "/api/stats")) = 1%nat.
Proof.
  refine (server_error_mentioning_http_4 string unit Api.base_url
            (Api.scripted [Api.answer 502 "Bad Gateway"
                                      "upstream said HTTP 404"])
            Api.plain_text Api.null_read_error "/api/stats" tt 0
            (Api.error_response 502 "Bad Gateway" "upstream said HTTP 404")
            "upstream said HTTP 404" "upstream said HTTP 404"
            _ _ _ _ _ _ _);
    solve [ lia | reflexivity | intros j Hj; lia | cbn; lia ].
Defined.

(** The backend stays asleep. *)
Lemma fetchAPI_gives_up_example :
  requests (fst (Api.run [] "/api/employees")) = 3%nat /\
  waited (fst (Api.run [] "/api/employees")) = 6000 /\
  snd (Api.run [] "/api/employees")
  = Api.Rejected
      (Api.new_Error
         ("Cannot connect to backend at https://backend-35m2.onrender.com. "
          ++ "The backend might be sleeping (Render free tier). "
          ++ "Please wait 30-60 seconds and refresh.")).
Proof.
  destruct (fetchAPI_gives_up string unit Api.base_url (Api.scripted [])
              Api.plain_text Api.null_read_error "/api/employees" tt
              Api.failed_to_fetch Api.failed_to_fetch Api.failed_to_fetch)
    as (Hr & Hw & Ht & _);
    try (split; reflexivity).
  split; [exact Hr |]. split; [exact Hw |].
  apply Ht; reflexivity.
Defined.

(* ================================================================== *)
(** ** The status dot in the two views *)
(* ================================================================== *)

Lemma lower_lower (c : ascii) : lower (lower c) = lower c.
Proof. destruct c as [[] [] [] [] [] [] [] []]; reflexivity. Qed.

Lemma toLowerCase_idempotent (s : string) :
  toLowerCase (toLowerCase s) = toLowerCase s.
Proof.
  induction s as [| c s IH]; cbn [toLowerCase].
  - reflexivity.
  - rewrite lower_lower, IH. reflexivity.
Qed.

(** X17.  For every employee that the dashboard loads, the status dot has
    the same colour in the overview table, which lower-cases the status
    before it looks at it, and in the detail view, which does not: the
    dashboard stores the status of the backend in lower case, and without
    a status of the backend it stores one of [active], [idle] and
    [offline]. *)
Theorem status_dot_is_the_same_in_both_views
        (status : jsval) (workday active idle : bool) :
  exists st,
    Dashboard.normalizedStatus status workday active idle = Returns st /\
    toLowerCase st = st /\
    OverviewTable.getStatusDotColor st = DetailView.getStatusColor st /\
    (falsy status = true ->
     st = "active" \/ st = "idle" \/ st = "offline").
Proof.
  unfold Dashboard.normalizedStatus.
  destruct (falsy status) eqn:Hf; cbn [negb].
  - exists (if workday || active then "active"
            else if idle then "idle" else "offline").
    destruct (workday || active); [| destruct idle];
      repeat split; auto.
  - destruct status as [| | s]; try discriminate Hf.
    exists (toLowerCase s). split; [reflexivity |].
    split; [apply toLowerCase_idempotent |].
    split; [| discriminate].
    unfold OverviewTable.getStatusDotColor. cbv zeta.
    rewrite toLowerCase_idempotent. reflexivity.
Qed.

(* ================================================================== *)
(** ** The list of members: search and filter *)
(* ================================================================== *)

Lemma startsWith_append (pre rest : string) :
  Api.startsWith (pre ++ rest) pre = true.
Proof.
  induction pre as [| c pre IH]; [reflexivity |].
  cbn [append Api.startsWith]. rewrite Ascii.eqb_refl. exact IH.
Qed.

Lemma includes_sub_inside (before found after : string) :
  Api.includes_sub (before ++ found ++ after) found = true.
Proof.
  apply includes_sub_append.
  destruct (found ++ after) as [| c rest] eqn:E.
  - destruct found; [reflexivity | discriminate E].
  - cbn [Api.includes_sub]. rewrite <- E, startsWith_append. reflexivity.
Qed.

Lemma includes_sub_empty (s : string) : Api.includes_sub s "" = true.
Proof. destruct s; reflexivity. Qed.

Lemma filter_of_filter {A : Type} (f g : A -> bool) (l : list A) :
  filter (fun x => f x && g x) l = filter g (filter f l).
Proof.
  induction l as [| x l IH]; [reflexivity |].
  cbn [filter]. destruct (f x); cbn [andb filter]; rewrite IH; reflexivity.
Qed.

Lemma filter_split_length {A : Type} (g : A -> bool) (l : list A) :
  (List.length (filter g l) + List.length (filter (fun x => negb (g x)) l)
   = List.length l)%nat.
Proof.
  induction l as [| x l IH]; [reflexivity |].
  cbn [filter]. destruct (g x); cbn [negb List.length]; lia.
Qed.

Section MembersListProperties.

Import Members.

Lemma filteredMembers_all (members : list Member) (searchTerm : string) :
  filteredMembers members searchTerm all
  = filter (matchesSearch searchTerm) members.
Proof.
  unfold filteredMembers. apply filter_ext. intros m.
  cbn [matchesFilter]. apply andb_true_r.
Qed.

Lemma filteredMembers_by_status (members : list Member)
      (searchTerm : string) (filterStatus : FilterStatus) :
  filteredMembers members searchTerm filterStatus
  = filter (matchesFilter filterStatus)
      (filteredMembers members searchTerm all).
Proof.
  rewrite filteredMembers_all. unfold filteredMembers.
  apply filter_of_filter.
Qed.

(** X18.  Under one search term, the lists shown for [active] and for
    [inactive] split the list shown for [all]: the first holds its
    members that are tracking, the second those that are not, in the
    order of [all]; their lengths add up to its length, and no member
    is in both. *)
Theorem member_filters_split_the_list (members : list Member)
        (searchTerm : string) :
  let shown := filteredMembers members searchTerm in
  shown active
  = filter (fun m => truthy (is_currently_tracking m)) (shown all) /\
  shown inactive
  = filter (fun m => negb (truthy (is_currently_tracking m))) (shown all) /\
  (List.length (shown active) + List.length (shown inactive)
   = List.length (shown all))%nat /\
  (forall m, In m (shown active) -> ~ In m (shown inactive)).
Proof.
  cbv zeta.
  rewrite (filteredMembers_by_status members searchTerm active).
  rewrite (filteredMembers_by_status members searchTerm inactive).
  repeat split.
  - apply filter_split_length.
  - intros m Ha Hi.
    apply filter_In in Ha. apply filter_In in Hi.
    destruct Ha as [_ Ha]. destruct Hi as [_ Hi].
    cbn [matchesFilter] in Ha, Hi. rewrite Ha in Hi. discriminate Hi.
Qed.

(** X19.  Without a search term the filter [all] shows every member, and
    the cards count what the other two filters show: [activeMembers] is
    the length of the list for [active] and [inactiveMembers] that of
    the list for [inactive]; no count is negative. *)
Theorem member_cards_count_the_lists (members : list Member) :
  filteredMembers members "" all = members /\
  Z.of_nat (List.length (filteredMembers members "" active))
  = activeMembers members /\
  Z.of_nat (List.length (filteredMembers members "" inactive))
  = inactiveMembers members /\
  0 <= activeMembers members <= totalMembers members /\
  0 <= inactiveMembers members <= totalMembers members.
Proof.
  assert (Hall : filteredMembers members "" all = members).
  { rewrite filteredMembers_all.
    rewrite (filter_ext (matchesSearch "") (fun _ => true)).
    - induction members as [| m l IH]; [reflexivity |].
      cbn [filter]. rewrite IH. reflexivity.
    - intros m. unfold matchesSearch. cbn [toLowerCase].
      rewrite includes_sub_empty. reflexivity. }
  pose proof (filter_split_length
                (fun m => truthy (is_currently_tracking m)) members) as Hlen.
  pose proof (filter_length_le
                (fun m => truthy (is_currently_tracking m)) members) as Hle.
  rewrite (filteredMembers_by_status members "" active).
  rewrite (filteredMembers_by_status members "" inactive).
  rewrite Hall. unfold inactiveMembers, activeMembers, totalMembers.
  change (matchesFilter active)
    with (fun m => truthy (is_currently_tracking m)).
  change (matchesFilter inactive)
    with (fun m => negb (truthy (is_currently_tracking m))).
  split; [reflexivity |]. split; [reflexivity |].
  split; [lia |]. split; lia.
Qed.

(** X20.  The search ignores case and finds a term anywhere inside the
    name, the address or the employee id: a member whose name, address
    or id contains a text that differs from the search term by case only
    is shown, under every filter that admits the member.  This is so
    when lower-casing the field lower-cases its three parts one by one,
    as it does for every text of code units below 256; it is not so for
    all texts (a Greek capital sigma is lowered by what stands around
    it), and the statement does not cover them. *)
Theorem member_search_ignores_case (members : list Member) (m : Member)
        (searchTerm before found after : string)
        (filterStatus : FilterStatus) :
  In m members ->
  toLowerCase searchTerm = toLowerCase found ->
  toLowerCase (before ++ found ++ after)
  = toLowerCase before ++ toLowerCase found ++ toLowerCase after ->
  full_name m = before ++ found ++ after \/
  email m = before ++ found ++ after \/
  employee_id m = Some (before ++ found ++ after) ->
  matchesFilter filterStatus m = true ->
  In m (filteredMembers members searchTerm filterStatus).
Proof.
  intros Hin Hcase Hparts Hfield Hfilter.
  unfold filteredMembers. apply filter_In. split; [exact Hin |].
  rewrite Hfilter, andb_true_r. unfold matchesSearch. rewrite Hcase.
  assert (Hfound :
            Api.includes_sub (toLowerCase (before ++ found ++ after))
              (toLowerCase found) = true).
  { rewrite Hparts. apply includes_sub_inside. }
  destruct Hfield as [-> | [-> | ->]]; rewrite Hfound.
  - reflexivity.
  - rewrite orb_true_r. reflexivity.
  - apply orb_true_r.
Qed.

Lemma member_search_ignores_case_example :
  let ada := {| full_name := "Ada Lovelace"; email := "ada@example.com";
                employee_id := None;
                is_currently_tracking := Some true |} in
  In ada (filteredMembers [ada] "LOVE" active).
Proof.
  cbv zeta.
  apply (member_search_ignores_case _ _ "LOVE" "Ada " "Love" "lace" active).
  - left. reflexivity.
  - reflexivity.
  - reflexivity.
  - left. reflexivity.
  - reflexivity.
Defined.

End MembersListProperties.

(* ================================================================== *)
(** ** Adding a member: the check of the form *)
(* ================================================================== *)

Lemma append_empty_r (s : string) : s ++ "" = s.
Proof. induction s as [| c s IH]; [reflexivity | cbn; rewrite IH; reflexivity]. Qed.

(** A repeated class matches a first part of the subject, not empty and
    all in the class, after which the continuation succeeds. *)
Lemma many1_spec (p : ascii -> bool) (s : string) (c : captures)
      (k : nat -> string -> captures -> option captures) (i : nat) :
  many1 p i s c k <> None <->
  exists a b, s = a ++ b /\ a <> "" /\ string_forall p a = true /\
              k (String.length a + i)%nat b c <> None.
Proof.
  revert i. induction s as [| x s IH]; intros i.
  - cbn [many1]. split; [intros H; contradiction H; reflexivity |].
    intros (a & b & Hs & Ha & _). destruct a; [contradiction Ha; reflexivity |].
    discriminate Hs.
  - cbn [many1]. split.
    + destruct (p x) eqn:Hx; [| intros H; contradiction H; reflexivity].
      destruct (many1 p (S i) s c k) as [r |] eqn:E.
      * intros _.
        destruct (proj1 (IH (S i))) as (a & b & Hs & Ha & Hall & Hk).
        { rewrite E. discriminate. }
        exists (String x a), b. repeat split.
        -- cbn. rewrite Hs. reflexivity.
        -- discriminate.
        -- cbn. rewrite Hx. exact Hall.
        -- cbn [String.length]. rewrite Nat.add_succ_r in Hk. exact Hk.
      * intros Hk. exists (String x ""), s. repeat split.
        -- discriminate.
        -- cbn. rewrite Hx. reflexivity.
        -- exact Hk.
    + intros (a & b & Hs & Ha & Hall & Hk).
      destruct a as [| y a]; [contradiction Ha; reflexivity |].
      cbn in Hs. injection Hs as <- ->.
      cbn in Hall. apply andb_true_iff in Hall. destruct Hall as [Hx Hall].
      rewrite Hx.
      destruct (many1 p (S i) (a ++ b) c k) as [r |] eqn:E; [discriminate |].
      destruct a as [| z a]; [exact Hk |].
      exfalso. apply (proj2 (IH (S i))); [| exact E].
      exists (String z a), b. repeat split.
      * discriminate.
      * exact Hall.
      * rewrite Nat.add_succ_r. exact Hk.
Qed.

(** The pattern of the address is anchored: only the start of the subject
    is tried with success. *)
Lemma emailRegex_anchored (s : string) (i : nat) :
  psearch AddMember.emailRegex (S i) s = None.
Proof.
  revert i. induction s as [| x s IH]; intros i.
  - reflexivity.
  - cbn [psearch]. rewrite IH. reflexivity.
Qed.

Lemma emailRegex_test_at_start (s : string) :
  pattern_test AddMember.emailRegex s = true
  <-> pmatch_at AddMember.emailRegex 0 s <> None.
Proof.
  unfold pattern_test.
  destruct s as [| x s]; cbn [psearch].
  - destruct (pmatch_at AddMember.emailRegex 0 ""); split;
      intros H; try reflexivity; try discriminate. contradiction H; reflexivity.
  - rewrite emailRegex_anchored.
    destruct (pmatch_at AddMember.emailRegex 0 (String x s)); split;
      intros H; try reflexivity; try discriminate. contradiction H; reflexivity.
Qed.

(** The form accepts the addresses of the shape, and no other. *)
Lemma emailRegex_accepts (s : string) :
  pattern_test AddMember.emailRegex s = true <-> address_shape s.
Proof.
  rewrite emailRegex_test_at_start.
  unfold pmatch_at, AddMember.emailRegex.
  cbn [pseq pmatch rmatch Nat.eqb].
  rewrite many1_spec. split.
  - intros (name & rest & Hs & Hname & Hall1 & Hk).
    destruct rest as [| x rest]; [contradiction Hk; reflexivity |].
    unfold lit in Hk. cbn [rmatch] in Hk.
    destruct (Ascii.eqb_spec "@" x) as [<- | _];
      [| contradiction Hk; reflexivity].
    apply many1_spec in Hk.
    destruct Hk as (domain & rest2 & Hs2 & Hdomain & Hall2 & Hk).
    destruct rest2 as [| y rest2]; [contradiction Hk; reflexivity |].
    destruct (Ascii.eqb_spec "." y) as [<- | _];
      [| contradiction Hk; reflexivity].
    apply many1_spec in Hk.
    destruct Hk as (top & rest3 & Hs3 & Htop & Hall3 & Hk).
    destruct rest3 as [| z rest3]; [| contradiction Hk; reflexivity].
    rewrite append_empty_r in Hs3. subst.
    exists name, domain, top. repeat split; assumption.
  - intros (name & domain & top & Hs & Hname & Hdomain & Htop
            & Hall1 & Hall2 & Hall3).
    exists name, (String "@" (domain ++ String "." top)).
    repeat split; try assumption.
    unfold lit. cbn [rmatch]. rewrite Ascii.eqb_refl.
    apply many1_spec. exists domain, (String "." top).
    repeat split; try assumption.
    rewrite Ascii.eqb_refl.
    apply many1_spec. exists top, "".
    repeat split; try assumption.
    + symmetry. apply append_empty_r.
    + discriminate.
Qed.

(** The pattern of the [catch] block finds nothing in a text without a
    double quote. *)
Lemma error_pattern_needs_quote (s : string) (i : nat) :
  string_forall (fun c => negb (Ascii.eqb c dquote)) s = true ->
  psearch AddMember.error_pattern i s = None.
Proof.
  revert i. induction s as [| x s IH]; intros i Hs.
  - reflexivity.
  - cbn [string_forall] in Hs. apply andb_true_iff in Hs.
    destruct Hs as [Hx Hs].
    cbn [psearch]. rewrite (IH (S i) Hs).
    unfold pmatch_at, AddMember.error_pattern.
    cbn [pseq pmatch rmatch]. unfold lit at 1. cbn [rmatch].
    rewrite (Ascii.eqb_sym dquote x). apply negb_true_iff in Hx.
    rewrite Hx. reflexivity.
Qed.

(* ================================================================== *)
(** ** Adding a member: what the form shows for an answer *)
(* ================================================================== *)

Lemma startsWith_shorter (s a b : string) :
  Api.startsWith s (a ++ b) = true -> Api.startsWith s a = true.
Proof.
  revert s. induction a as [| x a IH]; intros s H; [reflexivity |].
  cbn [append Api.startsWith] in H |- *.
  destruct s as [| y s]; [discriminate H |].
  apply andb_true_iff in H. destruct H as [Hxy H].
  rewrite Hxy. exact (IH s H).
Qed.

Lemma includes_sub_shorter (s a b : string) :
  Api.includes_sub s (a ++ b) = true -> Api.includes_sub s a = true.
Proof.
  induction s as [| y s IH]; cbn [Api.includes_sub]; intros H.
  - apply orb_true_iff in H. destruct H as [H | H]; [| discriminate H].
    rewrite (startsWith_shorter _ _ _ H). reflexivity.
  - apply orb_true_iff in H. destruct H as [H | H].
    + rewrite (startsWith_shorter _ _ _ H). reflexivity.
    + rewrite (IH H). apply orb_true_r.
Qed.

Lemma includes_sub_longer (s a b : string) :
  Api.includes_sub s a = false -> Api.includes_sub s (a ++ b) = false.
Proof.
  intros H. destruct (Api.includes_sub s (a ++ b)) eqn:E; [| reflexivity].
  rewrite (includes_sub_shorter _ _ _ E) in H. discriminate H.
Qed.

Lemma includes_sub_cons (c : ascii) (s sub : string) :
  Api.includes_sub (String c s) sub
  = Api.startsWith (String c s) sub || Api.includes_sub s sub.
Proof. reflexivity. Qed.

(** The advice of [fetchAPI] does not contain [HTTP], unless the base URL
    does. *)
Lemma advice_straddle (u rest : string) :
  Api.startsWith u "HTTP" = false ->
  Api.startsWith (u ++ String "." rest) "HTTP" = false.
Proof.
  intros H.
  destruct u as [| c1 [| c2 [| c3 [| c4 u]]]]; cbn in H |- *.
  - reflexivity.
  - apply andb_false_r.
  - rewrite !andb_false_r. reflexivity.
  - rewrite !andb_false_r. reflexivity.
  - exact H.
Qed.

Lemma advice_tail (u rest : string) :
  Api.includes_sub u "HTTP" = false ->
  Api.includes_sub (String "." rest) "HTTP" = false ->
  Api.includes_sub (u ++ String "." rest) "HTTP" = false.
Proof.
  intros Hu Hrest. induction u as [| c u IH]; [exact Hrest |].
  rewrite includes_sub_cons in Hu. apply orb_false_iff in Hu.
  destruct Hu as [Hhead Hu].
  change (String c u ++ String "." rest)
    with (String c (u ++ String "." rest)).
  rewrite includes_sub_cons. apply orb_false_iff. split.
  - exact (advice_straddle (String c u) rest Hhead).
  - exact (IH Hu).
Qed.

Lemma advice_has_no_http (API_BASE_URL : string) :
  Api.includes_sub API_BASE_URL "HTTP" = false ->
  Api.includes_sub
    ("Cannot connect to backend at " ++ API_BASE_URL ++ ". "
     ++ "The backend might be sleeping (Render free tier). "
     ++ "Please wait 30-60 seconds and refresh.") "HTTP" = false.
Proof.
  intros H.
  cbn [append]. rewrite !includes_sub_cons.
  cbn [Api.startsWith Ascii.eqb Bool.eqb andb orb].
  apply advice_tail; [exact H |]. vm_compute. reflexivity.
Qed.

Section FetchAnswers.

Variable Data : Type.
Variable RequestInit : Type.
Variable API_BASE_URL : string.
Variable fetch : nat -> string -> RequestInit -> Api.settled (Api.Response Data).
Variable JSON_parse : string -> option Api.ErrorData.
Variable null_read : Api.JsError.

Local Abbreviation try_attempt :=
  (Api.try_attempt Data RequestInit API_BASE_URL fetch JSON_parse null_read).
Local Abbreviation fetchAPI :=
  (Api.fetchAPI Data RequestInit API_BASE_URL fetch JSON_parse null_read).

Lemma attempt_rejected (endpoint : string) (options : RequestInit)
      (k : nat) (e : Api.JsError) :
  fetch k (url_of API_BASE_URL endpoint) options = Api.Rejected e ->
  snd (try_attempt (Z.of_nat k + 1) endpoint options) = Api.Rejected e.
Proof.
  intros Hfetch. unfold Api.try_attempt. cbn [snd].
  replace (Z.to_nat (Z.of_nat k + 1 - 1)) with k by lia.
  fold (url_of API_BASE_URL endpoint). rewrite Hfetch. reflexivity.
Qed.

Lemma attempt_client_error (endpoint : string) (options : RequestInit)
      (k : nat) (response : Api.Response Data) (body detail : string) :
  fetch k (url_of API_BASE_URL endpoint) options = Api.Resolved response ->
  400 <= Api.status response < 500 ->
  Api.text response = Api.Resolved body ->
  Api.client_error_detail Data JSON_parse response body = Some detail ->
  snd (try_attempt (Z.of_nat k + 1) endpoint options)
  = Api.Rejected
      (Api.new_Error ("HTTP " ++ Number_toString (Api.status response)
                      ++ ": " ++ detail)).
Proof.
  intros Hfetch Hst Htext Hdetail.
  assert (Hok : Api.ok response = false).
  { unfold Api.ok. destruct (Z.leb_spec (Api.status response) 299);
      [lia | apply andb_false_r]. }
  assert (H4 : (400 <=? Api.status response)
               && (Api.status response <? 500) = true).
  { apply andb_true_intro. split; [apply Z.leb_le | apply Z.ltb_lt]; lia. }
  unfold Api.try_attempt. cbn [snd].
  replace (Z.to_nat (Z.of_nat k + 1 - 1)) with k by lia.
  fold (url_of API_BASE_URL endpoint).
  rewrite Hfetch, Hok, Htext, H4. cbn [negb].
  unfold Api.client_error_detail, Api.error_data in Hdetail.
  destruct (JSON_parse body) as [[| [e |] m] |];
    cbv beta iota zeta in Hdetail |- *.
  - discriminate Hdetail.
  - injection Hdetail as <-. reflexivity.
  - injection Hdetail as <-. reflexivity.
  - destruct (Api.str_or body (Api.statusText response) =? "")%string;
      injection Hdetail as <-; reflexivity.
Qed.

Lemma attempt_server_error (endpoint : string) (options : RequestInit)
      (k : nat) (response : Api.Response Data) (body detail : string) :
  fetch k (url_of API_BASE_URL endpoint) options = Api.Resolved response ->
  500 <= Api.status response ->
  Api.text response = Api.Resolved body ->
  Api.server_error_detail Data JSON_parse response body = Some detail ->
  snd (try_attempt (Z.of_nat k + 1) endpoint options)
  = Api.Rejected
      (Api.new_Error ("HTTP " ++ Number_toString (Api.status response)
                      ++ ": " ++ detail)).
Proof.
  intros Hfetch Hst Htext Hdetail.
  assert (Hok : Api.ok response = false).
  { unfold Api.ok. destruct (Z.leb_spec (Api.status response) 299);
      [lia | apply andb_false_r]. }
  assert (H4 : (400 <=? Api.status response)
               && (Api.status response <? 500) = false).
  { destruct (Z.ltb_spec (Api.status response) 500);
      [lia | apply andb_false_r]. }
  unfold Api.try_attempt. cbn [snd].
  replace (Z.to_nat (Z.of_nat k + 1 - 1)) with k by lia.
  fold (url_of API_BASE_URL endpoint).
  rewrite Hfetch, Hok, Htext, H4. cbn [negb].
  unfold Api.server_error_detail, Api.error_data in Hdetail.
  destruct (JSON_parse body) as [[| e m] |];
    cbv beta iota zeta in Hdetail |- *.
  - discriminate Hdetail.
  - injection Hdetail as <-. reflexivity.
  - destruct (Api.str_or body (Api.statusText response) =? "")%string;
      injection Hdetail as <-; reflexivity.
Qed.

(** Every call starts with a request. *)
Lemma fetchAPI_first_request (endpoint : string) (options : RequestInit) :
  exists rest,
    fst (fetchAPI endpoint options)
    = Api.Request (url_of API_BASE_URL endpoint) :: rest.
Proof.
  unfold Api.fetchAPI. change (Z.to_nat Api.maxRetries) with 3%nat.
  rewrite (retry_loop_step Data RequestInit API_BASE_URL fetch JSON_parse
             null_read 2).
  cbv zeta.
  destruct (snd (try_attempt _ endpoint options)) as [d1 | e1];
    [eexists; reflexivity |].
  destruct (Api.includes_sub (Api.message e1) "HTTP 4");
    eexists; reflexivity.
Qed.

End FetchAnswers.

Section AddMemberProperties.

Import AddMember.

Variable Data : Type.
Variable API_BASE_URL : string.
Variable fetch :
  nat -> string -> RequestInit -> Api.settled (Api.Response Data).
Variable JSON_parse : string -> option Api.ErrorData.
Variable null_read : Api.JsError.
Variable null_read_success : Api.JsError.
Variable JSON_stringify : FormData -> string.
Variable reply : Data -> Reply.

Local Abbreviation handleAddMember :=
  (AddMember.handleAddMember Data API_BASE_URL fetch JSON_parse null_read
     null_read_success JSON_stringify reply).
Local Abbreviation settle :=
  (AddMember.settle Data null_read_success reply).
Local Abbreviation post := (AddMember.post JSON_stringify).
Local Abbreviation fetchAPI :=
  (Api.fetchAPI Data RequestInit API_BASE_URL fetch JSON_parse null_read).
Local Abbreviation fails_retryably :=
  (Api.fails_retryably Data RequestInit API_BASE_URL fetch JSON_parse
     null_read).

(** The URL of the request. *)
Local Abbreviation members_url := (API_BASE_URL ++ API_BASE).

Lemma members_url_eq : url_of API_BASE_URL API_BASE = members_url.
Proof. reflexivity. Qed.

(** The state in which the form waits for the answer. *)
Local Abbreviation waiting st :=
  (set_submitting (set_errorMessage st "") true).

(** A form that passes the check is sent. *)
Lemma handleAddMember_submits (st : State) :
  full_name (formData st) <> "" ->
  address_shape (email (formData st)) ->
  handleAddMember st
  = ((map Net (fst (fetchAPI API_BASE (post (formData st))))
        ++ fst (settle (waiting st) (formData st)
                  (snd (fetchAPI API_BASE (post (formData st))))))%list,
     set_submitting
       (snd (settle (waiting st) (formData st)
               (snd (fetchAPI API_BASE (post (formData st))))))
       false).
Proof.
  intros Hname Hshape. unfold AddMember.handleAddMember. cbv zeta.
  assert (Hemail : (email (formData st) =? "")%string = false).
  { apply String.eqb_neq. intros E.
    destruct Hshape as (n & d & t & Hs & Hn & _).
    rewrite E in Hs. destruct n; [contradiction Hn; reflexivity |].
    discriminate Hs. }
  apply String.eqb_neq in Hname.
  cbn [formData set_errorMessage]. rewrite Hemail, Hname. cbn [orb].
  rewrite (proj2 (emailRegex_accepts _) Hshape). cbn [negb].
  destruct (fetchAPI API_BASE (post (formData st))) as [events result].
  cbn [fst snd].
  destruct (settle _ (formData st) result) as [effects st'].
  reflexivity.
Qed.

(** X21.  [handleAddMember] asks nothing of the backend for a form that
    fails the check: with an empty address or name, or with an address
    that is not of the shape [name@domain.top] (three parts that are not
    empty and hold neither white space nor [@]; the dot is any dot of
    what follows the [@]), it only sets the message.  A form that passes
    is sent to [/api/members], and the form is no longer submitting at
    the end, whatever the answer. *)
Theorem the_form_is_checked_before_it_is_sent (st : State) :
  let form := formData st in
  (email form = "" \/ full_name form = "" ->
   handleAddMember st
   = ([], set_errorMessage st "Email and Name are required")) /\
  (email form <> "" -> full_name form <> "" ->
   ~ address_shape (email form) ->
   handleAddMember st
   = ([], set_errorMessage st "Please enter a valid email address")) /\
  (full_name form <> "" -> address_shape (email form) ->
   exists rest,
     fst (handleAddMember st) = Net (Api.Request members_url) :: rest /\
     submitting (snd (handleAddMember st)) = false).
Proof.
  cbv zeta. repeat split.
  - intros Hempty. unfold AddMember.handleAddMember. cbv zeta.
    cbn [formData set_errorMessage].
    assert (E : (email (formData st) =? "")%string
                || (full_name (formData st) =? "")%string = true).
    { apply orb_true_iff.
      destruct Hempty as [-> | ->]; [left | right]; reflexivity. }
    rewrite E. reflexivity.
  - intros Hemail Hname Hshape. unfold AddMember.handleAddMember. cbv zeta.
    cbn [formData set_errorMessage].
    apply String.eqb_neq in Hemail. apply String.eqb_neq in Hname.
    rewrite Hemail, Hname. cbn [orb].
    destruct (pattern_test emailRegex (email (formData st))) eqn:T.
    + contradiction Hshape. apply emailRegex_accepts. exact T.
    + reflexivity.
  - intros Hname Hshape.
    rewrite (handleAddMember_submits st Hname Hshape). cbn [fst snd].
    destruct (fetchAPI_first_request Data RequestInit API_BASE_URL fetch
                JSON_parse null_read API_BASE (post (formData st)))
      as (rest & ->).
    rewrite members_url_eq.
    eexists. split; reflexivity.
Qed.

(** What the form leaves when the call has failed with the error [e]. *)
Lemma handleAddMember_caught (st : State) (trace : list Api.Event)
      (e : Api.JsError) :
  full_name (formData st) <> "" ->
  address_shape (email (formData st)) ->
  fetchAPI API_BASE (post (formData st)) = (trace, Api.Rejected e) ->
  handleAddMember st
  = (map Net trace,
     {| showAddModal := showAddModal st; submitting := false;
        errorMessage := shown_for_error (formData st) (Api.message e);
        formData := formData st |}).
Proof.
  intros Hname Hshape Hcall.
  rewrite (handleAddMember_submits st Hname Hshape), Hcall.
  cbn [fst snd AddMember.settle]. rewrite app_nil_r. reflexivity.
Qed.


Lemma shown_for_400 (form : FormData) (detail : string) :
  string_forall (fun c => negb (Ascii.eqb c dquote)) detail = true ->
  Api.includes_sub detail "HTTP 409" = false ->
  shown_for_error form ("HTTP 400: " ++ detail)
  = "Invalid request. Please check your input.".
Proof.
  intros Hquote H409. unfold shown_for_error.
  change (Api.str_or ("HTTP 400: " ++ detail)
            "Failed to add member. Please try again.")
    with ("HTTP 400: " ++ detail).
  assert (E409 : Api.includes_sub ("HTTP 400: " ++ detail) "HTTP 409"
                 = false).
  { cbn [append]. rewrite !includes_sub_cons.
    cbn [Api.startsWith Ascii.eqb Bool.eqb andb orb]. exact H409. }
  assert (E400 : Api.includes_sub ("HTTP 400: " ++ detail) "HTTP 400"
                 = true) by reflexivity.
  rewrite E409, E400. unfold pattern_match.
  rewrite error_pattern_needs_quote; [reflexivity |].
  cbn [append string_forall]. exact Hquote.
Qed.

Lemma shown_for_503 (form : FormData) (detail : string) :
  Api.includes_sub detail "HTTP 4" = false ->
  shown_for_error form ("HTTP 503: " ++ detail)
  = "Database connection failed. Please try again in a moment.".
Proof.
  intros H4. unfold shown_for_error.
  change (Api.str_or ("HTTP 503: " ++ detail)
            "Failed to add member. Please try again.")
    with ("HTTP 503: " ++ detail).
  assert (E4 : Api.includes_sub ("HTTP 503: " ++ detail) "HTTP 4" = false).
  { cbn [append]. rewrite !includes_sub_cons.
    cbn [Api.startsWith Ascii.eqb Bool.eqb andb orb]. exact H4. }
  pose proof (includes_sub_longer _ "HTTP 4" "09" E4) as E409.
  pose proof (includes_sub_longer _ "HTTP 4" "00" E4) as E400.
  cbn [append] in E409, E400. cbn [append]. rewrite E409, E400.
  reflexivity.
Qed.

Lemma shown_for_advice (form : FormData) :
  Api.includes_sub API_BASE_URL "HTTP" = false ->
  shown_for_error form
    ("Cannot connect to backend at " ++ API_BASE_URL ++ ". "
     ++ "The backend might be sleeping (Render free tier). "
     ++ "Please wait 30-60 seconds and refresh.")
  = "Cannot connect to server. The backend may be sleeping (Render free tier). Please wait 30-60 seconds and try again.".
Proof.
  intros Hurl. pose proof (advice_has_no_http API_BASE_URL Hurl) as Hno.
  unfold shown_for_error.
  set (advice := "Cannot connect to backend at " ++ API_BASE_URL ++ ". "
     ++ "The backend might be sleeping (Render free tier). "
     ++ "Please wait 30-60 seconds and refresh.") in *.
  assert (Hor : Api.str_or advice "Failed to add member. Please try again."
                = advice) by reflexivity.
  rewrite Hor.
  pose proof (includes_sub_longer _ "HTTP" " 409" Hno) as E409.
  pose proof (includes_sub_longer _ "HTTP" " 400" Hno) as E400.
  pose proof (includes_sub_longer _ "HTTP" " 503" Hno) as E503.
  cbn [append] in E409, E400, E503. rewrite E409, E400, E503.
  assert (Hcc : Api.includes_sub advice "Cannot connect" = true)
    by reflexivity.
  rewrite Hcc. reflexivity.
Qed.


(** X23.  The reason of a refusal is not shown: [fetchAPI] puts the
    detail of a 400 answer, the [error] of the body for one, into the
    message of its error as plain text, and the form looks in that
    message for the [error] of a JSON text.  For a detail without a
    double quote (and without the text [HTTP 409]) the form shows its own
    sentence and not the detail. *)
Theorem a_refusal_loses_its_reason (st : State)
        (response : Api.Response Data) (body detail : string) :
  full_name (formData st) <> "" ->
  address_shape (email (formData st)) ->
  fetch 0%nat members_url (post (formData st)) = Api.Resolved response ->
  Api.status response = 400 ->
  Api.text response = Api.Resolved body ->
  Api.client_error_detail Data JSON_parse response body = Some detail ->
  string_forall (fun c => negb (Ascii.eqb c dquote)) detail = true ->
  Api.includes_sub detail "HTTP 409" = false ->
  handleAddMember st
  = ([Net (Api.Request members_url)],
     {| showAddModal := showAddModal st; submitting := false;
        errorMessage := "Invalid request. Please check your input.";
        formData := formData st |}).
Proof.
  intros Hname Hshape Hfetch Hst Htext Hdetail Hquote H409.
  pose proof (attempt_client_error Data RequestInit API_BASE_URL fetch
                JSON_parse null_read API_BASE (post (formData st)) 0
                response body detail Hfetch ltac:(lia) Htext Hdetail)
    as Hres.
  rewrite Hst in Hres.
  change (Number_toString 400) with "400" in Hres.
  rewrite (handleAddMember_caught st
             (schedule (url_of API_BASE_URL API_BASE) 0)
             (Api.new_Error ("HTTP 400: " ++ detail)) Hname Hshape).
  - cbn [Api.message Api.new_Error].
    rewrite (shown_for_400 _ _ Hquote H409). reflexivity.
  - apply (fetchAPI_decided Data RequestInit API_BASE_URL fetch JSON_parse
             null_read API_BASE (post (formData st)) 0).
    + lia.
    + intros j Hj. lia.
    + exact Hres.
    + reflexivity.
Qed.

(** X24.  A backend that cannot be reached: when the three requests of a
    form that passes the check fail with errors whose messages do not
    contain [HTTP 4], the last one a [TypeError] whose message contains
    [fetch], the form has asked three times and waited 2000 and 4000 ms
    in between, stays open with what was typed, and shows its advice to
    wait and try again.  The base URL is taken not to contain the text
    [HTTP]. *)
Theorem an_unreachable_backend_is_reported (st : State)
        (e1 e2 e3 : Api.JsError) :
  full_name (formData st) <> "" ->
  address_shape (email (formData st)) ->
  fetch 0%nat members_url (post (formData st)) = Api.Rejected e1 ->
  fetch 1%nat members_url (post (formData st)) = Api.Rejected e2 ->
  fetch 2%nat members_url (post (formData st)) = Api.Rejected e3 ->
  Api.includes_sub (Api.message e1) "HTTP 4" = false ->
  Api.includes_sub (Api.message e2) "HTTP 4" = false ->
  Api.includes_sub (Api.message e3) "HTTP 4" = false ->
  Api.instanceof_TypeError e3 = true ->
  Api.includes_sub (Api.message e3) "fetch" = true ->
  Api.includes_sub API_BASE_URL "HTTP" = false ->
  handleAddMember st
  = ([Net (Api.Request members_url); Net (Api.Wait 2000);
      Net (Api.Request members_url); Net (Api.Wait 4000);
      Net (Api.Request members_url)],
     {| showAddModal := showAddModal st; submitting := false;
        errorMessage :=
          "Cannot connect to server. The backend may be sleeping (Render free tier). Please wait 30-60 seconds and try again.";
        formData := formData st |}).
Proof.
  intros Hname Hshape H1 H2 H3 N1 N2 N3 Htype Hmsg Hurl.
  pose proof (fetchAPI_exhausted Data RequestInit API_BASE_URL fetch
                JSON_parse null_read API_BASE (post (formData st))
                e1 e2 e3) as Hcall.
  rewrite (handleAddMember_caught st
             (schedule (url_of API_BASE_URL API_BASE) 2)
             (Api.new_Error
                ("Cannot connect to backend at " ++ API_BASE_URL ++ ". "
                 ++ "The backend might be sleeping (Render free tier). "
                 ++ "Please wait 30-60 seconds and refresh."))
             Hname Hshape).
  - cbn [Api.message Api.new_Error].
    rewrite (shown_for_advice _ Hurl). reflexivity.
  - rewrite Hcall.
    + unfold Api.all_retries_failed. rewrite Htype, Hmsg. reflexivity.
    + split; [| exact N1].
      exact (attempt_rejected Data RequestInit API_BASE_URL fetch
               JSON_parse null_read API_BASE _ 0 e1 H1).
    + split; [| exact N2].
      exact (attempt_rejected Data RequestInit API_BASE_URL fetch
               JSON_parse null_read API_BASE _ 1 e2 H2).
    + split; [| exact N3].
      exact (attempt_rejected Data RequestInit API_BASE_URL fetch
               JSON_parse null_read API_BASE _ 2 e3 H3).
Qed.

(** X25.  A backend without its database: when every request of a form
    that passes the check is answered with the status 503, a body that
    can be read and a detail without the text [HTTP 4], the form has
    asked three times and waited 2000 and 4000 ms in between, stays
    open with what was typed, and shows that the connection to the
    database failed. *)
Theorem a_failing_database_is_reported (st : State)
        (response : Api.Response Data) (body detail : string) :
  full_name (formData st) <> "" ->
  address_shape (email (formData st)) ->
  (forall n, fetch n members_url (post (formData st))
             = Api.Resolved response) ->
  Api.status response = 503 ->
  Api.text response = Api.Resolved body ->
  Api.server_error_detail Data JSON_parse response body = Some detail ->
  Api.includes_sub detail "HTTP 4" = false ->
  handleAddMember st
  = ([Net (Api.Request members_url); Net (Api.Wait 2000);
      Net (Api.Request members_url); Net (Api.Wait 4000);
      Net (Api.Request members_url)],
     {| showAddModal := showAddModal st; submitting := false;
        errorMessage :=
          "Database connection failed. Please try again in a moment.";
        formData := formData st |}).
Proof.
  intros Hname Hshape Hfetch Hst Htext Hdetail H4.
  assert (Hres : forall k,
             snd (Api.try_attempt Data RequestInit API_BASE_URL fetch
                    JSON_parse null_read (Z.of_nat k + 1) API_BASE
                    (post (formData st)))
             = Api.Rejected (Api.new_Error ("HTTP 503: " ++ detail))).
  { intros k.
    pose proof (attempt_server_error Data RequestInit API_BASE_URL fetch
                  JSON_parse null_read API_BASE (post (formData st)) k
                  response body detail (Hfetch k) ltac:(lia) Htext Hdetail)
      as Hres.
    rewrite Hst in Hres.
    change (Number_toString 503) with "503" in Hres. exact Hres. }
  assert (Hno : Api.includes_sub ("HTTP 503: " ++ detail) "HTTP 4" = false).
  { cbn [append]. rewrite !includes_sub_cons.
    cbn [Api.startsWith Ascii.eqb Bool.eqb andb orb]. exact H4. }
  pose proof (fetchAPI_exhausted Data RequestInit API_BASE_URL fetch
                JSON_parse null_read API_BASE (post (formData st))
                (Api.new_Error ("HTTP 503: " ++ detail))
                (Api.new_Error ("HTTP 503: " ++ detail))
                (Api.new_Error ("HTTP 503: " ++ detail))) as Hcall.
  rewrite (handleAddMember_caught st
             (schedule (url_of API_BASE_URL API_BASE) 2)
             (Api.new_Error ("HTTP 503: " ++ detail)) Hname Hshape).
  - cbn [Api.message Api.new_Error].
    rewrite (shown_for_503 _ _ H4). reflexivity.
  - rewrite Hcall.
    + reflexivity.
    + split; [exact (Hres 0%nat) | exact Hno].
    + split; [exact (Hres 1%nat) | exact Hno].
    + split; [exact (Hres 2%nat) | exact Hno].
Qed.

End AddMemberProperties.

Lemma filled_in_shape :
  address_shape (AddMember.email (AddMember.formData AddMember.filled_in)).
Proof.
  exists "ada", "example", "com".
  repeat split; solve [reflexivity | discriminate].
Qed.


Lemma a_refusal_loses_its_reason_example :
  AddMember.run (Api.answer 400 "BAD REQUEST" "body")
    "Full name is too long" AddMember.filled_in
  = ([AddMember.Net
        (Api.Request "https://backend-35m2.onrender.com/api/members")],
     {| AddMember.showAddModal := true; AddMember.submitting := false;
        AddMember.errorMessage := "Invalid request. Please check your input.";
        AddMember.formData := AddMember.formData AddMember.filled_in |}).
Proof.
  apply (a_refusal_loses_its_reason string Api.base_url
           (AddMember.always (Api.answer 400 "BAD REQUEST" "body"))
           (AddMember.with_error "Full name is too long")
           Api.null_read_error Api.null_read_error AddMember.write_form
           (fun _ => AddMember.NullData) AddMember.filled_in
           (Api.error_response 400 "BAD REQUEST" "body")
           "body" "Full name is too long").
  - discriminate.
  - exact filled_in_shape.
  - reflexivity.
  - reflexivity.
  - reflexivity.
  - reflexivity.
  - reflexivity.
  - reflexivity.
Defined.

Lemma an_unreachable_backend_is_reported_example :
  AddMember.run (Api.Rejected Api.failed_to_fetch) "" AddMember.filled_in
  = (map AddMember.Net
       (schedule "https://backend-35m2.onrender.com/api/members" 2),
     {| AddMember.showAddModal := true; AddMember.submitting := false;
        AddMember.errorMessage :=
          "Cannot connect to server. The backend may be sleeping (Render free tier). Please wait 30-60 seconds and try again.";
        AddMember.formData := AddMember.formData AddMember.filled_in |}).
Proof.
  apply (an_unreachable_backend_is_reported string Api.base_url
           (AddMember.always (Api.Rejected Api.failed_to_fetch))
           (AddMember.with_error "")
           Api.null_read_error Api.null_read_error AddMember.write_form
           (fun _ => AddMember.NullData) AddMember.filled_in
           Api.failed_to_fetch Api.failed_to_fetch Api.failed_to_fetch).
  - discriminate.
  - exact filled_in_shape.
  - reflexivity.
  - reflexivity.
  - reflexivity.
  - reflexivity.
  - reflexivity.
  - reflexivity.
  - reflexivity.
  - reflexivity.
  - reflexivity.
Defined.

Lemma a_failing_database_is_reported_example :
  AddMember.run (Api.answer 503 "SERVICE UNAVAILABLE" "body")
    "Database connection failed" AddMember.filled_in
  = (map AddMember.Net
       (schedule "https://backend-35m2.onrender.com/api/members" 2),
     {| AddMember.showAddModal := true; AddMember.submitting := false;
        AddMember.errorMessage :=
          "Database connection failed. Please try again in a moment.";
        AddMember.formData := AddMember.formData AddMember.filled_in |}).
Proof.
  apply (a_failing_database_is_reported string Api.base_url
           (AddMember.always (Api.answer 503 "SERVICE UNAVAILABLE" "body"))
           (AddMember.with_error "Database connection failed")
           Api.null_read_error Api.null_read_error AddMember.write_form
           (fun _ => AddMember.NullData) AddMember.filled_in
           (Api.error_response 503 "SERVICE UNAVAILABLE" "body")
           "body" "Database connection failed").
  - discriminate.
  - exact filled_in_shape.
  - reflexivity.
  - reflexivity.
  - reflexivity.
  - reflexivity.
  - reflexivity.
Defined.
